(** * Accounts backend: staged registration, OTP ledger, login, profile update

    A shallow embedding of [backend/accounts] (models.py, serializers.py,
    views.py) and [backend/utils/response.py].

    - Tables are finite maps from the primary key (a UUID) to the row.
    - A view is a computation in the monad [M]: it threads the [World]
      (database, clock, entropy, mail transport, stdout) and either returns
      a value or raises a Python exception.  Writes made before an exception
      stay in the world: the views open no transaction.
    - Code of Django, Django REST framework and simplejwt that the source
      only calls (field validation, password hashing, [authenticate], token
      signing) is collected in the record [Framework]; every theorem holds for
      all of its values. *)

From stdpp Require Import base option list strings gmap fin_maps.
From Stdlib Require Import ZArith NArith Lia Ascii.

Local Open Scope string_scope.
Local Open Scope Z_scope.

(** ** Basic types *)

(** [uuid.UUID]: a 128-bit number. *)
Definition uuid := N.

(** [datetime]: microseconds since the epoch. *)
Definition datetime := Z.

(** [timedelta(minutes=m)] in microseconds. *)
Definition timedelta_minutes (m : Z) : Z := m * 60 * 1000000.

(** [timedelta(days=d)] in microseconds. *)
Definition timedelta_days (d : Z) : Z := d * 24 * 60 * 60 * 1000000.

(** The newline of the f-strings of the mail bodies. *)
Definition nl : string := String (Ascii.ascii_of_nat 10) EmptyString.

(** ** models.py *)

Inductive CustomerType := Retail | Trade.

Inductive Province :=
  | EASTERN_CAPE | FREE_STATE | GAUTENG | KWAZULU_NATAL | LIMPOPO
  | MPUMALANGA | NORTHERN_CAPE | NORTH_WEST | WESTERN_CAPE.

Inductive BusinessType := ELECTRICIAN | CONTRACTOR | RESELLER | OTHER.

#[global] Instance CustomerType_eq_dec : EqDecision CustomerType.
Proof. solve_decision. Defined.
#[global] Instance Province_eq_dec : EqDecision Province.
Proof. solve_decision. Defined.
#[global] Instance BusinessType_eq_dec : EqDecision BusinessType.
Proof. solve_decision. Defined.

(** The stored value of each choice ([models.TextChoices]). *)
Definition CustomerType_value (t : CustomerType) : string :=
  match t with Retail => "Retail" | Trade => "Trade" end.

Definition Province_value (p : Province) : string :=
  match p with
  | EASTERN_CAPE => "Eastern Cape" | FREE_STATE => "Free State"
  | GAUTENG => "Gauteng" | KWAZULU_NATAL => "KwaZulu-Natal"
  | LIMPOPO => "Limpopo" | MPUMALANGA => "Mpumalanga"
  | NORTHERN_CAPE => "Northern Cape" | NORTH_WEST => "North West"
  | WESTERN_CAPE => "Western Cape"
  end.

Definition Province_choices : list Province :=
  [EASTERN_CAPE; FREE_STATE; GAUTENG; KWAZULU_NATAL; LIMPOPO;
   MPUMALANGA; NORTHERN_CAPE; NORTH_WEST; WESTERN_CAPE].

Definition BusinessType_value (b : BusinessType) : string :=
  match b with
  | ELECTRICIAN => "Electrician" | CONTRACTOR => "Contractor"
  | RESELLER => "Reseller" | OTHER => "Other"
  end.

Definition BusinessType_choices : list BusinessType :=
  [ELECTRICIAN; CONTRACTOR; RESELLER; OTHER].

(** [class Customer(AbstractBaseUser, PermissionsMixin)]: a row of
    [customers].  [password] holds the hash. *)
Record Customer := {
  customer_id : uuid;
  customer_type : CustomerType;
  first_name : string;
  last_name : string;
  customer_email : string;
  phone_number : option string;
  password : string;
  is_verified : bool;
  is_active : bool;
  is_staff : bool;
  is_superuser : bool;
  customer_created_at : datetime;
  customer_updated_at : datetime;
}.

(** [class BillingAddress] and [class DeliveryAddress] declare the same
    columns; one record serves both tables. *)
Record Address := {
  address_id : uuid;
  address_user : uuid;
  company_name : option string;
  vat_number : option string;
  company_registration : option string;
  po_number : option string;
  address_line_1 : string;
  address_line_2 : option string;
  city : string;
  postal_code : string;
  province : string;
  address_created_at : datetime;
  address_updated_at : datetime;
}.

(** [class TradeInformation]: [trade_user] is the one-to-one key. *)
Record TradeInformation := {
  trade_id : uuid;
  trade_user : uuid;
  business_type : string;
  monthly_statement : option string;
  procurement_no : option string;
  is_approved : bool;
  trade_created_at : datetime;
  trade_updated_at : datetime;
}.

(** An uploaded file as the serializers see it: name and size in bytes. *)
Record UploadedFile := { file_name : string; file_size : N }.

Record TradeDocument := {
  document_id : uuid;
  document_trade_info : uuid;
  document : UploadedFile;
  document_created_at : datetime;
  document_updated_at : datetime;
}.

(** [class OTP]: [otp_email] is free text, not a foreign key. *)
Record OTP := {
  otp_id : uuid;
  otp_email : string;
  otp_otp : string;
  otp_created_at : datetime;
  otp_expires_at : datetime;
  otp_is_used : bool;
}.

(** ** The world a request runs in *)

Record DB := {
  customers : gmap uuid Customer;
  billing_addresses : gmap uuid Address;
  delivery_addresses : gmap uuid Address;
  trade_information : gmap uuid TradeInformation;
  trade_documents : gmap uuid TradeDocument;
  otps : gmap uuid OTP;
}.

(** What [send_mail(subject, message, from_email, recipient_list)] is given. *)
Record Mail := {
  mail_subject : string;
  mail_message : string;
  mail_from : string;
  mail_recipient_list : list string;
}.

(** - [time] is what the next reading of the clock returns; the reading
      number [k] is followed by [elapse k] microseconds, so the clock never
      runs backwards.
    - [entropy] is the stream the random draws ([uuid.uuid4],
      [random.choices]) are taken from.
    - [mail_log] lists the calls of [send_mail], last call first, each with
      whether the transport accepted it ([smtp_ok]).
    - [blacklist] holds the identifiers of the revoked refresh tokens, the
      rows of [BlacklistedToken], and [outstanding] the identifiers of the
      rows of [OutstandingToken], both tables of the blacklist application
      of simplejwt that [admin.py] imports. *)
Record World := {
  db : DB;
  time : datetime;
  clock_reads : nat;
  elapse : nat -> N;
  entropy : nat -> N;
  draws : nat;
  mail_log : list (Mail * bool);
  smtp_ok : Mail -> bool;
  stdout : list string;
  blacklist : gset N;
  outstanding : gset N;
}.

Definition set_db (f : DB -> DB) (w : World) : World :=
  {| db := f (db w); time := time w; clock_reads := clock_reads w;
     elapse := elapse w; entropy := entropy w; draws := draws w;
     mail_log := mail_log w; smtp_ok := smtp_ok w; stdout := stdout w;
     blacklist := blacklist w;
     outstanding := outstanding w |}.

Definition set_customers (f : gmap uuid Customer -> gmap uuid Customer) (d : DB) : DB :=
  {| customers := f (customers d); billing_addresses := billing_addresses d;
     delivery_addresses := delivery_addresses d;
     trade_information := trade_information d;
     trade_documents := trade_documents d; otps := otps d |}.

Definition set_billing_addresses (f : gmap uuid Address -> gmap uuid Address) (d : DB) : DB :=
  {| customers := customers d; billing_addresses := f (billing_addresses d);
     delivery_addresses := delivery_addresses d;
     trade_information := trade_information d;
     trade_documents := trade_documents d; otps := otps d |}.

Definition set_delivery_addresses (f : gmap uuid Address -> gmap uuid Address) (d : DB) : DB :=
  {| customers := customers d; billing_addresses := billing_addresses d;
     delivery_addresses := f (delivery_addresses d);
     trade_information := trade_information d;
     trade_documents := trade_documents d; otps := otps d |}.

Definition set_trade_information
    (f : gmap uuid TradeInformation -> gmap uuid TradeInformation) (d : DB) : DB :=
  {| customers := customers d; billing_addresses := billing_addresses d;
     delivery_addresses := delivery_addresses d;
     trade_information := f (trade_information d);
     trade_documents := trade_documents d; otps := otps d |}.

Definition set_trade_documents
    (f : gmap uuid TradeDocument -> gmap uuid TradeDocument) (d : DB) : DB :=
  {| customers := customers d; billing_addresses := billing_addresses d;
     delivery_addresses := delivery_addresses d;
     trade_information := trade_information d;
     trade_documents := f (trade_documents d); otps := otps d |}.

Definition set_otps (f : gmap uuid OTP -> gmap uuid OTP) (d : DB) : DB :=
  {| customers := customers d; billing_addresses := billing_addresses d;
     delivery_addresses := delivery_addresses d;
     trade_information := trade_information d;
     trade_documents := trade_documents d; otps := f (otps d) |}.

(** ** Exceptions and the monad of the views *)

Inductive Model :=
  | CustomerModel | BillingAddressModel | DeliveryAddressModel
  | TradeInformationModel | TradeDocumentModel | OTPModel
  | OutstandingTokenModel.

#[global] Instance Model_eq_dec : EqDecision Model.
Proof. solve_decision. Defined.

(** The [detail] of a [serializers.ValidationError]: field name and
    messages. *)
Definition Errors := list (string * list string).

Inductive Exception :=
  | DoesNotExist (m : Model)
  | MultipleObjectsReturned (m : Model)
  | IntegrityError (m : Model)
  | ValidationError (detail : Errors)
  | DjangoValidationError (code : string)
  | ValueError (msg : string)
  | TokenError
  | NotAuthenticated
  | SMTPException.

Inductive Outcome (A : Type) :=
  | Return (a : A)
  | Raise (e : Exception).
Arguments Return {A} a.
Arguments Raise {A} e.

Definition M (A : Type) : Type := World -> Outcome A * World.

Definition ret {A} (a : A) : M A := fun w => (Return a, w).

Definition raise {A} (e : Exception) : M A := fun w => (Raise e, w).

Definition bind {A B} (c : M A) (k : A -> M B) : M B :=
  fun w =>
    match c w with
    | (Return a, w') => k a w'
    | (Raise e, w') => (Raise e, w')
    end.

(** [try: c  except ...: h]: [h e = None] when no clause catches [e]. *)
Definition try_except {A} (c : M A) (h : Exception -> option (M A)) : M A :=
  fun w =>
    match c w with
    | (Return a, w') => (Return a, w')
    | (Raise e, w') =>
        match h e with
        | Some k => k w'
        | None => (Raise e, w')
        end
    end.

Definition get_db : M DB := fun w => (Return (db w), w).

Definition modify_db (f : DB -> DB) : M unit := fun w => (Return tt, set_db f w).

#[global] Instance M_ret : MRet M := @ret.
#[global] Instance M_bind : MBind M := fun A B k c => bind c k.

(** The world after one reading of the clock. *)
Definition tick (w : World) : World :=
  {| db := db w; time := time w + Z.of_N (elapse w (clock_reads w));
     clock_reads := S (clock_reads w); elapse := elapse w;
     entropy := entropy w; draws := draws w;
     mail_log := mail_log w; smtp_ok := smtp_ok w; stdout := stdout w;
     blacklist := blacklist w;
     outstanding := outstanding w |}.

(** [timezone.now()] and [datetime.utcnow()]: read the clock. *)
Definition timezone_now : M datetime := fun w => (Return (time w), tick w).

(** One draw from the entropy stream. *)
Definition draw : M N :=
  fun w =>
    (Return (entropy w (draws w)),
     {| db := db w; time := time w; clock_reads := clock_reads w;
        elapse := elapse w; entropy := entropy w; draws := S (draws w);
        mail_log := mail_log w; smtp_ok := smtp_ok w; stdout := stdout w;
        blacklist := blacklist w;
     outstanding := outstanding w |}).

(** [uuid.uuid4()]. *)
Definition uuid4 : M uuid :=
  n ← draw; ret (n mod 2 ^ 128)%N.

(** [print(s)]. *)
Definition print (s : string) : M unit :=
  fun w =>
    (Return tt,
     {| db := db w; time := time w; clock_reads := clock_reads w;
        elapse := elapse w; entropy := entropy w; draws := draws w;
        mail_log := mail_log w; smtp_ok := smtp_ok w; stdout := s :: stdout w;
        blacklist := blacklist w;
     outstanding := outstanding w |}).

(** [send_mail(..., fail_silently=False)]: the call is logged; it raises
    when the transport refuses the message. *)
Definition send_mail (subject message from_email : string)
    (recipient_list : list string) : M unit :=
  fun w =>
    let m := {| mail_subject := subject; mail_message := message;
                mail_from := from_email; mail_recipient_list := recipient_list |} in
    let ok := smtp_ok w m in
    let w' := {| db := db w; time := time w; clock_reads := clock_reads w;
                 elapse := elapse w; entropy := entropy w; draws := draws w;
                 mail_log := (m, ok) :: mail_log w; smtp_ok := smtp_ok w;
                 stdout := stdout w; blacklist := blacklist w;
     outstanding := outstanding w |} in
    if ok then (Return tt, w') else (Raise SMTPException, w').

(** ** utils/response.py *)

(** The payload of the envelope's [data]. *)
Inductive Data :=
  | DEmpty
  | DErrors (errors : Errors)
  | DRegistered (customer_id : uuid) (email : string) (customer_type : string)
  | DAddress (a : Address)
  | DTradeInformation (t : TradeInformation) (uploaded_documents : list TradeDocument)
  | DLogin (access refresh : string) (user : Customer)
  | DAccess (access : string)
  | DProfile (c : Customer) (billing delivery : list Address)
             (trade : option (TradeInformation * list TradeDocument)).

(** The envelope; [timestamp] is the reading of the clock in whole seconds,
    which is what the format [%Y-%m-%dT%H:%M:%SZ] prints. *)
Record Response := {
  success : bool;
  statusCode : nat;
  message : string;
  data : Data;
  timestamp : Z;
}.

Definition HTTP_200_OK : nat := 200.
Definition HTTP_201_CREATED : nat := 201.
Definition HTTP_400_BAD_REQUEST : nat := 400.
Definition HTTP_401_UNAUTHORIZED : nat := 401.
Definition HTTP_403_FORBIDDEN : nat := 403.
Definition HTTP_404_NOT_FOUND : nat := 404.

Definition CustomResponse_success (data : option Data) (message : string)
    (status_code : nat) : M Response :=
  now ← timezone_now;
  ret {| success := true; statusCode := status_code; message := message;
         data := default DEmpty data; timestamp := now / 1000000 |}.

Definition CustomResponse_error (message : string) (errors : option Errors)
    (status_code : nat) : M Response :=
  now ← timezone_now;
  ret {| success := false; statusCode := status_code; message := message;
         data := match errors with Some e => DErrors e | None => DEmpty end;
         timestamp := now / 1000000 |}.

(** ** Table access (the ORM calls the source makes) *)

(** [Model.objects.filter(...)]: the rows that satisfy [P], in primary-key
    order. *)
Definition objects_filter {A} (P : A -> Prop) `{!∀ a, Decision (P a)}
    (table : gmap uuid A) : list A :=
  filter P (map_to_list table).*2.

(** [Model.objects.get(...)]. *)
Definition objects_get {A} (m : Model) (P : A -> Prop) `{!∀ a, Decision (P a)}
    (table : gmap uuid A) : M A :=
  match objects_filter P table with
  | [] => raise (DoesNotExist m)
  | [a] => ret a
  | _ :: _ :: _ => raise (MultipleObjectsReturned m)
  end.

(** [queryset.order_by('-' + field).first()]: the row with the greatest
    [key]; among rows with equal keys the database is free to choose, and the
    model takes the first of them. *)
Definition latest_row {A} (key : A -> Z) (rows : list A) : option A :=
  foldr (fun r best =>
           match best with
           | Some b => if bool_decide (key r < key b) then Some b else Some r
           | None => Some r
           end) None rows.

(** [queryset.latest(field)]. *)
Definition latest {A} (m : Model) (key : A -> Z) (rows : list A) : M A :=
  match latest_row key rows with
  | Some r => ret r
  | None => raise (DoesNotExist m)
  end.

(** ** What the source calls but does not define *)

(** A refresh token of simplejwt, decoded. *)
Record RefreshToken := {
  token_jti : N;
  token_user_id : uuid;
  token_exp : datetime;
  token_current_time : datetime;
}.

(** The result of validating one field: the messages of the
    [ValidationError], or the value. *)
Definition Validated (A : Type) : Type := list string + A.

Record Framework := {
  (** rest_framework: what [EmailField] and [CharField(max_length,
      allow_blank)] make of a string *)
  EmailField : string -> Validated string;
  CharField : option nat -> bool -> string -> Validated string;
  BooleanField : string -> Validated bool;
  (** django.contrib.auth *)
  validate_password : string -> list string;
  make_password : string -> N -> string;
  check_password : string -> string -> bool;
  authenticate : gmap uuid Customer -> string -> string -> option Customer;
  normalize_email : string -> string;
  (** django.conf.settings *)
  DEFAULT_FROM_EMAIL : string;
  (** rest_framework_simplejwt *)
  REFRESH_TOKEN_LIFETIME : Z;
  str_refresh : RefreshToken -> string;
  str_access_token : RefreshToken -> string;
  decode_refresh : string -> option RefreshToken;
}.

(** ** Field validation shared by the serializers *)

(** A key of [request.data]: absent, [null], or a string. *)
Definition Input := option (option string).

Definition QueryDict := gmap string (option string).

(** [Field.run_validation] around the field's own check: [inr None] leaves
    the key out of [validated_data], [inr (Some None)] stores [None]. *)
Definition run_validation (required allow_null partial : bool)
    (validate : string -> Validated string) (x : Input)
    : Validated (option (option string)) :=
  match x with
  | None =>
      if partial then inr None
      else if required then inl ["This field is required."]
      else inr None
  | Some None =>
      if allow_null then inr (Some None)
      else inl ["This field may not be null."]
  | Some (Some s) =>
      match validate s with
      | inl msgs => inl msgs
      | inr v => inr (Some (Some v))
      end
  end.

(** A field declared [required=True] of a plain [Serializer]. *)
Definition required_field (validate : string -> Validated string) (x : Input)
    : Validated string :=
  match run_validation true false false validate x with
  | inl msgs => inl msgs
  | inr (Some (Some v)) => inr v
  | inr _ => inl ["This field is required."]
  end.

Definition field_errors {A} (name : string) (r : Validated A) : Errors :=
  match r with inl msgs => [(name, msgs)] | inr _ => [] end.

(** ** models.py: [OTP] *)

(** [string.digits]. *)
Definition string_digits : list Ascii.ascii := String.list_ascii_of_string "0123456789".

(** [random.choices(population, k=k)]. *)
Fixpoint random_choices (population : list Ascii.ascii) (k : nat)
    : M (list Ascii.ascii) :=
  match k with
  | O => ret []
  | S k' =>
      n ← draw;
      rest ← random_choices population k';
      ret (nth (N.to_nat (n mod N.of_nat (length population))) population
               Ascii.zero :: rest)
  end.

(** [OTP.generate_otp()]. *)
Definition OTP_generate_otp : M string :=
  cs ← random_choices string_digits 8;
  ret (String.string_of_list_ascii cs).

(** [OTP.objects.create(email=, otp=[, expires_at=])]: a fresh instance goes
    through [OTP.save], which fills [expires_at] when it is not given, then
    through [Model.save], which stamps [created_at] and inserts. *)
Definition OTP_objects_create (email otp : string)
    (expires_at : option datetime) : M OTP :=
  id ← uuid4;
  expires_at ← match expires_at with
               | Some e => ret e
               | None => now ← timezone_now;
                         ret (now + timedelta_minutes 10)
               end;
  created_at ← timezone_now;
  d ← get_db;
  if decide (is_Some (otps d !! id)) then raise (IntegrityError OTPModel)
  else
    let self := {| otp_id := id; otp_email := email; otp_otp := otp;
                   otp_created_at := created_at; otp_expires_at := expires_at;
                   otp_is_used := false |} in
    modify_db (set_otps (insert id self));;
    ret self.

(** [OTP.save] on an instance read from the table: [expires_at] is set, so
    only [Model.save] runs, an update by primary key. *)
Definition OTP_save (self : OTP) : M unit :=
  modify_db (set_otps (insert (otp_id self) self)).

(** [OTP.is_valid]. *)
Definition OTP_is_valid (self : OTP) : M bool :=
  if otp_is_used self then ret false
  else now ← timezone_now; ret (bool_decide (now < otp_expires_at self)).

Definition set_is_used (b : bool) (o : OTP) : OTP :=
  {| otp_id := otp_id o; otp_email := otp_email o; otp_otp := otp_otp o;
     otp_created_at := otp_created_at o; otp_expires_at := otp_expires_at o;
     otp_is_used := b |}.

(** [OTP.objects.filter(email=email, otp=otp_code)]. *)
Definition OTP_filter (email otp_code : string) (d : DB) : list OTP :=
  objects_filter (fun o => otp_email o = email ∧ otp_otp o = otp_code) (otps d).

(** [OTP.objects.filter(email=email, otp=otp_code).latest('created_at')]. *)
Definition OTP_latest (email otp_code : string) : M OTP :=
  d ← get_db;
  latest OTPModel otp_created_at (OTP_filter email otp_code d).

(** ** models.py: [Customer] *)

(** [Customer.objects.get(email=email)]. *)
Definition Customer_get (email : string) : M Customer :=
  d ← get_db;
  objects_get CustomerModel (fun c => customer_email c = email) (customers d).

Definition set_is_verified (b : bool) (c : Customer) : Customer :=
  {| customer_id := customer_id c; customer_type := customer_type c;
     first_name := first_name c; last_name := last_name c;
     customer_email := customer_email c; phone_number := phone_number c;
     password := password c; is_verified := b; is_active := is_active c;
     is_staff := is_staff c; is_superuser := is_superuser c;
     customer_created_at := customer_created_at c;
     customer_updated_at := customer_updated_at c |}.

Definition set_password_hash (h : string) (c : Customer) : Customer :=
  {| customer_id := customer_id c; customer_type := customer_type c;
     first_name := first_name c; last_name := last_name c;
     customer_email := customer_email c; phone_number := phone_number c;
     password := h; is_verified := is_verified c; is_active := is_active c;
     is_staff := is_staff c; is_superuser := is_superuser c;
     customer_created_at := customer_created_at c;
     customer_updated_at := customer_updated_at c |}.

Definition set_customer_updated_at (t : datetime) (c : Customer) : Customer :=
  {| customer_id := customer_id c; customer_type := customer_type c;
     first_name := first_name c; last_name := last_name c;
     customer_email := customer_email c; phone_number := phone_number c;
     password := password c; is_verified := is_verified c;
     is_active := is_active c; is_staff := is_staff c;
     is_superuser := is_superuser c;
     customer_created_at := customer_created_at c;
     customer_updated_at := t |}.

(** [customer.save()] on an instance read from the table: [updated_at]
    ([auto_now]) is stamped and the row is written under its primary key. *)
Definition Customer_save (self : Customer) : M Customer :=
  now ← timezone_now;
  let self := set_customer_updated_at now self in
  modify_db (set_customers (insert (customer_id self) self));;
  ret self.

(** [django.contrib.auth.backends.ModelBackend.authenticate], the backend
    of a project that sets no [AUTHENTICATION_BACKENDS], for
    [USERNAME_FIELD = 'email']: the customer with this email
    ([get_by_natural_key]), when the password checks and
    [user_can_authenticate] finds it active.  The email column is unique, so
    at most one row has the email; no row gives [None]. *)
Definition ModelBackend_authenticate (check : string -> string -> bool)
    (table : gmap uuid Customer) (email raw : string) : option Customer :=
  match objects_filter (fun c => customer_email c = email) table with
  | [user] =>
      if check raw (password user) && is_active user then Some user else None
  | _ => None
  end.

(** The framework authenticates with the default backend. *)
Definition default_backend (F : Framework) : Prop :=
  ∀ table email raw,
    authenticate F table email raw
    = ModelBackend_authenticate (check_password F) table email raw.

Section Accounts.

Context (F : Framework).

(** ** serializers.py: the plain serializers of the OTP flows *)

(** [class VerifyEmailSerializer]: [email = EmailField(required=True)],
    [otp = CharField(max_length=8, required=True)]. *)
Definition VerifyEmailSerializer (data : QueryDict) : Errors + (string * string) :=
  let email := required_field (EmailField F) (data !! "email") in
  let otp := required_field (CharField F (Some 8%nat) false) (data !! "otp") in
  match email, otp with
  | inr email, inr otp => inr (email, otp)
  | _, _ => inl (field_errors "email" email ++ field_errors "otp" otp)%list
  end.

(** [class ResendOTPSerializer], [class ForgotPasswordSerializer]. *)
Definition ResendOTPSerializer (data : QueryDict) : Errors + string :=
  let email := required_field (EmailField F) (data !! "email") in
  match email with
  | inr email => inr email
  | inl _ => inl (field_errors "email" email)
  end.

Definition ForgotPasswordSerializer := ResendOTPSerializer.

(** [class VerifyResetOTPSerializer] declares the fields of
    [VerifyEmailSerializer]. *)
Definition VerifyResetOTPSerializer := VerifyEmailSerializer.

(** The [validate(self, attrs)] of [ResetPasswordSerializer] and
    [ChangePasswordSerializer]. *)
Definition validate_new_password (new_password confirm_password : string)
    : Errors + unit :=
  if decide (new_password ≠ confirm_password) then
    inl [("new_password", ["Password fields didn't match."])]
  else
    match validate_password F new_password with
    | [] => inr tt
    | messages => inl [("new_password", messages)]
    end.

(** [class ResetPasswordSerializer]: the validated [email], [otp] and
    [new_password]. *)
Definition ResetPasswordSerializer (data : QueryDict)
    : Errors + (string * string * string) :=
  let email := required_field (EmailField F) (data !! "email") in
  let otp := required_field (CharField F (Some 8%nat) false) (data !! "otp") in
  let new_password := required_field (CharField F None false) (data !! "new_password") in
  let confirm_password :=
    required_field (CharField F None false) (data !! "confirm_password") in
  match email, otp, new_password, confirm_password with
  | inr email, inr otp, inr new_password, inr confirm_password =>
      match validate_new_password new_password confirm_password with
      | inr _ => inr (email, otp, new_password)
      | inl errors => inl errors
      end
  | _, _, _, _ =>
      inl (field_errors "email" email ++ field_errors "otp" otp
           ++ field_errors "new_password" new_password
           ++ field_errors "confirm_password" confirm_password)%list
  end.

(** [customer.set_password(raw)]: the hash is salted with a random draw. *)
Definition Customer_set_password (raw : string) (c : Customer) : M Customer :=
  salt ← draw;
  ret (set_password_hash (make_password F raw salt) c).

(** ** views.py: verify email, verify reset OTP, reset password *)

(** [VerifyEmailAPIView.post]. *)
Definition VerifyEmailAPIView_post (data : QueryDict) : M Response :=
  match VerifyEmailSerializer data with
  | inr (email, otp_code) =>
      try_except
        (otp_obj ← OTP_latest email otp_code;
         valid ← OTP_is_valid otp_obj;
         if negb valid then
           CustomResponse_error "Invalid or expired OTP" None HTTP_400_BAD_REQUEST
         else
           OTP_save (set_is_used true otp_obj);;
           customer ← Customer_get email;
           Customer_save (set_is_verified true customer);;
           CustomResponse_success None
             "Email verified successfully. Registration complete! You can now login."
             HTTP_200_OK)
        (fun e =>
           match e with
           | DoesNotExist OTPModel =>
               Some (CustomResponse_error "Invalid OTP" None HTTP_400_BAD_REQUEST)
           | DoesNotExist CustomerModel =>
               Some (CustomResponse_error "User not found" None HTTP_404_NOT_FOUND)
           | _ => None
           end)
  | inl errors =>
      CustomResponse_error "Validation failed" (Some errors) HTTP_400_BAD_REQUEST
  end.

(** [VerifyResetOTPAPIView.post]. *)
Definition VerifyResetOTPAPIView_post (data : QueryDict) : M Response :=
  match VerifyResetOTPSerializer data with
  | inr (email, otp_code) =>
      try_except
        (otp_obj ← OTP_latest email otp_code;
         valid ← OTP_is_valid otp_obj;
         if negb valid then
           CustomResponse_error "Invalid or expired OTP" None HTTP_400_BAD_REQUEST
         else
           CustomResponse_success None
             "OTP verified successfully. You can now reset your password."
             HTTP_200_OK)
        (fun e =>
           match e with
           | DoesNotExist OTPModel =>
               Some (CustomResponse_error "Invalid OTP" None HTTP_400_BAD_REQUEST)
           | _ => None
           end)
  | inl errors =>
      CustomResponse_error "Validation failed" (Some errors) HTTP_400_BAD_REQUEST
  end.

(** [ResetPasswordAPIView.post]. *)
Definition ResetPasswordAPIView_post (data : QueryDict) : M Response :=
  match ResetPasswordSerializer data with
  | inr (email, otp_code, new_password) =>
      try_except
        (otp_obj ← OTP_latest email otp_code;
         valid ← OTP_is_valid otp_obj;
         if negb valid then
           CustomResponse_error "Invalid or expired OTP" None HTTP_400_BAD_REQUEST
         else
           OTP_save (set_is_used true otp_obj);;
           customer ← Customer_get email;
           customer ← Customer_set_password new_password customer;
           Customer_save customer;;
           CustomResponse_success None "Password reset successful" HTTP_200_OK)
        (fun e =>
           match e with
           | DoesNotExist OTPModel =>
               Some (CustomResponse_error "Invalid OTP" None HTTP_400_BAD_REQUEST)
           | DoesNotExist CustomerModel =>
               Some (CustomResponse_error "User not found" None HTTP_404_NOT_FOUND)
           | _ => None
           end)
  | inl errors =>
      CustomResponse_error "Validation failed" (Some errors) HTTP_400_BAD_REQUEST
  end.

(** ** serializers.py: the model serializers of the registration steps *)

Definition dquote : string := String (Ascii.ascii_of_nat 34) EmptyString.

(** [ChoiceField(choices)]: the value must be one of the stored values. *)
Definition ChoiceField (choices : list string) (s : string) : Validated string :=
  if decide (s ∈ choices) then inr s
  else inl [dquote +:+ s +:+ dquote +:+ " is not a valid choice."].

(** A field that does not accept [null]. *)
Definition not_null (r : Validated (option (option string)))
    : Validated (option string) :=
  match r with
  | inl msgs => inl msgs
  | inr None => inr None
  | inr (Some (Some v)) => inr (Some v)
  | inr (Some None) => inl ["This field may not be null."]
  end.

(** A [CharField(max_length=n, blank=True, null=True)] column. *)
Definition optional_char (partial : bool) (n : nat) (x : Input)
    : Validated (option (option string)) :=
  run_validation false true partial (CharField F (Some n) true) x.

(** A [CharField(max_length=n)] column. *)
Definition required_char (partial : bool) (n : nat) (x : Input)
    : Validated (option string) :=
  not_null (run_validation true false partial (CharField F (Some n) false) x).

Definition value {A} (r : Validated (option A)) : option A :=
  match r with inr v => v | inl _ => None end.

(** The [validated_data] of the address serializers: [None] for a key that
    is not in it. *)
Record AddressAttrs := {
  attr_company_name : option (option string);
  attr_vat_number : option (option string);
  attr_company_registration : option (option string);
  attr_po_number : option (option string);
  attr_address_line_1 : option string;
  attr_address_line_2 : option (option string);
  attr_city : option string;
  attr_postal_code : option string;
  attr_province : option string;
}.

(** [class BillingAddressSerializer] and [class DeliveryAddressSerializer]:
    the fields of [Meta.fields] that are not read-only, each with the
    validation its column declares; [id], [created_at] and [updated_at] in
    the data are ignored. *)
Definition AddressSerializer (partial : bool) (data : QueryDict)
    : Errors + AddressAttrs :=
  let company_name := optional_char partial 255 (data !! "company_name") in
  let vat_number := optional_char partial 100 (data !! "vat_number") in
  let company_registration :=
    optional_char partial 100 (data !! "company_registration") in
  let po_number := optional_char partial 100 (data !! "po_number") in
  let address_line_1 := required_char partial 255 (data !! "address_line_1") in
  let address_line_2 := optional_char partial 255 (data !! "address_line_2") in
  let city := required_char partial 100 (data !! "city") in
  let postal_code := required_char partial 20 (data !! "postal_code") in
  let province :=
    not_null (run_validation true false partial
                (ChoiceField (Province_value <$> Province_choices))
                (data !! "province")) in
  match
    (field_errors "company_name" company_name
     ++ field_errors "vat_number" vat_number
     ++ field_errors "company_registration" company_registration
     ++ field_errors "po_number" po_number
     ++ field_errors "address_line_1" address_line_1
     ++ field_errors "address_line_2" address_line_2
     ++ field_errors "city" city
     ++ field_errors "postal_code" postal_code
     ++ field_errors "province" province)%list
  with
  | [] =>
      inr {| attr_company_name := value company_name;
             attr_vat_number := value vat_number;
             attr_company_registration := value company_registration;
             attr_po_number := value po_number;
             attr_address_line_1 := value address_line_1;
             attr_address_line_2 := value address_line_2;
             attr_city := value city;
             attr_postal_code := value postal_code;
             attr_province := value province |}
  | errors => inl errors
  end.

(** [Model.objects.create] on the validated data and [user=customer] for an address:
    a key that is absent takes the column's default. *)
Definition Address_new (id : uuid) (user : Customer) (attrs : AddressAttrs)
    (created_at updated_at : datetime) : Address :=
  {| address_id := id; address_user := customer_id user;
     company_name := default None (attr_company_name attrs);
     vat_number := default None (attr_vat_number attrs);
     company_registration := default None (attr_company_registration attrs);
     po_number := default None (attr_po_number attrs);
     address_line_1 := default "" (attr_address_line_1 attrs);
     address_line_2 := default None (attr_address_line_2 attrs);
     city := default "" (attr_city attrs);
     postal_code := default "" (attr_postal_code attrs);
     province := default "" (attr_province attrs);
     address_created_at := created_at; address_updated_at := updated_at |}.

(** [ModelSerializer.update]: [setattr] for each key of [validated_data];
    the primary key, the owner and [created_at] are not among them. *)
Definition Address_setattrs (attrs : AddressAttrs) (updated_at : datetime)
    (a : Address) : Address :=
  {| address_id := address_id a; address_user := address_user a;
     company_name := default (company_name a) (attr_company_name attrs);
     vat_number := default (vat_number a) (attr_vat_number attrs);
     company_registration :=
       default (company_registration a) (attr_company_registration attrs);
     po_number := default (po_number a) (attr_po_number attrs);
     address_line_1 := default (address_line_1 a) (attr_address_line_1 attrs);
     address_line_2 := default (address_line_2 a) (attr_address_line_2 attrs);
     city := default (city a) (attr_city attrs);
     postal_code := default (postal_code a) (attr_postal_code attrs);
     province := default (province a) (attr_province attrs);
     address_created_at := address_created_at a;
     address_updated_at := updated_at |}.

(** [serializer.save(user=customer)] without an instance: the row gets a
    fresh primary key and both timestamps, and is inserted. *)
Definition Address_create (m : Model)
    (table : DB -> gmap uuid Address)
    (set_table : (gmap uuid Address -> gmap uuid Address) -> DB -> DB)
    (user : Customer) (attrs : AddressAttrs) : M Address :=
  id ← uuid4;
  created_at ← timezone_now;
  updated_at ← timezone_now;
  d ← get_db;
  if decide (is_Some (table d !! id)) then raise (IntegrityError m)
  else
    let a := Address_new id user attrs created_at updated_at in
    modify_db (set_table (insert id a));;
    ret a.

(** [serializer.save()] with an instance: the attributes are set, then
    [instance.save()] stamps [updated_at] and writes the row under its
    primary key. *)
Definition Address_update
    (set_table : (gmap uuid Address -> gmap uuid Address) -> DB -> DB)
    (instance : Address) (attrs : AddressAttrs) : M Address :=
  updated_at ← timezone_now;
  let a := Address_setattrs attrs updated_at instance in
  modify_db (set_table (insert (address_id a) a));;
  ret a.

(** *** Trade information *)

Definition lower_ascii (c : ascii) : ascii :=
  let n := nat_of_ascii c in
  if bool_decide (65 ≤ n ≤ 90)%nat then ascii_of_nat (n + 32) else c.

(** The part of [l] after its last [c], when [c] occurs. *)
Fixpoint after_last (c : ascii) (l : list ascii) : option (list ascii) :=
  match l with
  | [] => None
  | x :: l' =>
      match after_last c l' with
      | Some r => Some r
      | None => if decide (x = c) then Some l' else None
      end
  end.

Fixpoint drop_leading (c : ascii) (l : list ascii) : list ascii :=
  match l with
  | [] => []
  | x :: l' => if decide (x = c) then drop_leading c l' else l
  end.

(** [os.path.splitext(name)[1].lower()]: the extension starts at the last
    dot of the base name, leading dots apart. *)
Definition splitext_lower (name : string) : string :=
  let p := String.list_ascii_of_string name in
  let base := default p (after_last "/"%char p) in
  match after_last "."%char (drop_leading "."%char base) with
  | Some r => String.string_of_list_ascii (lower_ascii <$> ("."%char :: r))
  | None => ""
  end.

Definition valid_extensions : list string := [".pdf"; ".jpg"; ".jpeg"; ".png"].

(** The child [FileField()] of the [documents] list: a file needs a name
    and may not be empty. *)
Definition FileField (file : UploadedFile) : Validated UploadedFile :=
  if bool_decide (file_name file = "") then
    inl ["No filename could be determined."]
  else if bool_decide (file_size file = 0%N) then
    inl ["The submitted file is empty."]
  else inr file.

(** [ListField(child=FileField())]: every child is run; the messages of
    those that fail are the error of the field. *)
Definition ListField_files (files : list UploadedFile)
    : Validated (list UploadedFile) :=
  match concat ((fun file => match FileField file with
                             | inl msgs => msgs
                             | inr _ => []
                             end) <$> files) with
  | [] => inr files
  | msgs => inl msgs
  end.

(** [TradeInformationSerializer.validate_documents]: the first file that
    fails stops the loop. *)
Fixpoint validate_documents (files : list UploadedFile)
    : Validated (list UploadedFile) :=
  match files with
  | [] => inr []
  | file :: rest =>
      if decide (splitext_lower (file_name file) ∉ valid_extensions) then
        inl ["File " +:+ file_name file
             +:+ ": Only PDF, JPG, and PNG files are allowed."]
      else if bool_decide (10 * 1024 * 1024 < file_size file)%N then
        inl ["File " +:+ file_name file
             +:+ ": File size must not exceed 10MB."]
      else
        match validate_documents rest with
        | inl msgs => inl msgs
        | inr rest => inr (file :: rest)
        end
  end.

Record TradeAttrs := {
  attr_business_type : option string;
  attr_monthly_statement : option (option string);
  attr_procurement_no : option (option string);
  attr_documents : option (list UploadedFile);
}.

(** [class TradeInformationSerializer]: [is_approved] is read-only;
    [documents] is the optional list of uploaded files, each checked by the
    child field and then all by [validate_documents]. *)
Definition TradeInformationSerializer (partial : bool) (data : QueryDict)
    (documents : option (list UploadedFile)) : Errors + TradeAttrs :=
  let business_type :=
    not_null (run_validation true false partial
                (ChoiceField (BusinessType_value <$> BusinessType_choices))
                (data !! "business_type")) in
  let monthly_statement := optional_char partial 255 (data !! "monthly_statement") in
  let procurement_no := optional_char partial 100 (data !! "procurement_no") in
  let documents : Validated (option (list UploadedFile)) :=
    match documents with
    | None => inr None
    | Some files =>
        match ListField_files files with
        | inl msgs => inl msgs
        | inr files =>
            match validate_documents files with
            | inl msgs => inl msgs
            | inr files => inr (Some files)
            end
        end
    end in
  match
    (field_errors "business_type" business_type
     ++ field_errors "monthly_statement" monthly_statement
     ++ field_errors "procurement_no" procurement_no
     ++ field_errors "documents" documents)%list
  with
  | [] =>
      inr {| attr_business_type := value business_type;
             attr_monthly_statement := value monthly_statement;
             attr_procurement_no := value procurement_no;
             attr_documents := value documents |}
  | errors => inl errors
  end.

(** [TradeDocument.objects.create(trade_info=, document=)]. *)
Definition TradeDocument_create (trade_info : TradeInformation)
    (file : UploadedFile) : M TradeDocument :=
  id ← uuid4;
  created_at ← timezone_now;
  updated_at ← timezone_now;
  d ← get_db;
  if decide (is_Some (trade_documents d !! id)) then
    raise (IntegrityError TradeDocumentModel)
  else
    let doc := {| document_id := id; document_trade_info := trade_id trade_info;
                  document := file; document_created_at := created_at;
                  document_updated_at := updated_at |} in
    modify_db (set_trade_documents (insert id doc));;
    ret doc.

(** [for document in documents: TradeDocument.objects.create(...)]. *)
Fixpoint TradeDocument_create_all (trade_info : TradeInformation)
    (files : list UploadedFile) : M (list TradeDocument) :=
  match files with
  | [] => ret []
  | file :: rest =>
      doc ← TradeDocument_create trade_info file;
      docs ← TradeDocument_create_all trade_info rest;
      ret (doc :: docs)
  end.

(** [TradeInformation.objects.create] on the validated data with
    [user=customer]: the one-to-one column [user] is unique. *)
Definition TradeInformation_objects_create (user : Customer) (attrs : TradeAttrs)
    : M TradeInformation :=
  id ← uuid4;
  created_at ← timezone_now;
  updated_at ← timezone_now;
  d ← get_db;
  if decide (is_Some (trade_information d !! id)
             ∨ objects_filter (fun t => trade_user t = customer_id user)
                 (trade_information d) ≠ [])
  then raise (IntegrityError TradeInformationModel)
  else
    let t := {| trade_id := id; trade_user := customer_id user;
                business_type := default "" (attr_business_type attrs);
                monthly_statement := default None (attr_monthly_statement attrs);
                procurement_no := default None (attr_procurement_no attrs);
                is_approved := false;
                trade_created_at := created_at; trade_updated_at := updated_at |} in
    modify_db (set_trade_information (insert id t));;
    ret t.

(** [TradeInformationSerializer.create]. *)
Definition TradeInformationSerializer_create (user : Customer) (attrs : TradeAttrs)
    : M (TradeInformation * list TradeDocument) :=
  let documents_data := default [] (attr_documents attrs) in
  trade_info ← TradeInformation_objects_create user attrs;
  docs ← TradeDocument_create_all trade_info documents_data;
  ret (trade_info, docs).

(** [customer.trade_information], the reverse side of the one-to-one
    field: it raises when the customer has no row. *)
Definition Customer_trade_information (c : Customer) : M TradeInformation :=
  d ← get_db;
  objects_get TradeInformationModel (fun t => trade_user t = customer_id c)
    (trade_information d).

(** [hasattr(customer, 'trade_information')]. *)
Definition hasattr_trade_information (c : Customer) : M bool :=
  try_except (Customer_trade_information c;; ret true)
    (fun e =>
       match e with
       | DoesNotExist TradeInformationModel => Some (ret false)
       | _ => None
       end).

(** *** Registration *)

Definition is_digit (c : ascii) : bool :=
  let n := nat_of_ascii c in bool_decide (48 ≤ n ≤ 57)%nat.

(** [Customer.phone_regex]: an optional plus sign, an optional 1, then nine
    to fifteen digits.  Strings are read byte by byte and a digit is one of
    the ten ASCII digits: the decimal digits of other scripts, which the
    pattern of the source also accepts, are not recognised. *)
Definition phone_regex_match (s : string) : bool :=
  let cs := String.list_ascii_of_string s in
  let cs := match cs with
            | c :: rest => if decide (c = "+"%char) then rest else cs
            | [] => cs
            end in
  forallb is_digit cs
  && (bool_decide (9 ≤ length cs ≤ 15)%nat
      || match cs with
         | c :: rest =>
             bool_decide (c = "1"%char) && bool_decide (9 ≤ length rest ≤ 15)%nat
         | [] => false
         end).

Definition phone_number_field (s : string) : Validated string :=
  match CharField F (Some 17%nat) true s with
  | inl msgs => inl msgs
  | inr v =>
      if bool_decide (v = "") then inr v
      else if phone_regex_match v then inr v
      else inl ["Phone number must be entered in the format: '+999999999'. Up to 15 digits allowed."]
  end.

(** The [email] field of a model serializer of [Customer]: an
    [EmailField(max_length=254)] with the uniqueness validator. *)
Definition unique_email_field (table : gmap uuid Customer) (s : string)
    : Validated string :=
  match EmailField F s with
  | inl msgs => inl msgs
  | inr v =>
      if bool_decide (254 < String.length v)%nat then
        inl ["Ensure this field has no more than 254 characters."]
      else if decide (objects_filter (fun c => customer_email c = v) table ≠ []) then
        inl ["This field must be unique."]
      else inr v
  end.

Definition CustomerType_of_value (s : string) : option CustomerType :=
  if decide (s = "Retail") then Some Retail
  else if decide (s = "Trade") then Some Trade
  else None.

Record RegistrationAttrs := {
  attr_customer_type : option string;
  attr_first_name : option string;
  attr_last_name : option string;
  attr_email : string;
  attr_phone_number : option (option string);
  attr_password : string;
}.

(** [CustomerRegistrationSerializer.validate]. *)
Definition CustomerRegistrationSerializer_validate
    (password confirm_password : string) : Errors + unit :=
  if decide (password ≠ confirm_password) then
    inl [("password", ["Password fields didn't match."])]
  else
    match validate_password F password with
    | [] => inr tt
    | messages => inl [("password", messages)]
    end.

(** [class CustomerRegistrationSerializer]: [is_verified] and [is_active]
    are not among its fields. *)
Definition CustomerRegistrationSerializer (table : gmap uuid Customer)
    (data : QueryDict) : Errors + RegistrationAttrs :=
  let customer_type :=
    not_null (run_validation false false false
                (ChoiceField [CustomerType_value Retail; CustomerType_value Trade])
                (data !! "customer_type")) in
  let first_name :=
    not_null (run_validation false false false (CharField F (Some 150%nat) true)
                (data !! "first_name")) in
  let last_name :=
    not_null (run_validation false false false (CharField F (Some 150%nat) true)
                (data !! "last_name")) in
  let email := required_field (unique_email_field table) (data !! "email") in
  let phone_number :=
    run_validation false true false phone_number_field (data !! "phone_number") in
  let password := required_field (CharField F None false) (data !! "password") in
  let confirm_password :=
    required_field (CharField F None false) (data !! "confirm_password") in
  match email, password, confirm_password,
        (field_errors "customer_type" customer_type
         ++ field_errors "first_name" first_name
         ++ field_errors "last_name" last_name
         ++ field_errors "phone_number" phone_number)%list
  with
  | inr email, inr password, inr confirm_password, [] =>
      match CustomerRegistrationSerializer_validate password confirm_password with
      | inr _ =>
          inr {| attr_customer_type := value customer_type;
                 attr_first_name := value first_name;
                 attr_last_name := value last_name;
                 attr_email := email;
                 attr_phone_number := value phone_number;
                 attr_password := password |}
      | inl errors => inl errors
      end
  | _, _, _, _ =>
      inl (field_errors "customer_type" customer_type
           ++ field_errors "first_name" first_name
           ++ field_errors "last_name" last_name
           ++ field_errors "email" email
           ++ field_errors "phone_number" phone_number
           ++ field_errors "password" password
           ++ field_errors "confirm_password" confirm_password)%list
  end.

(** [CustomerRegistrationSerializer.create], that is
    [Customer.objects.create_user]: an empty email is a [ValueError]; the
    flags take the defaults of the model, [is_verified=False] and
    [is_active=True]; the email column is unique. *)
Definition CustomerRegistrationSerializer_create (attrs : RegistrationAttrs)
    : M Customer :=
  if bool_decide (attr_email attrs = "") then
    raise (ValueError "The Email field must be set")
  else
  let email := normalize_email F (attr_email attrs) in
  id ← uuid4;
  salt ← draw;
  created_at ← timezone_now;
  updated_at ← timezone_now;
  d ← get_db;
  if decide (is_Some (customers d !! id)
             ∨ objects_filter (fun c => customer_email c = email) (customers d) ≠ [])
  then raise (IntegrityError CustomerModel)
  else
    let user :=
      {| customer_id := id;
         customer_type :=
           default Retail (attr_customer_type attrs ≫= CustomerType_of_value);
         first_name := default "" (attr_first_name attrs);
         last_name := default "" (attr_last_name attrs);
         customer_email := email;
         phone_number := default None (attr_phone_number attrs);
         password := make_password F (attr_password attrs) salt;
         is_verified := false; is_active := true;
         is_staff := false; is_superuser := false;
         customer_created_at := created_at;
         customer_updated_at := updated_at |} in
    modify_db (set_customers (insert id user));;
    ret user.

(** ** views.py: the registration steps *)

(** [RegisterAPIView.post]. *)
Definition RegisterAPIView_post (data : QueryDict) : M Response :=
  d ← get_db;
  match CustomerRegistrationSerializer (customers d) data with
  | inr attrs =>
      customer ← CustomerRegistrationSerializer_create attrs;
      CustomResponse_success
        (Some (DRegistered (customer_id customer) (customer_email customer)
                 (CustomerType_value (customer_type customer))))
        "Registration successful. Please complete billing address."
        HTTP_201_CREATED
  | inl errors =>
      CustomResponse_error "Registration failed" (Some errors) HTTP_400_BAD_REQUEST
  end.

(** [not email] for [email = request.data.get('email')]. *)
Definition falsy (x : Input) : bool :=
  match x with
  | Some (Some s) => bool_decide (s = "")
  | _ => true
  end.

(** The opening of the three address and trade steps: the customer named
    by the [email] key, or the response that ends the request. *)
Definition customer_of_request (data : QueryDict) : M (Response + Customer) :=
  let email := data !! "email" in
  match email with
  | Some (Some email) =>
      if bool_decide (email = "") then
        r ← CustomResponse_error "Email is required" None HTTP_400_BAD_REQUEST;
        ret (inl r)
      else
        try_except (customer ← Customer_get email; ret (inr customer))
          (fun e =>
             match e with
             | DoesNotExist CustomerModel =>
                 Some (r ← CustomResponse_error
                             "Customer not found. Please register first."
                             None HTTP_404_NOT_FOUND;
                       ret (inl r))
             | _ => None
             end)
  | _ =>
      r ← CustomResponse_error "Email is required" None HTTP_400_BAD_REQUEST;
      ret (inl r)
  end.

(** [BillingAddressRegisterAPIView.post]. *)
Definition BillingAddressRegisterAPIView_post (data : QueryDict) : M Response :=
  found ← customer_of_request data;
  match found with
  | inl response => ret response
  | inr customer =>
      match AddressSerializer false data with
      | inr attrs =>
          a ← Address_create BillingAddressModel billing_addresses
                set_billing_addresses customer attrs;
          CustomResponse_success (Some (DAddress a))
            "Billing address added successfully. Please complete delivery address."
            HTTP_201_CREATED
      | inl errors =>
          CustomResponse_error "Validation failed" (Some errors) HTTP_400_BAD_REQUEST
      end
  end.

(** The [send_verification_email] and [send_reset_email] helpers:
    [send_mail] inside [try], any exception printed. *)
Definition send_email_helper (subject message email : string) : M unit :=
  try_except (send_mail subject message (DEFAULT_FROM_EMAIL F) [email])
    (fun e => Some (print "Email sending failed")).

(** [DeliveryAddressRegisterAPIView.send_verification_email]. *)
Definition Delivery_send_verification_email (email otp : string) : M unit :=
  send_email_helper "Email Verification - Seidik Ecommerce"
    ("Your verification code is: " +:+ otp +:+ nl +:+ nl
     +:+ "This code will expire in 10 minutes." +:+ nl
     +:+ "If you did not request this, please ignore this email.")
    email.

(** [DeliveryAddressRegisterAPIView.post]. *)
Definition DeliveryAddressRegisterAPIView_post (data : QueryDict) : M Response :=
  found ← customer_of_request data;
  match found with
  | inl response => ret response
  | inr customer =>
      match AddressSerializer false data with
      | inr attrs =>
          a ← Address_create DeliveryAddressModel delivery_addresses
                set_delivery_addresses customer attrs;
          message ←
            (if decide (customer_type customer = Trade) then
               ret "Delivery address added successfully. Please complete trade information."
             else
               otp_code ← OTP_generate_otp;
               OTP_objects_create (customer_email customer) otp_code None;;
               Delivery_send_verification_email (customer_email customer) otp_code;;
               ret "Delivery address added successfully. Verification email sent. Please verify your email.");
          CustomResponse_success (Some (DAddress a)) message HTTP_201_CREATED
      | inl errors =>
          CustomResponse_error "Validation failed" (Some errors) HTTP_400_BAD_REQUEST
      end
  end.

(** [TradeInformationRegisterAPIView.send_verification_email]. *)
Definition Trade_send_verification_email (email otp : string) : M unit :=
  send_email_helper "Email Verification - Seidik Ecommerce"
    ("Your verification code is: " +:+ otp +:+ nl +:+ nl
     +:+ "This code will expire in 10 minutes.")
    email.

(** [TradeInformationRegisterAPIView.post]; [documents] are the files of
    the [documents] key. *)
Definition TradeInformationRegisterAPIView_post (data : QueryDict)
    (documents : option (list UploadedFile)) : M Response :=
  found ← customer_of_request data;
  match found with
  | inl response => ret response
  | inr customer =>
      if decide (customer_type customer ≠ Trade) then
        CustomResponse_error "Only Trade customers can submit trade information"
          None HTTP_403_FORBIDDEN
      else
        exists_ ← hasattr_trade_information customer;
        if exists_ : bool then
          CustomResponse_error "Trade information already exists for this customer"
            None HTTP_400_BAD_REQUEST
        else
          match TradeInformationSerializer false data documents with
          | inr attrs =>
              '(t, docs) ← TradeInformationSerializer_create customer attrs;
              otp_code ← OTP_generate_otp;
              OTP_objects_create (customer_email customer) otp_code None;;
              Trade_send_verification_email (customer_email customer) otp_code;;
              CustomResponse_success (Some (DTradeInformation t docs))
                "Trade information submitted successfully. Verification email sent. Please verify your email."
                HTTP_201_CREATED
          | inl errors =>
              CustomResponse_error "Validation failed" (Some errors)
                HTTP_400_BAD_REQUEST
          end
  end.

(** [ResendOTPAPIView.send_verification_email]. *)
Definition Resend_send_verification_email (email otp : string) : M unit :=
  send_email_helper "Email Verification"
    ("Your verification code is: " +:+ otp +:+ nl +:+ nl
     +:+ "This code will expire in 10 minutes." +:+ nl
     +:+ "If you did not request this, please ignore this email.")
    email.

(** [ResendOTPAPIView.post]. *)
Definition ResendOTPAPIView_post (data : QueryDict) : M Response :=
  match ResendOTPSerializer data with
  | inr email =>
      try_except
        (customer ← Customer_get email;
         if is_verified customer then
           CustomResponse_error "Email is already verified" None HTTP_400_BAD_REQUEST
         else
           otp_code ← OTP_generate_otp;
           OTP_objects_create email otp_code None;;
           Resend_send_verification_email email otp_code;;
           CustomResponse_success None "OTP sent successfully" HTTP_200_OK)
        (fun e =>
           match e with
           | DoesNotExist CustomerModel =>
               Some (CustomResponse_error "User not found" None HTTP_404_NOT_FOUND)
           | _ => None
           end)
  | inl errors =>
      CustomResponse_error "Validation failed" (Some errors) HTTP_400_BAD_REQUEST
  end.

(** [ForgotPasswordAPIView.send_reset_email]. *)
Definition send_reset_email (email otp : string) : M unit :=
  send_email_helper "Password Reset Code"
    ("Your password reset code is: " +:+ otp +:+ nl +:+ nl
     +:+ "This code will expire in 10 minutes." +:+ nl
     +:+ "If you did not request a password reset, please ignore this email.")
    email.

(** [ForgotPasswordAPIView.post]. *)
Definition ForgotPasswordAPIView_post (data : QueryDict) : M Response :=
  match ForgotPasswordSerializer data with
  | inr email =>
      try_except
        (Customer_get email;;
         otp_code ← OTP_generate_otp;
         OTP_objects_create email otp_code None;;
         send_reset_email email otp_code;;
         CustomResponse_success None "Password reset OTP sent to your email"
           HTTP_200_OK)
        (fun e =>
           match e with
           | DoesNotExist CustomerModel =>
               Some (CustomResponse_error "User with this email does not exist"
                       None HTTP_404_NOT_FOUND)
           | _ => None
           end)
  | inl errors =>
      CustomResponse_error "Validation failed" (Some errors) HTTP_400_BAD_REQUEST
  end.

(** ** Authentication: login, logout, token refresh *)

(** [class LoginSerializer]: [remember_me = BooleanField(default=False)]. *)
Definition LoginSerializer (data : QueryDict) : Errors + (string * string * bool) :=
  let email := required_field (EmailField F) (data !! "email") in
  let password := required_field (CharField F None false) (data !! "password") in
  let remember_me : Validated bool :=
    match data !! "remember_me" with
    | None => inr false
    | Some None => inl ["This field may not be null."]
    | Some (Some s) => BooleanField F s
    end in
  match email, password, remember_me with
  | inr email, inr password, inr remember_me => inr (email, password, remember_me)
  | _, _, _ =>
      inl (field_errors "email" email ++ field_errors "password" password
           ++ field_errors "remember_me" remember_me)%list
  end.

(** [OutstandingToken.objects.create(user=, jti=, ...)]: the [jti] column
    is unique. *)
Definition OutstandingToken_create (t : RefreshToken) : M unit :=
  fun w =>
    if decide (token_jti t ∈ outstanding w) then
      (Raise (IntegrityError OutstandingTokenModel), w)
    else
      (Return tt,
       {| db := db w; time := time w; clock_reads := clock_reads w;
          elapse := elapse w; entropy := entropy w; draws := draws w;
          mail_log := mail_log w; smtp_ok := smtp_ok w; stdout := stdout w;
          blacklist := blacklist w;
          outstanding := {[token_jti t]} ∪ outstanding w |}).

(** [RefreshToken.for_user(user)], with the blacklist application: the new
    token is recorded as outstanding. *)
Definition RefreshToken_for_user (user : Customer) : M RefreshToken :=
  now ← timezone_now;
  jti ← draw;
  let token := {| token_jti := jti; token_user_id := customer_id user;
                  token_exp := now + REFRESH_TOKEN_LIFETIME F;
                  token_current_time := now |} in
  OutstandingToken_create token;;
  ret token.

(** [token.set_exp(lifetime=lifetime)]: counted from the token's own
    [current_time]. *)
Definition set_exp (lifetime : Z) (t : RefreshToken) : RefreshToken :=
  {| token_jti := token_jti t; token_user_id := token_user_id t;
     token_exp := token_current_time t + lifetime;
     token_current_time := token_current_time t |}.

(** The check of the blacklist application. *)
Definition is_blacklisted (t : RefreshToken) : M bool :=
  fun w => (Return (bool_decide (token_jti t ∈ blacklist w)), w).

(** [RefreshToken(token)]: the string must decode, and the token must be
    neither expired nor blacklisted. *)
Definition RefreshToken_init (token : string) : M RefreshToken :=
  match decode_refresh F token with
  | None => raise TokenError
  | Some t =>
      now ← timezone_now;
      if bool_decide (token_exp t ≤ now)%Z then raise TokenError
      else
        revoked ← is_blacklisted t;
        if revoked : bool then raise TokenError
        else ret {| token_jti := token_jti t; token_user_id := token_user_id t;
                    token_exp := token_exp t; token_current_time := now |}
  end.

(** [token.blacklist()]: [get_or_create] of the outstanding row, then of
    the blacklisted row. *)
Definition RefreshToken_blacklist (t : RefreshToken) : M unit :=
  fun w =>
    (Return tt,
     {| db := db w; time := time w; clock_reads := clock_reads w;
        elapse := elapse w; entropy := entropy w; draws := draws w;
        mail_log := mail_log w; smtp_ok := smtp_ok w; stdout := stdout w;
        blacklist := {[token_jti t]} ∪ blacklist w;
        outstanding := {[token_jti t]} ∪ outstanding w |}).

(** [LoginAPIView.post]. *)
Definition LoginAPIView_post (data : QueryDict) : M Response :=
  match LoginSerializer data with
  | inr (email, password, remember_me) =>
      d ← get_db;
      match authenticate F (customers d) email password with
      | None =>
          CustomResponse_error "Invalid credentials" None HTTP_401_UNAUTHORIZED
      | Some user =>
          if negb (is_verified user) then
            CustomResponse_error
              "Email not verified. Please verify your email first."
              None HTTP_403_FORBIDDEN
          else if negb (is_active user) then
            CustomResponse_error "Account is deactivated" None HTTP_403_FORBIDDEN
          else
            refresh ← RefreshToken_for_user user;
            let refresh :=
              if remember_me : bool then set_exp (timedelta_days 30) refresh
              else refresh in
            CustomResponse_success
              (Some (DLogin (str_access_token F refresh) (str_refresh F refresh) user))
              "Login successful" HTTP_200_OK
      end
  | inl errors =>
      CustomResponse_error "Validation failed" (Some errors) HTTP_400_BAD_REQUEST
  end.

(** [LogoutAPIView.post]. *)
Definition LogoutAPIView_post (user : Customer) (data : QueryDict) : M Response :=
  try_except
    (match data !! "refresh" with
     | Some (Some refresh_token) =>
         if bool_decide (refresh_token = "") then
           CustomResponse_error "Refresh token is required" None HTTP_400_BAD_REQUEST
         else
           token ← RefreshToken_init refresh_token;
           RefreshToken_blacklist token;;
           CustomResponse_success None "Logout successful" HTTP_200_OK
     | _ =>
         CustomResponse_error "Refresh token is required" None HTTP_400_BAD_REQUEST
     end)
    (fun e =>
       match e with
       | TokenError =>
           Some (CustomResponse_error "Invalid or expired token" None
                   HTTP_400_BAD_REQUEST)
       | _ => Some (CustomResponse_error "Logout failed" None HTTP_400_BAD_REQUEST)
       end).

(** [class RefreshTokenSerializer]. *)
Definition RefreshTokenSerializer (data : QueryDict) : Errors + string :=
  let refresh := required_field (CharField F None false) (data !! "refresh") in
  match refresh with
  | inr refresh => inr refresh
  | inl _ => inl (field_errors "refresh" refresh)
  end.

(** [RefreshTokenAPIView.post]. *)
Definition RefreshTokenAPIView_post (data : QueryDict) : M Response :=
  match RefreshTokenSerializer data with
  | inr refresh_token =>
      try_except
        (refresh ← RefreshToken_init refresh_token;
         CustomResponse_success (Some (DAccess (str_access_token F refresh)))
           "Token refreshed successfully" HTTP_200_OK)
        (fun e =>
           match e with
           | TokenError =>
               Some (CustomResponse_error "Invalid or expired refresh token" None
                       HTTP_401_UNAUTHORIZED)
           | _ => None
           end)
  | inl errors =>
      CustomResponse_error "Validation failed" (Some errors) HTTP_400_BAD_REQUEST
  end.

(** ** Change password *)

(** [class ChangePasswordSerializer]; [validate_old_password] checks the
    old password against the hash of [request.user]. *)
Definition ChangePasswordSerializer (user : Customer) (data : QueryDict)
    : Errors + string :=
  let old_password :=
    match required_field (CharField F None false) (data !! "old_password") with
    | inl msgs => inl msgs
    | inr v =>
        if check_password F v (password user) then inr v
        else inl ["Old password is incorrect."]
    end in
  let new_password := required_field (CharField F None false) (data !! "new_password") in
  let confirm_password :=
    required_field (CharField F None false) (data !! "confirm_password") in
  match old_password, new_password, confirm_password with
  | inr _, inr new_password, inr confirm_password =>
      match validate_new_password new_password confirm_password with
      | inr _ => inr new_password
      | inl errors => inl errors
      end
  | _, _, _ =>
      inl (field_errors "old_password" old_password
           ++ field_errors "new_password" new_password
           ++ field_errors "confirm_password" confirm_password)%list
  end.

(** [ChangePasswordAPIView.post]. *)
Definition ChangePasswordAPIView_post (user : Customer) (data : QueryDict)
    : M Response :=
  match ChangePasswordSerializer user data with
  | inr new_password =>
      user ← Customer_set_password new_password user;
      Customer_save user;;
      CustomResponse_success None "Password changed successfully" HTTP_200_OK
  | inl errors =>
      CustomResponse_error "Validation failed" (Some errors) HTTP_400_BAD_REQUEST
  end.

(** ** Profile *)

(** [TradeInformationSerializer(trade_info).data]: the row and its
    [uploaded_documents]. *)
Definition trade_information_data (t : TradeInformation)
    : M (TradeInformation * list TradeDocument) :=
  d ← get_db;
  ret (t, objects_filter (fun doc => document_trade_info doc = trade_id t)
            (trade_documents d)).

(** [CustomerProfileSerializer(user).data]. *)
Definition CustomerProfileSerializer_data (obj : Customer) : M Data :=
  d ← get_db;
  let billing := objects_filter (fun a => address_user a = customer_id obj)
                   (billing_addresses d) in
  let delivery := objects_filter (fun a => address_user a = customer_id obj)
                    (delivery_addresses d) in
  trade ← try_except
            (t ← Customer_trade_information obj;
             td ← trade_information_data t;
             ret (Some td))
            (fun e =>
               match e with
               | DoesNotExist TradeInformationModel => Some (ret None)
               | _ => None
               end);
  ret (DProfile obj billing delivery trade).

(** [ProfileAPIView.get]. *)
Definition ProfileAPIView_get (user : Customer) : M Response :=
  profile ← CustomerProfileSerializer_data user;
  CustomResponse_success (Some profile) "Profile retrieved successfully" HTTP_200_OK.

(** The [id] key of an element of [billing_addresses] or
    [delivery_addresses], as [update] reads it: absent or falsy; a value
    that [UUIDField] does not accept as a UUID; or a UUID. *)
Inductive EntryId :=
  | NoId
  | MalformedId (raw : string)
  | Id (id : uuid).

(** One element of [billing_addresses] or [delivery_addresses]: the [id]
    key and the dictionary. *)
Record AddressEntry := {
  entry_id : EntryId;
  entry_data : QueryDict;
}.

(** The body of a profile update: the scalar keys, the two lists, and
    [trade_information] with the files under its [documents] key. *)
Record ProfilePatch := {
  patch_data : QueryDict;
  patch_billing_addresses : option (list AddressEntry);
  patch_delivery_addresses : option (list AddressEntry);
  patch_trade_information : option (QueryDict * option (list UploadedFile));
}.

Record ProfileAttrs := {
  attr_profile_first_name : option string;
  attr_profile_last_name : option string;
  attr_profile_phone_number : option (option string);
}.

(** [class CustomerProfileUpdateSerializer] with [partial=True]: the scalar
    fields are [first_name], [last_name] and [phone_number]. *)
Definition CustomerProfileUpdateSerializer (data : QueryDict)
    : Errors + ProfileAttrs :=
  let first_name :=
    not_null (run_validation false false true (CharField F (Some 150%nat) true)
                (data !! "first_name")) in
  let last_name :=
    not_null (run_validation false false true (CharField F (Some 150%nat) true)
                (data !! "last_name")) in
  let phone_number :=
    run_validation false true true phone_number_field (data !! "phone_number") in
  match
    (field_errors "first_name" first_name ++ field_errors "last_name" last_name
     ++ field_errors "phone_number" phone_number)%list
  with
  | [] => inr {| attr_profile_first_name := value first_name;
                 attr_profile_last_name := value last_name;
                 attr_profile_phone_number := value phone_number |}
  | errors => inl errors
  end.

(** [for attr, value in validated_data.items(): setattr(instance, attr,
    value)]. *)
Definition Customer_setattrs (attrs : ProfileAttrs) (c : Customer) : Customer :=
  {| customer_id := customer_id c; customer_type := customer_type c;
     first_name := default (first_name c) (attr_profile_first_name attrs);
     last_name := default (last_name c) (attr_profile_last_name attrs);
     customer_email := customer_email c;
     phone_number := default (phone_number c) (attr_profile_phone_number attrs);
     password := password c; is_verified := is_verified c;
     is_active := is_active c; is_staff := is_staff c;
     is_superuser := is_superuser c;
     customer_created_at := customer_created_at c;
     customer_updated_at := customer_updated_at c |}.

(** [for x in xs: body(x)]. *)
Fixpoint for_each {A} (body : A -> M unit) (xs : list A) : M unit :=
  match xs with
  | [] => ret tt
  | x :: rest => body x;; for_each body rest
  end.

(** The body of the loops over [billing_addresses_data] and
    [delivery_addresses_data] in [CustomerProfileUpdateSerializer.update].
    The lookup by an [id] that is not a UUID raises the [ValidationError] of
    [django.core.exceptions], which the [except ...DoesNotExist] clause does
    not catch. *)
Definition update_address_entry (m : Model)
    (table : DB -> gmap uuid Address)
    (set_table : (gmap uuid Address -> gmap uuid Address) -> DB -> DB)
    (instance : Customer) (address_data : AddressEntry) : M unit :=
  match entry_id address_data with
  | NoId =>
      match AddressSerializer false (entry_data address_data) with
      | inr attrs => Address_create m table set_table instance attrs;; ret tt
      | inl errors => raise (ValidationError errors)
      end
  | address_id_value =>
      try_except
        (d ← get_db;
         address ← match address_id_value with
                    | Id id =>
                        objects_get m
                          (fun a => address_id a = id
                                    ∧ address_user a = customer_id instance)
                          (table d)
                    | _ => raise (DjangoValidationError "invalid")
                    end;
         match AddressSerializer true (entry_data address_data) with
         | inr attrs => Address_update set_table address attrs;; ret tt
         | inl errors => raise (ValidationError errors)
         end)
        (fun e =>
           match e with
           | DoesNotExist m' => if decide (m' = m) then Some (ret tt) else None
           | _ => None
           end)
  end.

Definition set_trade_attrs (attrs : TradeAttrs) (updated_at : datetime)
    (t : TradeInformation) : TradeInformation :=
  {| trade_id := trade_id t; trade_user := trade_user t;
     business_type := default (business_type t) (attr_business_type attrs);
     monthly_statement :=
       default (monthly_statement t) (attr_monthly_statement attrs);
     procurement_no := default (procurement_no t) (attr_procurement_no attrs);
     is_approved := is_approved t;
     trade_created_at := trade_created_at t; trade_updated_at := updated_at |}.

(** [trade_serializer.save()] on the existing row. *)
Definition TradeInformation_update (t : TradeInformation) (attrs : TradeAttrs)
    : M TradeInformation :=
  updated_at ← timezone_now;
  let t := set_trade_attrs attrs updated_at t in
  modify_db (set_trade_information (insert (trade_id t) t));;
  ret t.

(** The [trade_information] part of
    [CustomerProfileUpdateSerializer.update]. *)
Definition update_trade_information (instance : Customer)
    (trade_information_data : QueryDict)
    (documents_data : option (list UploadedFile)) : M unit :=
  if decide (customer_type instance ≠ Trade) then
    raise (ValidationError
             [("trade_information",
               ["Only Trade customers can have trade information"])])
  else
    exists_ ← hasattr_trade_information instance;
    trade_info ←
      (if exists_ : bool then
         trade_info ← Customer_trade_information instance;
         match TradeInformationSerializer true trade_information_data None with
         | inr attrs => TradeInformation_update trade_info attrs
         | inl errors => raise (ValidationError errors)
         end
       else
         match TradeInformationSerializer false trade_information_data None with
         | inr attrs =>
             '(t, _) ← TradeInformationSerializer_create instance attrs;
             ret t
         | inl errors => raise (ValidationError errors)
         end);
    match documents_data with
    | Some (document :: rest) =>
        TradeDocument_create_all trade_info (document :: rest);; ret tt
    | _ => ret tt
    end.

(** [CustomerProfileUpdateSerializer.update]. *)
Definition CustomerProfileUpdateSerializer_update (instance : Customer)
    (attrs : ProfileAttrs) (patch : ProfilePatch) : M Customer :=
  instance ← Customer_save (Customer_setattrs attrs instance);
  match patch_billing_addresses patch with
  | Some billing_addresses_data =>
      for_each (update_address_entry BillingAddressModel billing_addresses
                  set_billing_addresses instance) billing_addresses_data
  | None => ret tt
  end;;
  match patch_delivery_addresses patch with
  | Some delivery_addresses_data =>
      for_each (update_address_entry DeliveryAddressModel delivery_addresses
                  set_delivery_addresses instance) delivery_addresses_data
  | None => ret tt
  end;;
  match patch_trade_information patch with
  | Some (trade_information_data, documents_data) =>
      update_trade_information instance trade_information_data documents_data
  | None => ret tt
  end;;
  ret instance.

(** [ProfileUpdateAPIView.patch]. *)
Definition ProfileUpdateAPIView_patch (user : Customer) (patch : ProfilePatch)
    : M Response :=
  match CustomerProfileUpdateSerializer (patch_data patch) with
  | inr attrs =>
      user ← CustomerProfileUpdateSerializer_update user attrs patch;
      profile ← CustomerProfileSerializer_data user;
      CustomResponse_success (Some profile) "Profile updated successfully"
        HTTP_200_OK
  | inl errors =>
      CustomResponse_error "Validation failed" (Some errors) HTTP_400_BAD_REQUEST
  end.

(** ** urls.py: the public operations *)

(** A request to one of the routes of [accounts/urls.py].  The routes with
    [permission_classes = [IsAuthenticated]] carry the primary key of the
    customer the bearer credential names. *)
Inductive Request :=
  | Register (data : QueryDict)
  | RegisterBilling (data : QueryDict)
  | RegisterDelivery (data : QueryDict)
  | RegisterTrade (data : QueryDict) (documents : option (list UploadedFile))
  | VerifyEmail (data : QueryDict)
  | ResendOTP (data : QueryDict)
  | Login (data : QueryDict)
  | Logout (user_id : uuid) (data : QueryDict)
  | TokenRefresh (data : QueryDict)
  | ForgotPassword (data : QueryDict)
  | VerifyResetOTP (data : QueryDict)
  | ResetPassword (data : QueryDict)
  | ChangePassword (user_id : uuid) (data : QueryDict)
  | Profile (user_id : uuid)
  | ProfileUpdate (user_id : uuid) (patch : ProfilePatch).

(** [request.user] of an authenticated route: the row of the customer the
    credential names; the request is refused when there is none. *)
Definition authenticated (user_id : uuid) (view : Customer -> M Response)
    : M Response :=
  d ← get_db;
  match customers d !! user_id with
  | Some user => view user
  | None => raise NotAuthenticated
  end.

Definition dispatch (r : Request) : M Response :=
  match r with
  | Register data => RegisterAPIView_post data
  | RegisterBilling data => BillingAddressRegisterAPIView_post data
  | RegisterDelivery data => DeliveryAddressRegisterAPIView_post data
  | RegisterTrade data documents => TradeInformationRegisterAPIView_post data documents
  | VerifyEmail data => VerifyEmailAPIView_post data
  | ResendOTP data => ResendOTPAPIView_post data
  | Login data => LoginAPIView_post data
  | Logout user_id data => authenticated user_id (fun u => LogoutAPIView_post u data)
  | TokenRefresh data => RefreshTokenAPIView_post data
  | ForgotPassword data => ForgotPasswordAPIView_post data
  | VerifyResetOTP data => VerifyResetOTPAPIView_post data
  | ResetPassword data => ResetPasswordAPIView_post data
  | ChangePassword user_id data =>
      authenticated user_id (fun u => ChangePasswordAPIView_post u data)
  | Profile user_id => authenticated user_id ProfileAPIView_get
  | ProfileUpdate user_id patch =>
      authenticated user_id (fun u => ProfileUpdateAPIView_patch u patch)
  end.

End Accounts.

(** ** Runs of the service *)

(** Time passes between requests. *)
Definition wait (dt : N) (w : World) : World :=
  {| db := db w; time := time w + Z.of_N dt; clock_reads := clock_reads w;
     elapse := elapse w; entropy := entropy w; draws := draws w;
     mail_log := mail_log w; smtp_ok := smtp_ok w; stdout := stdout w;
     blacklist := blacklist w;
     outstanding := outstanding w |}.

Inductive Event :=
  | Call (r : Request)
  | Wait (dt : N).

Definition step (F : Framework) (w : World) (e : Event) : World :=
  match e with
  | Call r => (dispatch F r w).2
  | Wait dt => wait dt w
  end.

(** The world after a sequence of events, first event first. *)
Definition run (F : Framework) (w : World) (events : list Event) : World :=
  foldl (step F) w events.

(** ** The invariant of the tables *)

(** Each row is stored under its own primary key. *)
Definition keyed {A} (pk : A -> uuid) (table : gmap uuid A) : Prop :=
  map_Forall (fun k a => pk a = k) table.

Definition db_wf (d : DB) : Prop :=
  keyed customer_id (customers d)
  ∧ keyed address_id (billing_addresses d)
  ∧ keyed address_id (delivery_addresses d)
  ∧ keyed trade_id (trade_information d)
  ∧ keyed document_id (trade_documents d)
  ∧ keyed otp_id (otps d).

#[global] Instance keyed_dec {A} (pk : A -> uuid) (table : gmap uuid A) :
  Decision (keyed pk table).
Proof. unfold keyed. apply _. Defined.

#[global] Instance db_wf_dec (d : DB) : Decision (db_wf d).
Proof. unfold db_wf. apply _. Defined.

(** ** Notions the statements use *)

Definition OTP_matches (email code : string) (o : OTP) : Prop :=
  otp_email o = email ∧ otp_otp o = code.

(** The row [OTP.objects.filter(email=, otp=).latest('created_at')] returns,
    when there is one. *)
Definition OTP_selected (d : DB) (email code : string) : option OTP :=
  latest_row otp_created_at (OTP_filter email code d).

(** [o] is a row of the table that matches [(email, code)] and no matching
    row was created later. *)
Definition most_recent_match (d : DB) (email code : string) (o : OTP) : Prop :=
  otps d !! otp_id o = Some o
  ∧ OTP_matches email code o
  ∧ ∀ k o', otps d !! k = Some o' → OTP_matches email code o' →
            otp_created_at o' ≤ otp_created_at o.

Definition no_customer (d : DB) (email : string) : Prop :=
  ∀ k c, customers d !! k = Some c → customer_email c ≠ email.

(** [c] is the one customer registered under its email. *)
Definition the_customer (d : DB) (c : Customer) : Prop :=
  customers d !! customer_id c = Some c
  ∧ ∀ k c', customers d !! k = Some c' → customer_email c' = customer_email c →
            c' = c.

(** [c] is the customer the [email] key of the request names: the one row
    of the customer table with this email. *)
Definition request_customer (d : DB) (data : QueryDict) (c : Customer) : Prop :=
  data !! "email" = Some (Some (customer_email c))
  ∧ customer_email c ≠ ""
  ∧ (∃ k, customers d !! k = Some c)
  ∧ ∀ k c', customers d !! k = Some c' → customer_email c' = customer_email c →
            c' = c.

(** The request made exactly one new OTP row, [o], for [email], and called
    [send_mail] once, with [email] as the only recipient and the code of
    [o] in the body. *)
Definition minted_and_mailed (w w' : World) (email : string) (o : OTP) : Prop :=
  otps (db w) !! otp_id o = None
  ∧ otps (db w') = <[otp_id o := o]> (otps (db w))
  ∧ otp_email o = email ∧ otp_is_used o = false
  ∧ ∃ m ok, mail_log w' = (m, ok) :: mail_log w
      ∧ mail_recipient_list m = [email]
      ∧ ∃ rest, mail_message m = "Your verification code is: " +:+ otp_otp o +:+ rest.


(** In the world [w], the request [req] is a verify-email request that
    succeeds: its fields validate to the email of the customer stored under
    [k] and a code, the selected OTP row is valid and leaves the request
    marked used, and the answer is a success. *)
Definition verifies (F : Framework) (w : World) (req : Request) (k : uuid) : Prop :=
  ∃ data email code o r c,
    req = VerifyEmail data
    ∧ VerifyEmailSerializer F data = inr (email, code)
    ∧ (dispatch F req w).1 = Return r ∧ success r = true
    ∧ OTP_selected (db w) email code = Some o
    ∧ (OTP_is_valid o w).1 = Return true
    ∧ otps (db (dispatch F req w).2) !! otp_id o = Some (set_is_used true o)
    ∧ customers (db w) !! k = Some c ∧ customer_email c = email.

(** ** Frame conditions *)

(** Every run of [c] takes a world to a world related to it by [R], whether
    [c] returns or raises. *)
Definition preserves {A} (R : relation World) (c : M A) : Prop :=
  ∀ w out w', c w = (out, w') → R w w'.

(** The part [X] of the world is the same before and after. *)
Definition same {T} (X : World -> T) : relation World :=
  fun w w' => X w' = X w.

(** The invariant of the tables is kept. *)
Definition wf_kept : relation World :=
  fun w w' => db_wf (db w) → db_wf (db w').

(** No customer is verified after who was not before: a verified row of
    the later table stands, verified, under the same key in the earlier. *)
Definition verified_kept : relation World :=
  fun w w' =>
    ∀ k c', customers (db w') !! k = Some c' → is_verified c' = true →
            ∃ c, customers (db w) !! k = Some c ∧ is_verified c = true.

(** The rows of an address table that do not belong to [user] are
    untouched, and the table stays keyed. *)
Definition others_untouched (table : DB -> gmap uuid Address) (user : uuid)
    : relation World :=
  fun w w' =>
    keyed address_id (table (db w)) →
    keyed address_id (table (db w'))
    ∧ ∀ k a, table (db w) !! k = Some a → address_user a ≠ user →
             table (db w') !! k = Some a.

(** ** A concrete framework and concrete worlds, to run the views on *)

Module Demo.

Definition has_at (s : string) : bool :=
  bool_decide ("@"%char ∈ String.list_ascii_of_string s).

Definition too_long (max_length : option nat) (s : string) : bool :=
  match max_length with
  | Some n => bool_decide (n < String.length s)%nat
  | None => false
  end.

Definition framework : Framework := {|
  EmailField := fun s =>
    if has_at s then inr s else inl ["Enter a valid email address."];
  CharField := fun max_length allow_blank s =>
    if bool_decide (s = "") && negb allow_blank then
      inl ["This field may not be blank."]
    else if too_long max_length s then
      inl ["Ensure this field has no more characters than allowed."]
    else inr s;
  BooleanField := fun s =>
    if bool_decide (s = "true") then inr true
    else if bool_decide (s = "false") then inr false
    else inl ["Must be a valid boolean."];
  validate_password := fun s =>
    if bool_decide (String.length s < 8)%nat then
      ["This password is too short. It must contain at least 8 characters."]
    else [];
  make_password := fun raw _ => "pbkdf2$" +:+ raw;
  check_password := fun raw h => bool_decide (h = "pbkdf2$" +:+ raw);
  authenticate :=
    ModelBackend_authenticate (fun raw h => bool_decide (h = "pbkdf2$" +:+ raw));
  normalize_email := fun s => s;
  DEFAULT_FROM_EMAIL := "noreply@example.com";
  REFRESH_TOKEN_LIFETIME := timedelta_days 1;
  str_refresh := fun _ => "refresh";
  str_access_token := fun _ => "access";
  decode_refresh := fun _ => None;
|}.

Definition empty_db : DB := {|
  customers := ∅; billing_addresses := ∅; delivery_addresses := ∅;
  trade_information := ∅; trade_documents := ∅; otps := ∅;
|}.

(** A world at time [t] over the database [d]: each reading of the clock
    takes one microsecond, the draws count up from 1000, mail goes through. *)
Definition world (d : DB) (t : datetime) : World := {|
  db := d; time := t; clock_reads := 0; elapse := fun _ => 1%N;
  entropy := fun k => (1000 + N.of_nat k)%N; draws := 0;
  mail_log := []; smtp_ok := fun _ => true; stdout := [];
  blacklist := ∅; outstanding := ∅;
|}.

Definition alice : Customer := {|
  customer_id := 1%N; customer_type := Retail; first_name := "Alice";
  last_name := ""; customer_email := "a@x.com"; phone_number := None;
  password := "pbkdf2$correct horse"; is_verified := false; is_active := true;
  is_staff := false; is_superuser := false;
  customer_created_at := 0; customer_updated_at := 0;
|}.

Definition bob : Customer := {|
  customer_id := 2%N; customer_type := Trade; first_name := "Bob";
  last_name := ""; customer_email := "b@x.com"; phone_number := None;
  password := "pbkdf2$battery staple"; is_verified := false; is_active := true;
  is_staff := false; is_superuser := false;
  customer_created_at := 0; customer_updated_at := 0;
|}.

(** An OTP for [email] created at [t], with the default expiry. *)
Definition otp_row (id : uuid) (email code : string) (t : datetime) (used : bool)
    : OTP := {|
  otp_id := id; otp_email := email; otp_otp := code; otp_created_at := t;
  otp_expires_at := t + timedelta_minutes 10; otp_is_used := used;
|}.

Definition request (fields : list (string * string)) : QueryDict :=
  list_to_map (prod_map id Some <$> fields).

(** Alice, unverified, with one unused code issued at time 100. *)
Definition db_alice : DB := {|
  customers := {[1%N := alice]}; billing_addresses := ∅;
  delivery_addresses := ∅; trade_information := ∅; trade_documents := ∅;
  otps := {[7%N := otp_row 7%N "a@x.com" "12345678" 100 false]};
|}.

(** The same code, issued for an address nobody registered. *)
Definition db_no_customer : DB := {|
  customers := ∅; billing_addresses := ∅;
  delivery_addresses := ∅; trade_information := ∅; trade_documents := ∅;
  otps := {[7%N := otp_row 7%N "a@x.com" "12345678" 100 false]};
|}.

Definition bob_trade : TradeInformation := {|
  trade_id := 9%N; trade_user := 2%N; business_type := "Electrician";
  monthly_statement := None; procurement_no := None; is_approved := false;
  trade_created_at := 50; trade_updated_at := 50;
|}.

Definition alice_address : Address := {|
  address_id := 20%N; address_user := 1%N; company_name := None;
  vat_number := None; company_registration := None; po_number := None;
  address_line_1 := "1 Main Road"; address_line_2 := None; city := "Durban";
  postal_code := "4001"; province := "KwaZulu-Natal";
  address_created_at := 10; address_updated_at := 10;
|}.

(** Alice with a billing address, and Bob, a Trade customer whose trade
    information is on file. *)
Definition db_bob : DB := {|
  customers := {[1%N := alice; 2%N := bob]};
  billing_addresses := {[20%N := alice_address]};
  delivery_addresses := ∅;
  trade_information := {[9%N := bob_trade]}; trade_documents := ∅;
  otps := ∅;
|}.

(** Carol: verified, and deactivated. *)
Definition carol : Customer := {|
  customer_id := 3%N; customer_type := Retail; first_name := "Carol";
  last_name := ""; customer_email := "c@x.com"; phone_number := None;
  password := "pbkdf2$tr0ub4dor"; is_verified := true; is_active := false;
  is_staff := false; is_superuser := false;
  customer_created_at := 0; customer_updated_at := 0;
|}.

Definition db_carol : DB := {|
  customers := {[3%N := carol]}; billing_addresses := ∅;
  delivery_addresses := ∅; trade_information := ∅; trade_documents := ∅;
  otps := ∅;
|}.

(** Carol logs in with her password. *)
Definition carol_login : QueryDict :=
  request [("email", "c@x.com"); ("password", "tr0ub4dor")].

(** A profile update that changes the first name and names an address by
    an id that is not a UUID. *)
Definition malformed_patch : ProfilePatch := {|
  patch_data := request [("first_name", "Al")];
  patch_billing_addresses :=
    Some [{| entry_id := MalformedId "not-a-uuid";
             entry_data := request [("city", "Elsewhere")] |}];
  patch_delivery_addresses := None;
  patch_trade_information := None;
|}.

Definition verify_request : QueryDict :=
  request [("email", "a@x.com"); ("otp", "12345678")].

Definition reset_request : QueryDict :=
  request [("email", "a@x.com"); ("otp", "12345678");
           ("new_password", "another horse"); ("confirm_password", "another horse")].

Definition login_request : QueryDict :=
  request [("email", "a@x.com"); ("password", "correct horse")].

Definition address_request (email : string) : QueryDict :=
  request [("email", email); ("address_line_1", "1 Main Road");
           ("city", "Durban"); ("postal_code", "4001");
           ("province", "KwaZulu-Natal")].

Definition trade_request : QueryDict :=
  request [("email", "b@x.com"); ("business_type", "Electrician")].

(** The row [OTP.objects.create] makes for Alice in the empty database at
    time 0: the first draw is its key, the first reading of the clock its
    expiry base, the second its creation stamp. *)
Definition created_otp : OTP := {|
  otp_id := 1000%N; otp_email := "a@x.com"; otp_otp := "01234567";
  otp_created_at := 1; otp_expires_at := 600000000; otp_is_used := false;
|}.

End Demo.

(** ** Notions of the properties beyond the claims *)

(** The clock of [w'] does not read less than the clock of [w]. *)
Definition time_le : relation World := fun w w' => time w ≤ time w'.

(** What a request never changes of a customer row. *)
Definition same_identity (c c' : Customer) : Prop :=
  customer_id c' = customer_id c
  ∧ customer_email c' = customer_email c
  ∧ customer_type c' = customer_type c
  ∧ is_active c' = is_active c
  ∧ is_staff c' = is_staff c
  ∧ is_superuser c' = is_superuser c
  ∧ customer_created_at c' = customer_created_at c.

(** How one request may change the customer table: not at all; or it
    rewrites one row, keeping its identity; or it inserts one row under a
    free key, for an email no row has, not verified, active, not staff. *)
Inductive customers_step (w w' : World) : Prop :=
  | customers_same :
      customers (db w') = customers (db w) → customers_step w w'
  | customers_rewritten (k : uuid) (c c' : Customer) :
      customers (db w) !! k = Some c → same_identity c c' →
      customers (db w') = <[k := c']> (customers (db w)) →
      customers_step w w'
  | customers_registered (k : uuid) (c' : Customer) :
      customers (db w) !! k = None →
      (∀ k0 c0, customers (db w) !! k0 = Some c0 →
                customer_email c0 ≠ customer_email c') →
      customer_id c' = k → is_verified c' = false → is_active c' = true →
      is_staff c' = false → is_superuser c' = false →
      customers (db w') = <[k := c']> (customers (db w)) →
      customers_step w w'.

(** No two rows of the customer table have the same email. *)
Definition unique_emails (d : DB) : Prop :=
  ∀ k1 k2 c1 c2,
    customers d !! k1 = Some c1 → customers d !! k2 = Some c2 →
    customer_email c1 = customer_email c2 → k1 = k2.

(** The request made exactly one new OTP row, [o], for [email], and called
    [send_mail] once, with [email] as the only recipient and the code of
    [o] in the body of the password-reset mail. *)
Definition reset_code_mailed (w w' : World) (email : string) (o : OTP) : Prop :=
  otps (db w) !! otp_id o = None
  ∧ otps (db w') = <[otp_id o := o]> (otps (db w))
  ∧ otp_email o = email ∧ otp_is_used o = false
  ∧ ∃ m ok, mail_log w' = (m, ok) :: mail_log w
      ∧ mail_recipient_list m = [email]
      ∧ ∃ rest, mail_message m = "Your password reset code is: " +:+ otp_otp o +:+ rest.

(** How one request may change the OTP table: not at all; or it inserts one
    unused row under a free key; or it marks used one row that was unused
    and, when the request began, not expired. *)
Inductive otps_step (w w' : World) : Prop :=
  | otps_same : otps (db w') = otps (db w) → otps_step w w'
  | otps_minted (o : OTP) :
      otps (db w) !! otp_id o = None → otp_is_used o = false →
      otps (db w') = <[otp_id o := o]> (otps (db w)) →
      otps_step w w'
  | otps_consumed (o : OTP) :
      otps (db w) !! otp_id o = Some o → otp_is_used o = false →
      time w < otp_expires_at o →
      otps (db w') = <[otp_id o := set_is_used true o]> (otps (db w)) →
      otps_step w w'.

(** Every row of the OTP table is still there, under its key, as it was or
    with nothing changed but [is_used] gone from false to true. *)
Definition ledger_kept : relation World :=
  fun w w' =>
    ∀ k o, otps (db w) !! k = Some o →
      otps (db w') !! k = Some o
      ∨ (otp_is_used o = false ∧ otps (db w') !! k = Some (set_is_used true o)).

(** A file passes the checks of [validate_documents] and
    [validate_document]: one of the four extensions, in any case, and at
    most ten mebibytes. *)
Definition acceptable_document (file : UploadedFile) : Prop :=
  splitext_lower (file_name file) ∈ valid_extensions
  ∧ (file_size file ≤ 10 * 1024 * 1024)%N.

(** [TradeDocumentSerializer.validate_document]. *)
Definition validate_document (file : UploadedFile) : Validated UploadedFile :=
  if decide (splitext_lower (file_name file) ∉ valid_extensions) then
    inl ["Only PDF, JPG, and PNG files are allowed."]
  else if bool_decide (10 * 1024 * 1024 < file_size file)%N then
    inl ["File size must not exceed 10MB."]
  else inr file.

(** Every row of the customer table is still there, under its key, with
    its identity. *)
Definition identity_kept : relation World :=
  fun w w' =>
    ∀ k c, customers (db w) !! k = Some c →
      ∃ c', customers (db w') !! k = Some c' ∧ same_identity c c'.

(** Every row that matches [(email, code)] is used or expired. *)
Definition no_valid_match (w : World) (email code : string) : Prop :=
  ∀ k o, otps (db w) !! k = Some o → OTP_matches email code o →
         otp_is_used o = true ∨ otp_expires_at o ≤ time w.

(** The answer is a 400 and the database is as it was. *)
Definition refused (view : M Response) (w : World) : Prop :=
  ∃ r w', view w = (Return r, w')
    ∧ statusCode r = HTTP_400_BAD_REQUEST ∧ success r = false
    ∧ db w' = db w.

(** The view answers with the error [msg] under [status]; the database, the
    mail log and the token blacklist are as they were. *)
Definition rejects (view : M Response) (w : World) (status : nat) (msg : string)
    : Prop :=
  ∃ r w', view w = (Return r, w')
    ∧ success r = false ∧ statusCode r = status ∧ message r = msg
    ∧ db w' = db w ∧ mail_log w' = mail_log w ∧ blacklist w' = blacklist w.

(** The billing-address, delivery-address and trade-information steps all
    answer with the error [msg] under [status] and change nothing. *)
Definition steps_reject (F : Framework) (data : QueryDict)
    (documents : option (list UploadedFile)) (w : World) (status : nat)
    (msg : string) : Prop :=
  rejects (BillingAddressRegisterAPIView_post F data) w status msg
  ∧ rejects (DeliveryAddressRegisterAPIView_post F data) w status msg
  ∧ rejects (TradeInformationRegisterAPIView_post F data documents) w status msg.



(** The refresh token string [s] is accepted in [w] as the token [t]: it
    decodes to [t], [t] has not expired and its identifier is not on the
    blacklist. *)
Definition usable_refresh (F : Framework) (w : World) (s : string)
    (t : RefreshToken) : Prop :=
  decode_refresh F s = Some t ∧ time w < token_exp t
  ∧ token_jti t ∉ blacklist w.

(** Nothing is taken off the blacklist. *)
Definition blacklist_grows : relation World :=
  fun w w' => blacklist w ⊆ blacklist w'.

(** [RefreshToken(token)] at the reading [now] of the clock. *)
Definition stamped (now : datetime) (t : RefreshToken) : RefreshToken :=
  {| token_jti := token_jti t; token_user_id := token_user_id t;
     token_exp := token_exp t; token_current_time := now |}.

(** ** A framework that decodes one refresh token *)

Module Sessions.

Definition token : RefreshToken := {|
  token_jti := 77%N; token_user_id := 1%N; token_exp := 1000;
  token_current_time := 0;
|}.

(** The framework of [Demo], where the string [r77] decodes to [token]. *)
Definition framework : Framework := {|
  EmailField := EmailField Demo.framework;
  CharField := CharField Demo.framework;
  BooleanField := BooleanField Demo.framework;
  validate_password := validate_password Demo.framework;
  make_password := make_password Demo.framework;
  check_password := check_password Demo.framework;
  authenticate := authenticate Demo.framework;
  normalize_email := normalize_email Demo.framework;
  DEFAULT_FROM_EMAIL := DEFAULT_FROM_EMAIL Demo.framework;
  REFRESH_TOKEN_LIFETIME := REFRESH_TOKEN_LIFETIME Demo.framework;
  str_refresh := str_refresh Demo.framework;
  str_access_token := str_access_token Demo.framework;
  decode_refresh := fun s => if bool_decide (s = "r77") then Some token else None;
|}.

Definition refresh_request : QueryDict := Demo.request [("refresh", "r77")].

End Sessions.

(** What one entry of [billing_addresses] or [delivery_addresses] does to
    the table, for the customer [owner], when the update goes on after it:
    with the id of a row of [owner], the validated attributes are put on
    that row, under its key; with an id under which [owner] has no row, the
    table stays as it is; without an id, a row made of the validated
    attributes and owned by [owner] is inserted under a free key.  After an
    entry whose id is not a UUID the update does not go on. *)
Definition entry_effect (F : Framework) (owner : uuid) (entry : AddressEntry)
    (t t' : gmap uuid Address) : Prop :=
  match entry_id entry with
  | Id id =>
      match t !! id with
      | Some a =>
          if decide (address_user a = owner) then
            ∃ attrs now,
              AddressSerializer F true (entry_data entry) = inr attrs
              ∧ t' = <[id := Address_setattrs attrs now a]> t
          else t' = t
      | None => t' = t
      end
  | NoId =>
      ∃ attrs a,
        AddressSerializer F false (entry_data entry) = inr attrs
        ∧ t !! address_id a = None ∧ address_user a = owner
        ∧ (∀ user, customer_id user = owner →
             ∃ created updated,
               a = Address_new (address_id a) user attrs created updated)
        ∧ t' = <[address_id a := a]> t
  | MalformedId _ => False
  end.

(** The entries of a list, one after the other. *)
Fixpoint entries_effect (F : Framework) (owner : uuid)
    (entries : list AddressEntry) (t t' : gmap uuid Address) : Prop :=
  match entries with
  | [] => t' = t
  | entry :: rest =>
      ∃ t1, entry_effect F owner entry t t1 ∧ entries_effect F owner rest t1 t'
  end.

Module Patches.

(** Alice changes the city of her billing address, names an address that
    is not hers, and adds a billing address. *)
Definition alice_patch : ProfilePatch := {|
  patch_data := Demo.request [("first_name", "Al")];
  patch_billing_addresses :=
    Some [{| entry_id := Id 20%N;
             entry_data := Demo.request [("city", "Elsewhere")] |};
          {| entry_id := Id 99%N;
             entry_data := Demo.request [("city", "Nowhere")] |};
          {| entry_id := NoId;
             entry_data := Demo.address_request "a@x.com" |}];
  patch_delivery_addresses := None;
  patch_trade_information := None;
|}.

End Patches.

(** * Properties *)

(** ** The monad and the table access *)

Ltac unfold_monad :=
  unfold mbind, M_bind, bind, mret, M_ret, ret, raise, try_except, get_db,
    modify_db, timezone_now in *.

Lemma elem_of_objects_filter {A} (P : A -> Prop) `{!∀ a, Decision (P a)}
    (table : gmap uuid A) (a : A) :
  a ∈ objects_filter P table ↔ P a ∧ ∃ k, table !! k = Some a.
Proof.
  unfold objects_filter. rewrite list_elem_of_filter, list_elem_of_fmap.
  split.
  - intros [HP [[k a'] [-> Hin]]]. split; [done|].
    exists k. by apply elem_of_map_to_list in Hin.
  - intros [HP [k Hk]]. split; [done|].
    exists (k, a). split; [done|]. by apply elem_of_map_to_list.
Qed.

Lemma objects_filter_nil {A} (P : A -> Prop) `{!∀ a, Decision (P a)}
    (table : gmap uuid A) :
  objects_filter P table = [] ↔ ∀ k a, table !! k = Some a → ¬ P a.
Proof.
  split.
  - intros Hnil k a Hk HP.
    assert (a ∈ objects_filter P table) as Hin
      by (apply elem_of_objects_filter; eauto).
    rewrite Hnil in Hin. by apply not_elem_of_nil in Hin.
  - intros Hno. destruct (objects_filter P table) as [|a l] eqn:E; [done|].
    assert (a ∈ objects_filter P table) as Hin by (rewrite E; left).
    apply elem_of_objects_filter in Hin as [HP [k Hk]]. by destruct (Hno k a).
Qed.

Lemma latest_row_None {A} (key : A -> Z) (rows : list A) :
  latest_row key rows = None ↔ rows = [].
Proof.
  split; [|by intros ->].
  destruct rows as [|r rows]; [done|]. simpl.
  destruct (latest_row key rows); [case_bool_decide|]; done.
Qed.

Lemma latest_row_Some {A} (key : A -> Z) (rows : list A) (r : A) :
  latest_row key rows = Some r →
  r ∈ rows ∧ ∀ r', r' ∈ rows → key r' ≤ key r.
Proof.
  revert r. induction rows as [|x rows IH]; intros r; [done|]. simpl.
  destruct (latest_row key rows) as [b|] eqn:E.
  - destruct (IH b eq_refl) as [Hb Hmax].
    case_bool_decide as Hlt; intros [= <-].
    + split; [by right|]. intros r' [->|Hr']%elem_of_cons; [lia|by apply Hmax].
    + split; [by left|]. intros r' [->|Hr']%elem_of_cons; [lia|].
      specialize (Hmax r' Hr'). lia.
  - apply latest_row_None in E as ->. intros [= <-].
    split; [by left|]. intros r' [->|Hr']%elem_of_cons; [lia|].
    by apply not_elem_of_nil in Hr'.
Qed.

(** What the selection of the views means: a row is selected exactly when
    some row matches, and the selected row is a most recent match. *)
Lemma OTP_selected_None (d : DB) (email code : string) :
  OTP_selected d email code = None ↔
  ∀ k o, otps d !! k = Some o → ¬ OTP_matches email code o.
Proof.
  unfold OTP_selected, OTP_filter. rewrite latest_row_None.
  apply objects_filter_nil.
Qed.

Lemma OTP_selected_Some (d : DB) (email code : string) (o : OTP) :
  keyed otp_id (otps d) →
  OTP_selected d email code = Some o →
  most_recent_match d email code o.
Proof.
  intros Hkey [Hin Hmax]%latest_row_Some.
  apply elem_of_objects_filter in Hin as [Hm [k Hk]].
  split; [|split; [done|]].
  - by rewrite (Hkey k o Hk).
  - intros k' o' Hk' Hm'. apply Hmax.
    apply elem_of_objects_filter. eauto.
Qed.

Lemma OTP_latest_run (email code : string) (w : World) :
  OTP_latest email code w =
  (match OTP_selected (db w) email code with
   | Some o => Return o
   | None => Raise (DoesNotExist OTPModel)
   end, w).
Proof.
  unfold OTP_latest, latest, OTP_selected. unfold_monad.
  by destruct (latest_row _ _).
Qed.

Lemma OTP_is_valid_run (o : OTP) (w : World) :
  OTP_is_valid o w =
  if otp_is_used o then (Return false, w)
  else (Return (bool_decide (time w < otp_expires_at o)), tick w).
Proof. unfold OTP_is_valid. by destruct (otp_is_used o). Qed.

Lemma NoDup_rows {A} (pk : A -> uuid) (table : gmap uuid A) :
  keyed pk table → NoDup (map_to_list table).*2.
Proof.
  intros Hkey. apply NoDup_fmap_2_strong; [|apply NoDup_map_to_list].
  intros [k a] [k' a'] Hin Hin' Heq. simpl in Heq. subst a'.
  apply elem_of_map_to_list in Hin, Hin'.
  by rewrite <- (Hkey k a Hin), <- (Hkey k' a Hin').
Qed.

Lemma objects_get_Return {A} (m : Model) (P : A -> Prop)
    `{!∀ a, Decision (P a)} (table : gmap uuid A) (w w' : World) (a : A) :
  objects_get m P table w = (Return a, w') →
  w' = w ∧ P a ∧ (∃ k, table !! k = Some a)
  ∧ ∀ k a', table !! k = Some a' → P a' → a' = a.
Proof.
  unfold objects_get.
  destruct (objects_filter P table) as [|x [|y l]] eqn:E; [done| |done].
  intros [= -> ->].
  assert (a ∈ objects_filter P table) as Hin by (rewrite E; left).
  apply elem_of_objects_filter in Hin as [HP Hk].
  repeat split; [done..|].
  intros k a' Hk' HP'.
  assert (a' ∈ objects_filter P table) as Hin'
    by (apply elem_of_objects_filter; eauto).
  rewrite E in Hin'. by apply list_elem_of_singleton in Hin'.
Qed.

Lemma objects_get_Raise {A} (m : Model) (P : A -> Prop)
    `{!∀ a, Decision (P a)} (table : gmap uuid A) (w w' : World) (e : Exception) :
  objects_get m P table w = (Raise e, w') →
  w' = w ∧ (e = DoesNotExist m ∨ e = MultipleObjectsReturned m).
Proof.
  unfold objects_get.
  destruct (objects_filter P table) as [|x [|y l]]; intros [= <- <-]; auto.
Qed.

Lemma objects_get_none {A} (m : Model) (P : A -> Prop)
    `{!∀ a, Decision (P a)} (table : gmap uuid A) (w : World) :
  (∀ k a, table !! k = Some a → ¬ P a) →
  objects_get m P table w = (Raise (DoesNotExist m), w).
Proof.
  intros Hno. unfold objects_get.
  by rewrite (proj2 (objects_filter_nil P table) Hno).
Qed.

Lemma objects_get_unique {A} (m : Model) (pk : A -> uuid) (P : A -> Prop)
    `{!∀ a, Decision (P a)} (table : gmap uuid A) (w : World) (a : A) :
  keyed pk table →
  (∃ k, table !! k = Some a) → P a →
  (∀ k a', table !! k = Some a' → P a' → a' = a) →
  objects_get m P table w = (Return a, w).
Proof.
  intros Hkey Hk HP Huniq. unfold objects_get.
  assert (NoDup (objects_filter P table)) as Hnd
    by (apply NoDup_filter, (NoDup_rows pk); done).
  assert (∀ x, x ∈ objects_filter P table → x = a) as Hall.
  { intros x [HPx [k' Hk']]%elem_of_objects_filter. eauto. }
  assert (a ∈ objects_filter P table) as Hin by (by apply elem_of_objects_filter).
  destruct (objects_filter P table) as [|x [|y l]]; [by apply not_elem_of_nil in Hin| |].
  - rewrite (Hall x); [done|left].
  - exfalso. apply NoDup_cons in Hnd as [Hx _]. apply Hx.
    rewrite (Hall x), (Hall y); [left|right; left|left].
Qed.

Lemma Customer_get_none (email : string) (w : World) :
  no_customer (db w) email →
  Customer_get email w = (Raise (DoesNotExist CustomerModel), w).
Proof.
  intros Hno. unfold Customer_get. unfold_monad.
  apply objects_get_none. intros k c Hk. by apply Hno in Hk.
Qed.

Lemma Customer_get_the (c : Customer) (w : World) :
  keyed customer_id (customers (db w)) →
  the_customer (db w) c →
  Customer_get (customer_email c) w = (Return c, w).
Proof.
  intros Hkey [Hc Huniq]. unfold Customer_get. unfold_monad.
  apply (objects_get_unique _ customer_id); eauto.
Qed.

Lemma Customer_get_Return (email : string) (w w' : World) (c : Customer) :
  keyed customer_id (customers (db w)) →
  Customer_get email w = (Return c, w') →
  w' = w ∧ customer_email c = email ∧ the_customer (db w) c.
Proof.
  intros Hkey. unfold Customer_get. unfold_monad.
  intros (-> & Hemail & [k Hk] & Huniq)%objects_get_Return.
  repeat split; [done| |].
  - by rewrite (Hkey k c Hk).
  - intros k' c' Hk' He. apply (Huniq k'); [done|congruence].
Qed.

Lemma Customer_get_Raise (email : string) (w w' : World) (e : Exception) :
  Customer_get email w = (Raise e, w') →
  w' = w ∧ (e = DoesNotExist CustomerModel
            ∨ e = MultipleObjectsReturned CustomerModel).
Proof. unfold Customer_get. unfold_monad. apply objects_get_Raise. Qed.

(** ** The OTP ledger *)

Lemma OTP_objects_create_Return (email code : string) (w w1 : World) (o : OTP) :
  OTP_objects_create email code None w = (Return o, w1) →
  otp_email o = email ∧ otp_otp o = code ∧ otp_is_used o = false
  ∧ otp_expires_at o = time w + timedelta_minutes 10
  ∧ otp_created_at o = time w + Z.of_N (elapse w (clock_reads w))
  ∧ otps (db w) !! otp_id o = None
  ∧ db w1 = set_otps (insert (otp_id o) o) (db w).
Proof.
  unfold OTP_objects_create, uuid4, draw. unfold_monad. simpl.
  case_decide as Hfresh; [done|]. intros [= <- <-]. simpl.
  repeat split; try done.
  destruct (otps (db w) !! _) eqn:E; [|done]. destruct Hfresh. eauto.
Qed.

Lemma VerifyEmail_invalid (F : Framework) (data : QueryDict)
    (email code : string) (w : World) (o : OTP) :
  VerifyEmailSerializer F data = inr (email, code) →
  OTP_selected (db w) email code = Some o →
  (otp_is_used o = true ∨ otp_expires_at o ≤ time w) →
  ∃ r w', VerifyEmailAPIView_post F data w = (Return r, w')
          ∧ statusCode r = HTTP_400_BAD_REQUEST ∧ success r = false
          ∧ message r = "Invalid or expired OTP" ∧ db w' = db w.
Proof.
  intros Hser Hsel Hinv. unfold VerifyEmailAPIView_post. rewrite Hser.
  unfold_monad. rewrite OTP_latest_run, Hsel, OTP_is_valid_run.
  destruct (otp_is_used o) eqn:Hused; simpl.
  - eauto 10.
  - destruct Hinv as [?|Hexp]; [done|].
    rewrite bool_decide_eq_false_2 by lia. simpl. eauto 10.
Qed.

Lemma objects_get_cases {A} (m : Model) (pk : A -> uuid) (P : A -> Prop)
    `{!∀ a, Decision (P a)} (table : gmap uuid A) (w : World) :
  keyed pk table →
  (∃ a, objects_get m P table w = (Return a, w)
        ∧ table !! pk a = Some a ∧ P a
        ∧ ∀ k a', table !! k = Some a' → P a' → a' = a)
  ∨ (objects_get m P table w = (Raise (DoesNotExist m), w)
     ∧ ∀ k a, table !! k = Some a → ¬ P a)
  ∨ objects_get m P table w = (Raise (MultipleObjectsReturned m), w).
Proof.
  intros Hkey.
  destruct (objects_get m P table w) as [[a|e] w'] eqn:E.
  - left. apply objects_get_Return in E as (-> & HP & [k Hk] & Huniq).
    exists a. rewrite (Hkey k a Hk). done.
  - right. unfold objects_get in E.
    destruct (objects_filter P table) as [|x [|y l]] eqn:El; try done.
    + left. injection E as <- <-. split; [done|].
      by apply (proj1 (objects_filter_nil P table)).
    + right. by injection E as <- <-.
Qed.

Lemma Customer_get_cases (email : string) (w : World) :
  keyed customer_id (customers (db w)) →
  (∃ c, Customer_get email w = (Return c, w)
        ∧ the_customer (db w) c ∧ customer_email c = email)
  ∨ (Customer_get email w = (Raise (DoesNotExist CustomerModel), w)
     ∧ no_customer (db w) email)
  ∨ (Customer_get email w = (Raise (MultipleObjectsReturned CustomerModel), w)
     ∧ ∀ c, the_customer (db w) c → customer_email c ≠ email).
Proof.
  intros Hkey.
  destruct (objects_get_cases CustomerModel customer_id
              (fun c => customer_email c = email) (customers (db w)) w Hkey)
    as [(c & Hrun & Hc & He & Huniq)|[[Hrun Hno]|Hrun]];
    [left|right; left|right; right].
  - exists c. split; [done|]. split; [|done]. split; [done|].
    intros k c' Hk' He'. apply (Huniq k); [done|congruence].
  - done.
  - split; [done|]. intros c Hc <-.
    pose proof (Customer_get_the c w Hkey Hc) as Hthe.
    unfold Customer_get in Hthe. unfold_monad. congruence.
Qed.

(** Verification of an email with a valid code: the row is marked used
    first; what follows depends on the customer table alone. *)
Lemma VerifyEmail_valid (F : Framework) (data : QueryDict)
    (email code : string) (w : World) (o : OTP) :
  keyed customer_id (customers (db w)) →
  VerifyEmailSerializer F data = inr (email, code) →
  OTP_selected (db w) email code = Some o →
  otp_is_used o = false → time w < otp_expires_at o →
  ∃ out w', VerifyEmailAPIView_post F data w = (out, w')
    ∧ otps (db w') = <[otp_id o := set_is_used true o]> (otps (db w))
    ∧ ((∃ c r, the_customer (db w) c ∧ customer_email c = email
          ∧ out = Return r ∧ statusCode r = HTTP_200_OK ∧ success r = true
          ∧ customers (db w')
            = <[customer_id c :=
                  set_customer_updated_at (time (tick w)) (set_is_verified true c)]>
                (customers (db w)))
       ∨ (∃ r, no_customer (db w) email
            ∧ out = Return r ∧ statusCode r = HTTP_404_NOT_FOUND
            ∧ success r = false ∧ message r = "User not found"
            ∧ customers (db w') = customers (db w))
       ∨ (out = Raise (MultipleObjectsReturned CustomerModel)
          ∧ (∀ c, the_customer (db w) c → customer_email c ≠ email)
          ∧ customers (db w') = customers (db w))).
Proof.
  intros Hkey Hser Hsel Hused Hlive.
  unfold VerifyEmailAPIView_post. rewrite Hser.
  unfold_monad. rewrite OTP_latest_run, Hsel, OTP_is_valid_run, Hused.
  rewrite bool_decide_eq_true_2 by done. simpl. unfold OTP_save. unfold_monad.
  set (w2 := set_db _ (tick w)).
  destruct (Customer_get_cases email w2 Hkey)
    as [(c & -> & Hc & He)|[[-> Hno]|[-> Hmany]]]; simpl.
  - eexists _, _. split; [done|]. split; [done|]. left.
    exists c. eexists. repeat split; try done; apply Hc.
  - eexists _, _. split; [done|]. split; [done|]. right; left.
    eexists. repeat split; done.
  - eexists _, _. split; [done|]. split; [done|]. right; right. done.
Qed.

(** C2. [is_valid()] is true exactly when the row is not used and the clock
    reads strictly less than [expires_at].  An OTP created without an
    explicit [expires_at] expires ten minutes (600 000 000 microseconds)
    after the clock reading [OTP.save] takes at its creation, which is not
    later than the [created_at] stamp.  Hence, from ten minutes after the
    issuance on, verifying the email with this row's code answers 400
    "Invalid or expired OTP" and leaves the database as it is. *)
Theorem C2_otp_valid_for_ten_minutes (F : Framework) (email code : string)
    (w w1 : World) (o : OTP) :
  OTP_objects_create email code None w = (Return o, w1) →
  (∀ (row : OTP) (now : World),
     ∃ b, (OTP_is_valid row now).1 = Return b
          ∧ (b = true ↔ otp_is_used row = false ∧ time now < otp_expires_at row))
  ∧ otp_expires_at o = time w + timedelta_minutes 10
  ∧ timedelta_minutes 10 = 600000000
  ∧ time w ≤ otp_created_at o
  ∧ otps (db w1) !! otp_id o = Some o
  ∧ otp_email o = email ∧ otp_otp o = code ∧ otp_is_used o = false
  ∧ ∀ (data : QueryDict) (w2 : World) (o2 : OTP),
      VerifyEmailSerializer F data = inr (email, code) →
      OTP_selected (db w2) email code = Some o2 →
      otp_id o2 = otp_id o → otp_expires_at o2 = otp_expires_at o →
      time w + timedelta_minutes 10 ≤ time w2 →
      ∃ r w2', VerifyEmailAPIView_post F data w2 = (Return r, w2')
               ∧ statusCode r = HTTP_400_BAD_REQUEST ∧ success r = false
               ∧ message r = "Invalid or expired OTP" ∧ db w2' = db w2.
Proof.
  intros (He & Hc & Hu & Hexp & Hcr & Hfresh & Hdb)%OTP_objects_create_Return.
  split; [|repeat split; try done].
  - intros row now. rewrite OTP_is_valid_run.
    destruct (otp_is_used row); simpl.
    + exists false. split; [done|]. split; [discriminate|]. intros [Hcontra ?]. discriminate.
    + eexists. split; [done|]. rewrite bool_decide_eq_true. tauto.
  - lia.
  - rewrite Hdb. simpl. by rewrite lookup_insert_eq.
  - intros data w2 o2 Hser Hsel _ Hsame Hlate.
    apply (VerifyEmail_invalid F data email code w2 o2); [done..|].
    right. lia.
Qed.

(** C1. For a verification request whose fields validate to [(email,
    code)]: the view selects a most recently created row that matches both;
    without a matching row it answers 400, and so it does when [is_valid()]
    of the selected row is false, the database unchanged in both cases; a
    success response means that the selected row was valid and is now marked
    used and that the customer registered under the email is now verified;
    and success is the answer whenever the selected row is valid and one
    customer is registered under the email. *)
Theorem C1_verify_email (F : Framework) (data : QueryDict)
    (email code : string) (w : World) :
  db_wf (db w) →
  VerifyEmailSerializer F data = inr (email, code) →
  ∃ out w', VerifyEmailAPIView_post F data w = (out, w')
    ∧ (OTP_selected (db w) email code = None ↔
       ∀ k o, otps (db w) !! k = Some o → ¬ OTP_matches email code o)
    ∧ (∀ o, OTP_selected (db w) email code = Some o →
            most_recent_match (db w) email code o)
    ∧ (OTP_selected (db w) email code = None →
       ∃ r, out = Return r ∧ statusCode r = HTTP_400_BAD_REQUEST
            ∧ success r = false ∧ db w' = db w)
    ∧ (∀ o, OTP_selected (db w) email code = Some o →
            (OTP_is_valid o w).1 = Return false →
            ∃ r, out = Return r ∧ statusCode r = HTTP_400_BAD_REQUEST
                 ∧ success r = false ∧ db w' = db w)
    ∧ (∀ r, out = Return r → success r = true →
            ∃ o c c', OTP_selected (db w) email code = Some o
              ∧ (OTP_is_valid o w).1 = Return true
              ∧ otps (db w') !! otp_id o = Some (set_is_used true o)
              ∧ the_customer (db w) c ∧ customer_email c = email
              ∧ customers (db w') !! customer_id c = Some c'
              ∧ customer_email c' = email ∧ is_verified c' = true)
    ∧ (∀ o c, OTP_selected (db w) email code = Some o →
              (OTP_is_valid o w).1 = Return true →
              the_customer (db w) c → customer_email c = email →
              ∃ r, out = Return r ∧ statusCode r = HTTP_200_OK
                   ∧ success r = true).
Proof.
  intros (Hcust & _ & _ & _ & _ & Hotps) Hser.
  pose proof (OTP_selected_None (db w) email code) as Hnone.
  destruct (OTP_selected (db w) email code) as [o|] eqn:Hsel.
  - pose proof (OTP_selected_Some _ _ _ _ Hotps Hsel) as Hrecent.
    destruct (decide (otp_is_used o = false ∧ time w < otp_expires_at o))
      as [[Hused Hlive]|Hinv].
    + assert ((OTP_is_valid o w).1 = Return true) as Hvalid.
      { rewrite OTP_is_valid_run, Hused. simpl.
        by rewrite bool_decide_eq_true_2. }
      destruct (VerifyEmail_valid F data email code w o Hcust Hser Hsel Hused Hlive)
        as (out & w' & Hrun & Hmark & Hcases).
      exists out, w'. split; [done|]. split; [done|].
      split; [by intros ? [= <-]|]. split; [done|].
      split; [intros ? [= <-]; congruence|].
      destruct Hcases as [(c & r & Hc & He & -> & Hst & Hok & Hset)
                         |[(r & Hno & -> & Hst & Hok & _)|(-> & Hmany & _)]].
      * split.
        -- intros ? [= <-] _. exists o, c. eexists.
           split; [done|]. split; [done|].
           split; [by rewrite Hmark, lookup_insert_eq|].
           split; [done|]. split; [done|].
           split; [by rewrite Hset, lookup_insert_eq|]. done.
        -- intros ? ? [= <-] _ _ _. eauto.
      * split; [intros ? [= <-]; congruence|].
        intros ? c [= <-] _ [Hc _] He. by destruct (Hno _ _ Hc).
      * split; [done|].
        intros ? c [= <-] _ Hc He. by destruct (Hmany c Hc).
    + assert (otp_is_used o = true ∨ otp_expires_at o ≤ time w) as Hinv'.
      { destruct (otp_is_used o); [by left|right].
        destruct (decide (time w < otp_expires_at o)); [|lia].
        destruct Hinv. done. }
      destruct (VerifyEmail_invalid F data email code w o Hser Hsel Hinv')
        as (r & w' & Hrun & Hst & Hok & _ & Hdb).
      exists (Return r), w'. split; [done|]. split; [done|].
      split; [by intros ? [= <-]|]. split; [done|].
      split; [intros ? [= <-] _; eauto|].
      split; [intros ? [= <-]; congruence|].
      intros ? c [= <-] Hvalid. exfalso.
      rewrite OTP_is_valid_run in Hvalid.
      destruct (otp_is_used o); [done|]. simpl in Hvalid.
      injection Hvalid as Hvalid%bool_decide_eq_true. destruct Hinv. done.
  - unfold VerifyEmailAPIView_post. rewrite Hser. unfold_monad.
    rewrite OTP_latest_run, Hsel. simpl.
    eexists _, _. split; [done|]. split; [done|]. split; [done|].
    split; [eauto 10|]. split; [done|]. split; [by intros ? [= <-]|]. done.
Qed.

Lemma OTP_is_valid_true (o : OTP) (w : World) :
  (OTP_is_valid o w).1 = Return true ↔
  otp_is_used o = false ∧ time w < otp_expires_at o.
Proof.
  rewrite OTP_is_valid_run. destruct (otp_is_used o); simpl.
  - split; [done|]. by intros [? ?].
  - split.
    + intros [= Hlt%bool_decide_eq_true]. done.
    + intros [_ Hlt]. by rewrite bool_decide_eq_true_2.
Qed.

Lemma OTP_is_valid_false (o : OTP) (w : World) :
  (OTP_is_valid o w).1 = Return false ↔
  otp_is_used o = true ∨ otp_expires_at o ≤ time w.
Proof.
  rewrite OTP_is_valid_run. destruct (otp_is_used o); simpl.
  - split; [by left|done].
  - split.
    + intros [= Hlt%bool_decide_eq_false]. right. lia.
    + intros [?|Hle]; [done|]. by rewrite bool_decide_eq_false_2 by lia.
Qed.

(** Password reset with a valid code: as for the verification of an email,
    the row is marked used before the customer is looked up. *)
Lemma ResetPassword_valid (F : Framework) (data : QueryDict)
    (email code new_password : string) (w : World) (o : OTP) :
  keyed customer_id (customers (db w)) →
  ResetPasswordSerializer F data = inr (email, code, new_password) →
  OTP_selected (db w) email code = Some o →
  otp_is_used o = false → time w < otp_expires_at o →
  ∃ out w', ResetPasswordAPIView_post F data w = (out, w')
    ∧ otps (db w') = <[otp_id o := set_is_used true o]> (otps (db w))
    ∧ ((∃ c r, the_customer (db w) c ∧ customer_email c = email
          ∧ out = Return r ∧ statusCode r = HTTP_200_OK ∧ success r = true
          ∧ customers (db w')
            = <[customer_id c :=
                  set_customer_updated_at (time (tick w))
                    (set_password_hash
                       (make_password F new_password (entropy w (draws w))) c)]>
                (customers (db w)))
       ∨ (∃ r, no_customer (db w) email
            ∧ out = Return r ∧ statusCode r = HTTP_404_NOT_FOUND
            ∧ success r = false ∧ message r = "User not found"
            ∧ customers (db w') = customers (db w))
       ∨ (out = Raise (MultipleObjectsReturned CustomerModel)
          ∧ (∀ c, the_customer (db w) c → customer_email c ≠ email)
          ∧ customers (db w') = customers (db w))).
Proof.
  intros Hkey Hser Hsel Hused Hlive.
  unfold ResetPasswordAPIView_post. rewrite Hser.
  unfold_monad. rewrite OTP_latest_run, Hsel, OTP_is_valid_run, Hused.
  rewrite bool_decide_eq_true_2 by done. simpl. unfold OTP_save. unfold_monad.
  set (w2 := set_db _ (tick w)).
  destruct (Customer_get_cases email w2 Hkey)
    as [(c & -> & Hc & He)|[[-> Hno]|[-> Hmany]]]; simpl.
  - eexists _, _. split; [done|]. split; [done|]. left.
    exists c. eexists. repeat split; try done; apply Hc.
  - eexists _, _. split; [done|]. split; [done|]. right; left.
    eexists. repeat split; done.
  - eexists _, _. split; [done|]. split; [done|]. right; right. done.
Qed.

Lemma set_otps_neq (d : DB) (o : OTP) :
  otps d !! otp_id o = Some o → otp_is_used o = false →
  otps d ≠ <[otp_id o := set_is_used true o]> (otps d).
Proof.
  intros Ho Hused Heq.
  assert (otps d !! otp_id o = Some (set_is_used true o)) as Ho'
    by (rewrite Heq; apply lookup_insert_eq).
  rewrite Ho in Ho'. injection Ho' as Ho'.
  rewrite Ho' in Hused. done.
Qed.

(** C10. In verify-email and in reset-password alike: when the selected
    row is valid and no customer is registered under the email, the answer
    is 404 "User not found", and in the world the request leaves behind the
    row, unused before, is stored as used; the OTP table is not what it
    was. *)
Theorem C10_otp_consumed_when_user_not_found (F : Framework)
    (data_verify data_reset : QueryDict) (email code new_password : string)
    (w : World) (o : OTP) :
  db_wf (db w) →
  VerifyEmailSerializer F data_verify = inr (email, code) →
  ResetPasswordSerializer F data_reset = inr (email, code, new_password) →
  OTP_selected (db w) email code = Some o →
  (OTP_is_valid o w).1 = Return true →
  no_customer (db w) email →
  otps (db w) !! otp_id o = Some o ∧ otp_is_used o = false
  ∧ (∃ r w', VerifyEmailAPIView_post F data_verify w = (Return r, w')
       ∧ statusCode r = HTTP_404_NOT_FOUND ∧ success r = false
       ∧ message r = "User not found"
       ∧ otps (db w') !! otp_id o = Some (set_is_used true o)
       ∧ otps (db w') ≠ otps (db w)
       ∧ customers (db w') = customers (db w))
  ∧ (∃ r w', ResetPasswordAPIView_post F data_reset w = (Return r, w')
       ∧ statusCode r = HTTP_404_NOT_FOUND ∧ success r = false
       ∧ message r = "User not found"
       ∧ otps (db w') !! otp_id o = Some (set_is_used true o)
       ∧ otps (db w') ≠ otps (db w)
       ∧ customers (db w') = customers (db w)).
Proof.
  intros (Hcust & _ & _ & _ & _ & Hotps) Hv Hr Hsel
    [Hused Hlive]%OTP_is_valid_true Hno.
  destruct (OTP_selected_Some _ _ _ _ Hotps Hsel) as (Ho & _ & _).
  split; [done|]. split; [done|]. split.
  - destruct (VerifyEmail_valid F data_verify email code w o Hcust Hv Hsel Hused Hlive)
      as (out & w' & Hrun & Hmark & Hcases).
    destruct Hcases as [(c & r & [Hc _] & He & _)
                       |[(r & _ & -> & Hst & Hok & Hmsg & Hsame)|[-> _]]].
    + by destruct (Hno _ _ Hc).
    + exists r, w'. repeat split; try done.
      * by rewrite Hmark, lookup_insert_eq.
      * rewrite Hmark. intros Heq. by apply (set_otps_neq (db w) o).
    + exfalso. unfold VerifyEmailAPIView_post in Hrun. rewrite Hv in Hrun.
      unfold_monad.
      rewrite OTP_latest_run, Hsel, OTP_is_valid_run, Hused in Hrun.
      rewrite bool_decide_eq_true_2 in Hrun by done. simpl in Hrun.
      unfold OTP_save in Hrun. unfold_monad.
      rewrite Customer_get_none in Hrun by done. done.
  - destruct (ResetPassword_valid F data_reset email code new_password w o
                Hcust Hr Hsel Hused Hlive)
      as (out & w' & Hrun & Hmark & Hcases).
    destruct Hcases as [(c & r & [Hc _] & He & _)
                       |[(r & _ & -> & Hst & Hok & Hmsg & Hsame)|[-> _]]].
    + by destruct (Hno _ _ Hc).
    + exists r, w'. repeat split; try done.
      * by rewrite Hmark, lookup_insert_eq.
      * rewrite Hmark. intros Heq. by apply (set_otps_neq (db w) o).
    + exfalso. unfold ResetPasswordAPIView_post in Hrun. rewrite Hr in Hrun.
      unfold_monad.
      rewrite OTP_latest_run, Hsel, OTP_is_valid_run, Hused in Hrun.
      rewrite bool_decide_eq_true_2 in Hrun by done. simpl in Hrun.
      unfold OTP_save in Hrun. unfold_monad.
      rewrite Customer_get_none in Hrun by done. done.
Qed.

(** C7. Checking a reset code writes nothing: whatever the outcome, the
    database after the request is the database before it.  When the check
    succeeds, the selected row is stored, unused and unexpired; and a
    reset-password request with the same email and code, on the same
    database and before the row expires, marks that very row used, and
    answers 200 with the new password hash stored when one customer is
    registered under the email. *)
Theorem C7_verify_reset_otp_does_not_consume (F : Framework)
    (data_check data_reset : QueryDict) (email code new_password : string)
    (w w1 : World) (out : Outcome Response) :
  db_wf (db w) →
  VerifyResetOTPSerializer F data_check = inr (email, code) →
  ResetPasswordSerializer F data_reset = inr (email, code, new_password) →
  VerifyResetOTPAPIView_post F data_check w = (out, w1) →
  db w1 = db w
  ∧ ∀ r, out = Return r → success r = true →
      ∃ o, OTP_selected (db w) email code = Some o
        ∧ otps (db w1) !! otp_id o = Some o
        ∧ otp_is_used o = false ∧ time w < otp_expires_at o
        ∧ ∀ w2, db w2 = db w1 → time w2 < otp_expires_at o →
            ∃ out2 w3, ResetPasswordAPIView_post F data_reset w2 = (out2, w3)
              ∧ otps (db w3) !! otp_id o = Some (set_is_used true o)
              ∧ ∀ c, the_customer (db w2) c → customer_email c = email →
                  ∃ r2 c', out2 = Return r2 ∧ statusCode r2 = HTTP_200_OK
                    ∧ success r2 = true
                    ∧ customers (db w3) !! customer_id c = Some c'
                    ∧ password c'
                      = make_password F new_password (entropy w2 (draws w2)).
Proof.
  intros (Hcust & _ & _ & _ & _ & Hotps) Hcheck Hreset.
  unfold VerifyResetOTPAPIView_post. rewrite Hcheck. unfold_monad.
  rewrite OTP_latest_run.
  destruct (OTP_selected (db w) email code) as [o|] eqn:Hsel; simpl.
  - rewrite OTP_is_valid_run. destruct (otp_is_used o) eqn:Hused; simpl.
    { intros [= <- <-]. split; [done|]. by intros ? [= <-]. }
    case_bool_decide as Hlive; simpl; intros [= <- <-]; (split; [done|]);
      [|by intros ? [= <-]].
    intros ? _ _. exists o.
    destruct (OTP_selected_Some _ _ _ _ Hotps Hsel) as (Ho & _ & _).
    split; [done|]. split; [done|]. split; [done|]. split; [done|].
    intros w2 Hdb Hlive2. simpl in Hdb.
    rewrite <- Hdb in Hcust, Hsel.
    destruct (ResetPassword_valid F data_reset email code new_password w2 o
                Hcust Hreset Hsel Hused Hlive2)
      as (out2 & w3 & Hrun & Hmark & Hcases).
    exists out2, w3. split; [done|].
    split; [by rewrite Hmark, lookup_insert_eq|].
    intros c Hc He.
    destruct Hcases as [(c0 & r2 & Hc0 & He0 & -> & Hst & Hok & Hset)
                       |[(r2 & Hno & _)|(_ & Hmany & _)]].
    + assert (c0 = c) as ->.
      { destruct Hc as [Hc _]. destruct Hc0 as [_ Huniq].
        symmetry. apply (Huniq _ c Hc). congruence. }
      exists r2. eexists. split; [done|]. split; [done|]. split; [done|].
      split; [by rewrite Hset, lookup_insert_eq|]. done.
    + destruct Hc as [Hc _]. by destruct (Hno _ _ Hc).
    + by destruct (Hmany c Hc).
  - intros [= <- <-]. split; [done|]. by intros ? [= <-].
Qed.

(** C8, as the code has it.  A failing OTP check answers 400 with
    [success = false] and empty [data] in both branches, in verify-email,
    verify-reset-otp and reset-password alike; the message is "Invalid OTP"
    when no row matches and "Invalid or expired OTP" when the selected row is
    used or expired, the same for both causes. *)
Theorem C8_otp_failure_messages (F : Framework)
    (data_verify data_reset : QueryDict) (email code new_password : string) (w : World) :
  VerifyEmailSerializer F data_verify = inr (email, code) →
  ResetPasswordSerializer F data_reset = inr (email, code, new_password) →
  let failure (msg : string) (view : M Response) :=
    ∃ r w', view w = (Return r, w')
      ∧ statusCode r = HTTP_400_BAD_REQUEST ∧ success r = false
      ∧ data r = DEmpty ∧ message r = msg ∧ db w' = db w in
  (OTP_selected (db w) email code = None →
     failure "Invalid OTP" (VerifyEmailAPIView_post F data_verify)
     ∧ failure "Invalid OTP" (VerifyResetOTPAPIView_post F data_verify)
     ∧ failure "Invalid OTP" (ResetPasswordAPIView_post F data_reset))
  ∧ (∀ o, OTP_selected (db w) email code = Some o →
       (OTP_is_valid o w).1 = Return false →
       failure "Invalid or expired OTP" (VerifyEmailAPIView_post F data_verify)
       ∧ failure "Invalid or expired OTP" (VerifyResetOTPAPIView_post F data_verify)
       ∧ failure "Invalid or expired OTP" (ResetPasswordAPIView_post F data_reset)).
Proof.
  intros Hser Hreset failure. subst failure. simpl. split.
  - intros Hsel.
    unfold VerifyEmailAPIView_post, VerifyResetOTPAPIView_post,
      VerifyResetOTPSerializer, ResetPasswordAPIView_post.
    rewrite Hser, Hreset. unfold_monad. rewrite !OTP_latest_run, Hsel. simpl.
    repeat split; eexists _, _; repeat split; done.
  - intros o Hsel Hinv%OTP_is_valid_false.
    unfold VerifyEmailAPIView_post, VerifyResetOTPAPIView_post,
      VerifyResetOTPSerializer, ResetPasswordAPIView_post.
    rewrite Hser, Hreset. unfold_monad.
    rewrite !OTP_latest_run, Hsel, !OTP_is_valid_run.
    destruct (otp_is_used o); simpl.
    + repeat split; eexists _, _; repeat split; done.
    + destruct Hinv as [?|Hexp]; [done|].
      rewrite bool_decide_eq_false_2 by lia. simpl.
      repeat split; eexists _, _; repeat split; done.
Qed.

(** ** Frame rules *)

Section Frame.

Context (R : relation World) `{!PreOrder R}.

Lemma preserves_ret {A} (a : A) : preserves R (mret a).
Proof. intros w out w' [= <- <-]. reflexivity. Qed.

Lemma preserves_raise {A} (e : Exception) : preserves R (raise (A:=A) e).
Proof. intros w out w' [= <- <-]. reflexivity. Qed.

Lemma preserves_bind {A B} (c : M A) (k : A -> M B) :
  preserves R c → (∀ a, preserves R (k a)) → preserves R (c ≫= k).
Proof.
  intros Hc Hk w out w'. unfold_monad.
  destruct (c w) as [[a|e] w1] eqn:E.
  - intros Hrun. etransitivity; [by eapply Hc|by eapply Hk].
  - intros [= <- <-]. by eapply Hc.
Qed.

Lemma preserves_try_except {A} (c : M A) (h : Exception -> option (M A)) :
  preserves R c → (∀ e k, h e = Some k → preserves R k) →
  preserves R (try_except c h).
Proof.
  intros Hc Hh w out w'. unfold try_except.
  destruct (c w) as [[a|e] w1] eqn:E.
  - intros [= <- <-]. by eapply Hc.
  - destruct (h e) as [k|] eqn:Ek.
    + intros Hrun. etransitivity; [by eapply Hc|by eapply Hh].
    + intros [= <- <-]. by eapply Hc.
Qed.

Lemma preserves_get_db : preserves R get_db.
Proof. intros w out w' [= <- <-]. reflexivity. Qed.

Lemma preserves_for_each {A} (body : A -> M unit) (xs : list A) :
  (∀ x, preserves R (body x)) → preserves R (for_each body xs).
Proof.
  intros Hbody. induction xs as [|x xs IH]; simpl.
  - apply preserves_ret.
  - apply preserves_bind; [apply Hbody|]. intros _. apply IH.
Qed.

End Frame.

Lemma preserves_random_choices (R : relation World) `{!PreOrder R}
    (population : list ascii) (k : nat) :
  preserves R draw → preserves R (random_choices population k).
Proof.
  intros Hdraw. induction k as [|k IH]; simpl.
  - by apply preserves_ret.
  - apply preserves_bind; [done..|]. intros n.
    apply preserves_bind; [done..|]. intros rest. by apply preserves_ret.
Qed.

Lemma preserves_TradeDocument_create_all (R : relation World) `{!PreOrder R}
    (trade_info : TradeInformation) (files : list UploadedFile) :
  (∀ file, preserves R (TradeDocument_create trade_info file)) →
  preserves R (TradeDocument_create_all trade_info files).
Proof.
  intros Hone. induction files as [|file files IH]; simpl.
  - by apply preserves_ret.
  - apply preserves_bind; [done..|]. intros doc.
    apply preserves_bind; [done..|]. intros docs. by apply preserves_ret.
Qed.

#[local] Instance same_preorder {T} (X : World -> T) : PreOrder (same X).
Proof.
  split.
  - by intros w.
  - intros w1 w2 w3 H12 H23. unfold same in *. congruence.
Qed.

Ltac head_of c :=
  lazymatch c with
  | ?f _ => head_of f
  | _ => c
  end.

(** One step of a frame proof: a rule of the monad, a primitive (whose
    effect on the world [side] must relate), a case distinction on what the
    program inspects, or the body of the function at the head. *)
Ltac frame_step side :=
  lazymatch goal with
  | |- preserves _ (mret _) => apply preserves_ret; apply _
  | |- preserves _ (ret _) => apply preserves_ret; apply _
  | |- preserves _ (raise _) => apply preserves_raise; apply _
  | |- preserves _ (_ ≫= _) => apply preserves_bind; [apply _| |intros ?]
  | |- preserves _ (try_except _ _) =>
      apply preserves_try_except;
      [apply _| |
       let e := fresh "e" in let k := fresh "k" in let He := fresh "He" in
       intros e k He;
       repeat (match type of He with
               | context [match ?x with _ => _ end] => destruct x
               end);
       simplify_eq He; try (intros <-)]
  | |- preserves _ get_db => apply preserves_get_db; apply _
  | |- preserves _ timezone_now => intros ? ? ? [= <- <-]; side
  | |- preserves _ draw => intros ? ? ? [= <- <-]; side
  | |- preserves _ (print _) => intros ? ? ? [= <- <-]; side
  | |- preserves _ (is_blacklisted _) => intros ? ? ? [= <- <-]; side
  | |- preserves _ (RefreshToken_blacklist _) => intros ? ? ? [= <- <-]; side
  | |- preserves _ (OutstandingToken_create _) =>
      let w := fresh "w" in
      intros w ? ?; unfold OutstandingToken_create;
      destruct (decide (_ ∈ outstanding w)); intros [= <- <-]; side
  | |- preserves _ (modify_db _) => intros ? ? ? [= <- <-]; side
  | |- preserves _ (send_mail _ _ _ _) =>
      let w := fresh "w" in
      intros w ? ?; unfold send_mail; destruct (smtp_ok w _);
      intros [= <- <-]; side
  | |- preserves _ (random_choices _ _) =>
      apply preserves_random_choices; [apply _|]
  | |- preserves _ (TradeDocument_create_all _ _) =>
      apply preserves_TradeDocument_create_all; [apply _|intros ?]
  | |- preserves _ (for_each _ _) => apply preserves_for_each; [apply _|intros ?]
  | |- preserves _ (match ?x with _ => _ end) => destruct x
  | |- preserves _ ?c => let h := head_of c in unfold h
  end.

Ltac frame side := repeat frame_step side.

Lemma Billing_same_otps (F : Framework) (data : QueryDict) :
  preserves (same (fun w => otps (db w))) (BillingAddressRegisterAPIView_post F data).
Proof. frame ltac:(done). Qed.

Lemma Register_same_otps (F : Framework) (data : QueryDict) :
  preserves (same (fun w => otps (db w))) (RegisterAPIView_post F data).
Proof. frame ltac:(done). Qed.

(** ** Inversion of runs *)

Lemma bind_inv {A B} (c : M A) (k : A -> M B) (w w' : World) (out : Outcome B) :
  (c ≫= k) w = (out, w') →
  (∃ a w1, c w = (Return a, w1) ∧ k a w1 = (out, w'))
  ∨ (∃ e, c w = (Raise e, w') ∧ out = Raise e).
Proof.
  unfold_monad. destruct (c w) as [[a|e] w1].
  - intros Hk. left. eauto.
  - intros [= <- <-]. right. eauto.
Qed.

Lemma CustomResponse_error_run (msg : string) (errors : option Errors)
    (status : nat) (w w' : World) (out : Outcome Response) :
  CustomResponse_error msg errors status w = (out, w') →
  w' = tick w
  ∧ ∃ r, out = Return r ∧ success r = false ∧ statusCode r = status
         ∧ message r = msg.
Proof. intros [= <- <-]. split; [done|]. eexists. repeat split. Qed.

Lemma CustomResponse_success_run (d : option Data) (msg : string)
    (status : nat) (w w' : World) (out : Outcome Response) :
  CustomResponse_success d msg status w = (out, w') →
  w' = tick w
  ∧ ∃ r, out = Return r ∧ success r = true ∧ statusCode r = status
         ∧ message r = msg ∧ data r = default DEmpty d.
Proof. intros [= <- <-]. split; [done|]. eexists. repeat split. Qed.

Lemma customer_of_request_inv (data : QueryDict) (w w1 : World)
    (out : Outcome (Response + Customer)) :
  customer_of_request data w = (out, w1) →
  db w1 = db w ∧ mail_log w1 = mail_log w
  ∧ match out with
    | Return (inr c) => w1 = w ∧ request_customer (db w) data c
    | Return (inl r) => success r = false
    | Raise e => True
    end.
Proof.
  unfold customer_of_request.
  destruct (data !! "email") as [[email|]|] eqn:Hemail;
    [|by intros [= <- <-]..].
  case_bool_decide as Hblank; [by intros [= <- <-]|].
  unfold try_except.
  intros Hrun.
  destruct ((Customer_get email ≫= _) w) as [[found|e] w2] eqn:E.
  - apply bind_inv in E as [(c & w3 & Hget & [= <- <-])|(e & _ & [=])].
    unfold Customer_get in Hget. unfold_monad.
    apply objects_get_Return in Hget as (-> & He & Hk & Huniq).
    injection Hrun as <- <-. repeat split; try done; subst email; done.
  - apply bind_inv in E as [(c & w3 & Hget & [=])|(e' & Hget & [= <-])].
    apply Customer_get_Raise in Hget as [-> [->| ->]].
    + by injection Hrun as <- <-.
    + by injection Hrun as <- <-.
Qed.

Lemma random_choices_run (population : list ascii) (k : nat) (w : World) :
  ∃ cs w1, random_choices population k w = (Return cs, w1)
    ∧ db w1 = db w ∧ mail_log w1 = mail_log w ∧ time w1 = time w
    ∧ clock_reads w1 = clock_reads w ∧ elapse w1 = elapse w
    ∧ smtp_ok w1 = smtp_ok w.
Proof.
  revert w. induction k as [|k IH]; intros w; simpl.
  - by eexists _, _.
  - unfold_monad. unfold draw.
    match goal with
    | |- context [random_choices population k ?w0] =>
        destruct (IH w0) as (cs & w1 & -> & ? & ? & ? & ? & ? & ?)
    end.
    by eexists _, _.
Qed.

Lemma OTP_generate_otp_run (w : World) :
  ∃ code w1, OTP_generate_otp w = (Return code, w1)
    ∧ db w1 = db w ∧ mail_log w1 = mail_log w ∧ time w1 = time w
    ∧ clock_reads w1 = clock_reads w ∧ elapse w1 = elapse w
    ∧ smtp_ok w1 = smtp_ok w.
Proof.
  unfold OTP_generate_otp. unfold_monad.
  destruct (random_choices_run string_digits 8 w)
    as (cs & w1 & -> & ? & ? & ? & ? & ? & ?).
  by eexists _, _.
Qed.

Lemma OTP_objects_create_inv (email code : string) (w w1 : World)
    (out : Outcome OTP) :
  OTP_objects_create email code None w = (out, w1) →
  mail_log w1 = mail_log w ∧ smtp_ok w1 = smtp_ok w
  ∧ match out with
    | Return o =>
        otp_email o = email ∧ otp_otp o = code ∧ otp_is_used o = false
        ∧ otp_expires_at o = time w + timedelta_minutes 10
        ∧ otps (db w) !! otp_id o = None
        ∧ db w1 = set_otps (insert (otp_id o) o) (db w)
    | Raise e => db w1 = db w
    end.
Proof.
  destruct out as [o|e].
  - intros Hrun.
    pose proof (OTP_objects_create_Return _ _ _ _ _ Hrun)
      as (? & ? & ? & ? & ? & ? & ?).
    assert (mail_log w1 = mail_log w ∧ smtp_ok w1 = smtp_ok w) as [? ?]; [|done].
    revert Hrun.
    unfold OTP_objects_create, uuid4, draw. unfold_monad. simpl.
    case_decide; [done|]. by intros [= <- <-].
  - unfold OTP_objects_create, uuid4, draw. unfold_monad. simpl.
    case_decide; [|done]. by intros [= <- <-].
Qed.

Lemma send_email_helper_run (F : Framework) (subject message email : string)
    (w : World) :
  ∃ w1 ok, send_email_helper F subject message email w = (Return tt, w1)
    ∧ db w1 = db w
    ∧ mail_log w1
      = ({| mail_subject := subject; mail_message := message;
            mail_from := DEFAULT_FROM_EMAIL F;
            mail_recipient_list := [email] |}, ok) :: mail_log w.
Proof.
  unfold send_email_helper, try_except, send_mail.
  destruct (smtp_ok w _); by eexists _, _.
Qed.

(** Minting a code and mailing it, as the delivery, trade, resend and
    forgot-password views do: either the insertion of the row fails and
    nothing has changed, or one row is new, one call of [send_mail] is
    logged, and the rest of the view runs. *)
Lemma mint_inv {A} (F : Framework) (subject email : string)
    (body : string -> string) (k : M A) (w w' : World) (out : Outcome A) :
  (otp_code ← OTP_generate_otp;
   OTP_objects_create email otp_code None;;
   send_email_helper F subject (body otp_code) email;;
   k) w = (out, w') →
  (out = Raise (IntegrityError OTPModel) ∧ db w' = db w
   ∧ mail_log w' = mail_log w)
  ∨ (∃ o w1 ok,
       otps (db w) !! otp_id o = None
       ∧ db w1 = set_otps (insert (otp_id o) o) (db w)
       ∧ otp_email o = email ∧ otp_is_used o = false
       ∧ mail_log w1
         = ({| mail_subject := subject; mail_message := body (otp_otp o);
               mail_from := DEFAULT_FROM_EMAIL F;
               mail_recipient_list := [email] |}, ok) :: mail_log w
       ∧ k w1 = (out, w')).
Proof.
  intros Hrun.
  destruct (OTP_generate_otp_run w) as (code & w1 & Hgen & Hdb1 & Hml1 & _).
  apply bind_inv in Hrun as [(code' & w1' & Hgen' & Hrun)|(e & Hgen' & _)];
    [|congruence].
  rewrite Hgen in Hgen'. injection Hgen' as <- <-.
  apply bind_inv in Hrun as [(o & w2 & Hcreate & Hrun)|(e & Hcreate & ->)].
  - apply OTP_objects_create_inv in Hcreate
      as (Hml2 & _ & He & Hc & Hu & _ & Hfresh & Hdb2).
    destruct (send_email_helper_run F subject (body code) email w2)
      as (w3 & ok & Hsend & Hdb3 & Hml3).
    apply bind_inv in Hrun as [([] & w3' & Hsend' & Hrun)|(e & Hsend' & _)];
      [|congruence].
    rewrite Hsend in Hsend'. injection Hsend' as <-.
    right. exists o, w3, ok. rewrite Hdb1 in Hfresh.
    rewrite Hdb3, Hdb2, Hml3, Hml2, Hml1, Hdb1, Hc.
    repeat split; first [assumption|reflexivity].
  - left. pose proof Hcreate as Hinv.
    apply OTP_objects_create_inv in Hinv as (Hml2 & _ & Hdb2).
    clear Hgen.
    unfold OTP_objects_create, uuid4, draw in Hcreate. unfold_monad.
    simpl in Hcreate. case_decide; [|discriminate Hcreate].
    injection Hcreate as <- <-.
    repeat split; [exact Hdb1|exact Hml1].
Qed.

(** ** The registration steps and the OTP they mint *)

Lemma Address_create_frame (m : Model) (table : DB -> gmap uuid Address)
    (set_table : (gmap uuid Address -> gmap uuid Address) -> DB -> DB)
    (user : Customer) (attrs : AddressAttrs) :
  (∀ f d, otps (set_table f d) = otps d) →
  (∀ f d, customers (set_table f d) = customers d) →
  preserves (same (fun w => (otps (db w), customers (db w), mail_log w)))
    (Address_create m table set_table user attrs).
Proof.
  intros Hotps Hcust. frame ltac:(try done).
  unfold same. simpl. by rewrite Hotps, Hcust.
Qed.

Lemma Delivery_cases (F : Framework) (data : QueryDict) (w w' : World)
    (out : Outcome Response) :
  DeliveryAddressRegisterAPIView_post F data w = (out, w') →
  (otps (db w') = otps (db w) ∧ mail_log w' = mail_log w
   ∧ ∀ r, out = Return r → success r = true →
       ∃ c, request_customer (db w) data c ∧ customer_type c = Trade)
  ∨ (∃ c o r, request_customer (db w) data c ∧ customer_type c = Retail
       ∧ minted_and_mailed w w' (customer_email c) o
       ∧ out = Return r ∧ success r = true ∧ statusCode r = HTTP_201_CREATED).
Proof.
  unfold DeliveryAddressRegisterAPIView_post. intros Hrun.
  apply bind_inv in Hrun as [(found & w1 & Hfound & Hrun)|(e & Hfound & ->)].
  2: { apply customer_of_request_inv in Hfound as (Hdb & Hml & _).
       left. by rewrite Hdb. }
  apply customer_of_request_inv in Hfound as (Hdb & Hml & Hfound).
  destruct found as [response|c].
  { injection Hrun as <- <-. left. rewrite Hdb.
    split; [done|]. split; [done|]. intros ? [= <-]. congruence. }
  destruct Hfound as [-> Hc].
  destruct (AddressSerializer F false data) as [errors|attrs].
  { apply CustomResponse_error_run in Hrun as (-> & r & -> & Hfail & _).
    left. split; [done|]. split; [done|]. intros ? [= <-]. congruence. }
  apply bind_inv in Hrun as [(a & w2 & Hcreate & Hrun)|(e & Hcreate & ->)].
  2: { apply Address_create_frame in Hcreate; [|done..].
       injection Hcreate as Ho _ Hm. left. done. }
  apply Address_create_frame in Hcreate; [|done..].
  injection Hcreate as Ho Hcust Hm.
  apply bind_inv in Hrun as [(msg & w3 & Hmsg & Hrun)|(e & Hmsg & ->)].
  - apply CustomResponse_success_run in Hrun as (-> & r & -> & Hok & Hst & _).
    destruct (decide (customer_type c = Trade)) as [Htrade|Hretail].
    + injection Hmsg as <- <-. left. split; [done|]. split; [done|]. eauto.
    + unfold Delivery_send_verification_email in Hmsg.
      apply (mint_inv F _ _ (fun otp => _ +:+ otp +:+ _)) in Hmsg
        as [(? & _)|(o & w4 & ok & Hfresh & Hdb4 & He & Hu & Hml4 & Hk)];
        [done|].
      injection Hk as <- <-. right. exists c, o, r.
      split; [done|]. split; [by destruct (customer_type c)|].
      split; [|done]. unfold minted_and_mailed. simpl.
      rewrite Hdb4, Hml4, <- Ho, Hm. simpl.
      split; [done|]. split; [done|]. split; [done|]. split; [done|].
      eexists _, _. split; [done|]. split; [done|]. by eexists.
  - destruct (decide (customer_type c = Trade)) as [Htrade|Hretail]; [done|].
    unfold Delivery_send_verification_email in Hmsg.
    apply (mint_inv F _ _ (fun otp => _ +:+ otp +:+ _)) in Hmsg
      as [(_ & Hdb4 & Hml4)|(o & w4 & ok & _ & _ & _ & _ & _ & Hk)]; [|done].
    left. rewrite Hdb4, Hml4. done.
Qed.

Lemma hasattr_trade_information_frame (c : Customer) :
  preserves (same (fun w => (db w, mail_log w))) (hasattr_trade_information c).
Proof. frame ltac:(done). Qed.

Lemma TradeInformationSerializer_create_frame (user : Customer)
    (attrs : TradeAttrs) :
  preserves (same (fun w => (otps (db w), customers (db w), mail_log w)))
    (TradeInformationSerializer_create user attrs).
Proof. frame ltac:(done). Qed.

Lemma Trade_cases (F : Framework) (data : QueryDict)
    (documents : option (list UploadedFile)) (w w' : World)
    (out : Outcome Response) :
  TradeInformationRegisterAPIView_post F data documents w = (out, w') →
  (otps (db w') = otps (db w) ∧ mail_log w' = mail_log w
   ∧ ∀ r, out = Return r → success r = false)
  ∨ (∃ c o r, request_customer (db w) data c ∧ customer_type c = Trade
       ∧ minted_and_mailed w w' (customer_email c) o
       ∧ out = Return r ∧ success r = true ∧ statusCode r = HTTP_201_CREATED).
Proof.
  unfold TradeInformationRegisterAPIView_post. intros Hrun.
  apply bind_inv in Hrun as [(found & w1 & Hfound & Hrun)|(e & Hfound & ->)].
  2: { apply customer_of_request_inv in Hfound as (Hdb & Hml & _).
       left. by rewrite Hdb. }
  apply customer_of_request_inv in Hfound as (Hdb & Hml & Hfound).
  destruct found as [response|c].
  { injection Hrun as <- <-. left. rewrite Hdb.
    split; [done|]. split; [done|]. by intros ? [= <-]. }
  destruct Hfound as [-> Hc].
  destruct (decide (customer_type c ≠ Trade)) as [Hretail|Htrade].
  { apply CustomResponse_error_run in Hrun as (-> & r & -> & Hfail & _).
    left. split; [done|]. split; [done|]. by intros ? [= <-]. }
  apply bind_inv in Hrun as [(has & w2 & Hhas & Hrun)|(e & Hhas & ->)].
  2: { apply hasattr_trade_information_frame in Hhas.
       injection Hhas as Hd Hm. left. by rewrite Hd. }
  apply hasattr_trade_information_frame in Hhas. injection Hhas as Hd Hm.
  destruct has.
  { apply CustomResponse_error_run in Hrun as (-> & r & -> & Hfail & _).
    left. simpl. rewrite Hd. split; [done|]. split; [done|]. by intros ? [= <-]. }
  destruct (TradeInformationSerializer F false data documents) as [errors|attrs].
  { apply CustomResponse_error_run in Hrun as (-> & r & -> & Hfail & _).
    left. simpl. rewrite Hd. split; [done|]. split; [done|]. by intros ? [= <-]. }
  apply bind_inv in Hrun as [([t docs] & w3 & Hcreate & Hrun)|(e & Hcreate & ->)].
  2: { apply TradeInformationSerializer_create_frame in Hcreate.
       injection Hcreate as Ho _ Hm3. left. rewrite Ho, Hm3, Hd. done. }
  apply TradeInformationSerializer_create_frame in Hcreate.
  injection Hcreate as Ho Hcust Hm3.
  unfold Trade_send_verification_email in Hrun.
  apply (mint_inv F _ _ (fun otp => _ +:+ otp +:+ _)) in Hrun
    as [(-> & Hdb4 & Hml4)|(o & w4 & ok & Hfresh & Hdb4 & He & Hu & Hml4 & Hk)].
  { left. rewrite Hdb4, Hml4, Ho, Hm3, Hd. done. }
  apply CustomResponse_success_run in Hk as (-> & r & -> & Hok & Hst & _).
  right. exists c, o, r. split; [done|].
  split; [by destruct (decide (customer_type c = Trade)) as [|Hn]; [|destruct Htrade]|].
  split; [|done]. unfold minted_and_mailed. simpl.
  rewrite Hd in Ho. rewrite Ho in Hfresh. rewrite Hm in Hm3.
  rewrite Hdb4, Hml4, Hm3. simpl. rewrite Ho.
  split; [done|]. split; [done|]. split; [done|]. split; [done|].
  eexists _, _. split; [done|]. split; [done|]. by eexists.
Qed.


Lemma customer_of_request_found (data : QueryDict) (c : Customer) (w : World) :
  keyed customer_id (customers (db w)) →
  request_customer (db w) data c →
  customer_of_request data w = (Return (inr c), w).
Proof.
  intros Hkey (He & Hblank & [k Hk] & Huniq).
  unfold customer_of_request. rewrite He.
  rewrite bool_decide_eq_false_2 by done.
  unfold try_except. unfold_monad.
  rewrite (Customer_get_the c w Hkey); [done|].
  split; [|done]. by rewrite (Hkey k c Hk).
Qed.

Lemma hasattr_trade_information_true (c : Customer) (t : TradeInformation)
    (w : World) :
  keyed trade_id (trade_information (db w)) →
  trade_information (db w) !! trade_id t = Some t →
  trade_user t = customer_id c →
  (∀ k t', trade_information (db w) !! k = Some t' →
           trade_user t' = customer_id c → t' = t) →
  hasattr_trade_information c w = (Return true, w).
Proof.
  intros Hkey Ht Hu Huniq.
  unfold hasattr_trade_information, try_except, Customer_trade_information.
  unfold_monad.
  rewrite (objects_get_unique TradeInformationModel trade_id _ _ w t); eauto.
Qed.

(** C4, as the code has it.  For an add-trade-information request that
    names a registered customer: when the customer is not Trade the answer
    is 403; when the customer is Trade and already has a trade-information
    row the answer is 400, with the message that trade information already
    exists; in both cases the database is left as it was, so the existing
    row is not overwritten. *)
Theorem C4_trade_information_guards (F : Framework) (data : QueryDict)
    (documents : option (list UploadedFile)) (c : Customer) (w : World) :
  db_wf (db w) →
  request_customer (db w) data c →
  (customer_type c ≠ Trade →
   ∃ r w', TradeInformationRegisterAPIView_post F data documents w = (Return r, w')
     ∧ statusCode r = HTTP_403_FORBIDDEN ∧ success r = false
     ∧ message r = "Only Trade customers can submit trade information"
     ∧ db w' = db w)
  ∧ (customer_type c = Trade →
     ∀ t, trade_information (db w) !! trade_id t = Some t →
          trade_user t = customer_id c →
          (∀ k t', trade_information (db w) !! k = Some t' →
                   trade_user t' = customer_id c → t' = t) →
     ∃ r w', TradeInformationRegisterAPIView_post F data documents w = (Return r, w')
       ∧ statusCode r = HTTP_400_BAD_REQUEST ∧ success r = false
       ∧ message r = "Trade information already exists for this customer"
       ∧ db w' = db w
       ∧ trade_information (db w') !! trade_id t = Some t).
Proof.
  intros (Hcust & _ & _ & Htrade & _) Hc.
  unfold TradeInformationRegisterAPIView_post. unfold_monad.
  rewrite (customer_of_request_found data c w Hcust Hc).
  split.
  - intros Hretail. rewrite decide_True by done. by eexists _, _.
  - intros Ht t Hrow Huser Huniq. rewrite decide_False by (by intros []).
    rewrite (hasattr_trade_information_true c t w Htrade Hrow Huser Huniq).
    by eexists _, _.
Qed.

Lemma objects_get_filter {A} (m : Model) (P : A -> Prop)
    `{!∀ a, Decision (P a)} (table : gmap uuid A) (w w' : World) (a : A) :
  objects_get m P table w = (Return a, w') → objects_filter P table = [a].
Proof.
  unfold objects_get. destruct (objects_filter P table) as [|x [|y l]];
    [done| |done]. by intros [= -> _].
Qed.

Lemma ModelBackend_none (check : string -> string -> bool) (d : DB)
    (email raw : string) :
  no_customer d email →
  ModelBackend_authenticate check (customers d) email raw = None.
Proof.
  intros Hno. unfold ModelBackend_authenticate.
  by rewrite (proj2 (objects_filter_nil
                       (fun c => customer_email c = email) (customers d)) Hno).
Qed.

Lemma ModelBackend_the (check : string -> string -> bool) (d : DB)
    (c : Customer) (raw : string) (w : World) :
  keyed customer_id (customers d) → the_customer d c →
  ModelBackend_authenticate check (customers d) (customer_email c) raw
  = if check raw (password c) && is_active c then Some c else None.
Proof.
  intros Hkey [Hc Huniq]. unfold ModelBackend_authenticate.
  rewrite (objects_get_filter CustomerModel
             (fun c0 => customer_email c0 = customer_email c) (customers d)
             w w c); [done|].
  apply (objects_get_unique CustomerModel customer_id); [done|eauto|done|].
  intros k c' Hk He. by apply (Huniq k).
Qed.

Lemma ModelBackend_Some (check : string -> string -> bool) (d : DB)
    (email raw : string) (user : Customer) :
  ModelBackend_authenticate check (customers d) email raw = Some user →
  (∃ k, customers d !! k = Some user) ∧ customer_email user = email
  ∧ check raw (password user) = true ∧ is_active user = true.
Proof.
  unfold ModelBackend_authenticate.
  destruct (objects_filter (fun c => customer_email c = email) (customers d))
    as [|c [|c' l]] eqn:Hfilter; [done| |done].
  destruct (check raw (password c)) eqn:Hcheck; [|done].
  destruct (is_active c) eqn:Hactive; [|done].
  intros [= <-].
  assert (c ∈ objects_filter (fun c => customer_email c = email) (customers d))
    as Hin by (rewrite Hfilter; left).
  apply elem_of_objects_filter in Hin as [He Hk]. done.
Qed.

(** C5. [LoginAPIView.post] behind the authentication backend of a Django
    project that configures none, for a login request whose fields validate
    to [email] and a password, in a world whose customer table is keyed by
    primary key.
    - When no customer has the email, or the password does not check
      against the hash of the customer who has it, or that customer is not
      active, the answer is 401 "Invalid credentials", whatever the
      verified flag is.  The backend returns nothing for a customer who is
      not active, so a verified customer who is not active gets this 401.
    - When the password checks and the customer is active and not
      verified, the answer is 403 "Email not verified. Please verify your
      email first.".
    - When the password checks and the customer is active and verified,
      and the identifier drawn for the token is not outstanding, the answer
      is 200 with the tokens.
    - However the request ends, the answer is never "Account is
      deactivated": that branch of the view is not reached.  Tokens are in
      the answer only for a stored customer with this email whose password
      checked and who is verified and active. *)
Theorem C5_login (F : Framework) (request : QueryDict)
    (email raw_password : string) (remember_me : bool) (w : World) :
  default_backend F →
  keyed customer_id (customers (db w)) →
  LoginSerializer F request = inr (email, raw_password, remember_me) →
  ((no_customer (db w) email
    ∨ ∃ c, the_customer (db w) c ∧ customer_email c = email
           ∧ (check_password F raw_password (password c) = false
              ∨ is_active c = false)) →
   ∃ r w', LoginAPIView_post F request w = (Return r, w')
     ∧ statusCode r = HTTP_401_UNAUTHORIZED ∧ success r = false
     ∧ message r = "Invalid credentials" ∧ data r = DEmpty)
  ∧ (∀ c, the_customer (db w) c → customer_email c = email →
          check_password F raw_password (password c) = true →
          is_active c = true → is_verified c = false →
          ∃ r w', LoginAPIView_post F request w = (Return r, w')
            ∧ statusCode r = HTTP_403_FORBIDDEN ∧ success r = false
            ∧ message r = "Email not verified. Please verify your email first."
            ∧ data r = DEmpty)
  ∧ (∀ c, the_customer (db w) c → customer_email c = email →
          check_password F raw_password (password c) = true →
          is_active c = true → is_verified c = true →
          entropy w (draws w) ∉ outstanding w →
          ∃ r w', LoginAPIView_post F request w = (Return r, w')
            ∧ statusCode r = HTTP_200_OK ∧ success r = true
            ∧ ∃ access refresh, data r = DLogin access refresh c)
  ∧ (∀ out w', LoginAPIView_post F request w = (out, w') →
       ∀ r, out = Return r →
         message r ≠ "Account is deactivated"
         ∧ ∀ access refresh user, data r = DLogin access refresh user →
             (∃ k, customers (db w) !! k = Some user)
             ∧ customer_email user = email
             ∧ check_password F raw_password (password user) = true
             ∧ is_verified user = true ∧ is_active user = true).
Proof.
  intros Hbackend Hkey Hser. unfold LoginAPIView_post. rewrite Hser.
  unfold_monad. rewrite Hbackend. split_and!.
  - intros [Hno|(c & Hc & <- & Hbad)].
    + rewrite (ModelBackend_none _ _ _ _ Hno).
      eexists _, _. split; [reflexivity|]. split_and!; reflexivity.
    + rewrite (ModelBackend_the _ _ c raw_password w Hkey Hc).
      assert (check_password F raw_password (password c) && is_active c = false)
        as -> by (destruct Hbad as [-> | ->]; [done|apply andb_false_r]).
      eexists _, _. split; [reflexivity|]. split_and!; reflexivity.
  - intros c Hc <- Hcheck Hactive Hv.
    rewrite (ModelBackend_the _ _ c raw_password w Hkey Hc), Hcheck, Hactive.
    simpl. rewrite Hv. simpl.
    eexists _, _. split; [reflexivity|]. split_and!; reflexivity.
  - intros c Hc <- Hcheck Hactive Hv Hfresh.
    rewrite (ModelBackend_the _ _ c raw_password w Hkey Hc), Hcheck, Hactive.
    simpl. rewrite Hv, Hactive. simpl.
    unfold RefreshToken_for_user, OutstandingToken_create, draw. unfold_monad.
    simpl. rewrite decide_False by exact Hfresh.
    eexists _, _. split; [reflexivity|]. simpl. split_and!; eauto.
  - intros out w'.
    destruct (ModelBackend_authenticate (check_password F) (customers (db w))
                email raw_password) as [user|] eqn:Hauth.
    2: { intros [= <- <-] r [= <-]. simpl. split; [discriminate|]. discriminate. }
    apply ModelBackend_Some in Hauth as (Hk & He & Hcheck & Hactive).
    rewrite Hactive. simpl.
    destruct (is_verified user) eqn:Hv; simpl.
    2: { intros [= <- <-] r [= <-]. simpl. split; [discriminate|]. discriminate. }
    unfold RefreshToken_for_user, OutstandingToken_create, draw. unfold_monad.
    simpl. destruct (decide _); [intros [= <- <-] r [=]|].
    intros [= <- <-] r [= <-]. simpl. split; [discriminate|].
    intros access refresh user' [= _ _ <-]. done.
Qed.

(** ** Profile update: the address lists *)

Lemma others_untouched_preorder (table : DB -> gmap uuid Address) (user : uuid) :
  PreOrder (others_untouched table user).
Proof.
  split.
  - intros w Hkey. done.
  - intros w1 w2 w3 H12 H23 Hkey.
    destruct (H12 Hkey) as [Hkey2 Hrows2].
    destruct (H23 Hkey2) as [Hkey3 Hrows3].
    split; [done|]. intros k a Hk Hother. apply Hrows3; [|done].
    by apply Hrows2.
Qed.

Lemma others_untouched_same (table : DB -> gmap uuid Address) (user : uuid)
    (w w' : World) :
  table (db w') = table (db w) → others_untouched table user w w'.
Proof. intros Heq Hkey. rewrite Heq. done. Qed.

Section AddressTable.

Context (F : Framework) (m : Model) (table : DB -> gmap uuid Address)
  (set_table : (gmap uuid Address -> gmap uuid Address) -> DB -> DB)
  (Hlens : ∀ f d, table (set_table f d) = f (table d)).

Lemma entry_frame (user : Customer) (entry : AddressEntry) :
  preserves (others_untouched table (customer_id user))
    (update_address_entry F m table set_table user entry).
Proof.
  intros w out w' Hrun Hkey. unfold update_address_entry in Hrun.
  destruct (entry_id entry) as [|raw|id]; [| |].
  3: { unfold try_except in Hrun. unfold_monad.
    destruct (objects_get_cases m address_id
                (fun a => address_id a = id ∧ address_user a = customer_id user)
                (table (db w)) w Hkey)
      as [(a & Hget & Ha & [Hid Hu] & _)|[[Hget _]|Hget]];
      rewrite Hget in Hrun.
    + destruct (AddressSerializer F true (entry_data entry)) as [errors|attrs].
      { by injection Hrun as <- <-. }
      unfold Address_update in Hrun. unfold_monad. simpl in Hrun.
      injection Hrun as <- <-. simpl. rewrite Hlens. split.
      * by apply map_Forall_insert_2.
      * intros k a' Hk Hother. rewrite lookup_insert_ne; [done|].
        intros <-. congruence.
    + destruct (decide (m = m)); [|done]. by injection Hrun as <- <-.
    + by injection Hrun as <- <-. }
  2: { by injection Hrun as <- <-. }
  - destruct (AddressSerializer F false (entry_data entry)) as [errors|attrs].
    { by injection Hrun as <- <-. }
    unfold Address_create, uuid4, draw in Hrun. unfold_monad. simpl in Hrun.
    case_decide as Hfresh; injection Hrun as <- <-; simpl; [done|].
    rewrite Hlens. split.
    + by apply map_Forall_insert_2.
    + intros k a' Hk Hother. rewrite lookup_insert_ne; [done|].
      intros <-. destruct Hfresh. eauto.
Qed.

End AddressTable.

#[local] Existing Instance others_untouched_preorder.

Ltac untouched := apply others_untouched_same; reflexivity.

Lemma update_rest_frame (F : Framework) (table : DB -> gmap uuid Address)
    (instance : Customer) (patch : ProfilePatch) :
  (∀ entry, preserves (others_untouched table (customer_id instance))
              (update_address_entry F BillingAddressModel billing_addresses
                 set_billing_addresses instance entry)) →
  (∀ entry, preserves (others_untouched table (customer_id instance))
              (update_address_entry F DeliveryAddressModel delivery_addresses
                 set_delivery_addresses instance entry)) →
  (∀ f d, table (set_customers f d) = table d) →
  (∀ f d, table (set_trade_information f d) = table d) →
  (∀ f d, table (set_trade_documents f d) = table d) →
  preserves (others_untouched table (customer_id instance))
    (match patch_billing_addresses patch with
     | Some billing_addresses_data =>
         for_each (update_address_entry F BillingAddressModel billing_addresses
                     set_billing_addresses instance) billing_addresses_data
     | None => mret tt
     end;;
     match patch_delivery_addresses patch with
     | Some delivery_addresses_data =>
         for_each (update_address_entry F DeliveryAddressModel delivery_addresses
                     set_delivery_addresses instance) delivery_addresses_data
     | None => mret tt
     end;;
     match patch_trade_information patch with
     | Some (trade_information_data, documents_data) =>
         update_trade_information F instance trade_information_data documents_data
     | None => mret tt
     end;;
     mret instance).
Proof.
  intros Hbilling Hdelivery Hc Ht Hd.
  apply preserves_bind; [apply _| |intros _].
  { destruct (patch_billing_addresses patch);
      [apply preserves_for_each; [apply _|done]|apply preserves_ret; apply _]. }
  apply preserves_bind; [apply _| |intros _].
  { destruct (patch_delivery_addresses patch);
      [apply preserves_for_each; [apply _|done]|apply preserves_ret; apply _]. }
  apply preserves_bind; [apply _| |intros _; apply preserves_ret; apply _].
  frame ltac:(try (apply others_untouched_same; simpl;
                   rewrite ?Hc, ?Ht, ?Hd; reflexivity)).
Qed.

Lemma ProfileUpdate_frame (F : Framework) (table : DB -> gmap uuid Address)
    (user : Customer) (patch : ProfilePatch) :
  (∀ instance entry,
     preserves (others_untouched table (customer_id instance))
       (update_address_entry F BillingAddressModel billing_addresses
          set_billing_addresses instance entry)) →
  (∀ instance entry,
     preserves (others_untouched table (customer_id instance))
       (update_address_entry F DeliveryAddressModel delivery_addresses
          set_delivery_addresses instance entry)) →
  (∀ f d, table (set_customers f d) = table d) →
  (∀ f d, table (set_trade_information f d) = table d) →
  (∀ f d, table (set_trade_documents f d) = table d) →
  preserves (others_untouched table (customer_id user))
    (ProfileUpdateAPIView_patch F user patch).
Proof.
  intros Hbilling Hdelivery Hc Ht Hd.
  unfold ProfileUpdateAPIView_patch.
  destruct (CustomerProfileUpdateSerializer F (patch_data patch)) as [errors|attrs].
  { frame ltac:(untouched). }
  apply preserves_bind; [apply _| |intros user'].
  - unfold CustomerProfileUpdateSerializer_update.
    intros w out w' Hrun.
    apply bind_inv in Hrun as [(inst & w1 & Hsave & Hrun)|(e & Hsave & ->)].
    + unfold Customer_save in Hsave. unfold_monad. simpl in Hsave.
      injection Hsave as <- <-.
      transitivity (set_db
                      (set_customers
                         (insert (customer_id user)
                            (set_customer_updated_at (time w)
                               (Customer_setattrs attrs user))))
                      (tick w)).
      { apply others_untouched_same. simpl. by rewrite Hc. }
      by apply (update_rest_frame F table
                  (set_customer_updated_at (time w) (Customer_setattrs attrs user))
                  patch (Hbilling _) (Hdelivery _) Hc Ht Hd _ out).
    + unfold Customer_save in Hsave. unfold_monad. done.
  - frame ltac:(untouched).
Qed.

Lemma delivery_entry_keeps_billing (F : Framework) (user : uuid)
    (instance : Customer) (entry : AddressEntry) :
  preserves (others_untouched billing_addresses user)
    (update_address_entry F DeliveryAddressModel delivery_addresses
       set_delivery_addresses instance entry).
Proof. frame ltac:(try untouched). Qed.

Lemma billing_entry_keeps_delivery (F : Framework) (user : uuid)
    (instance : Customer) (entry : AddressEntry) :
  preserves (others_untouched delivery_addresses user)
    (update_address_entry F BillingAddressModel billing_addresses
       set_billing_addresses instance entry).
Proof. frame ltac:(try untouched). Qed.

Lemma dispatch_ProfileUpdate_frame (F : Framework) (user_id : uuid)
    (patch : ProfilePatch) (w w' : World) (out : Outcome Response) :
  db_wf (db w) →
  dispatch F (ProfileUpdate user_id patch) w = (out, w') →
  others_untouched billing_addresses user_id w w'
  ∧ others_untouched delivery_addresses user_id w w'.
Proof.
  intros (Hcust & _) Hrun. simpl in Hrun. unfold authenticated in Hrun.
  unfold_monad.
  destruct (customers (db w) !! user_id) as [user|] eqn:Huser.
  - rewrite <- (Hcust user_id user Huser). split.
    + apply (ProfileUpdate_frame F billing_addresses user patch) in Hrun;
        [done| | |done..].
      * intros. by apply entry_frame.
      * intros. apply delivery_entry_keeps_billing.
    + apply (ProfileUpdate_frame F delivery_addresses user patch) in Hrun;
        [done| | |done..].
      * intros. apply billing_entry_keeps_delivery.
      * intros. by apply entry_frame.
  - injection Hrun as <- <-. done.
Qed.

(** C9. An entry of [billing_addresses] or [delivery_addresses] whose
    [id] is not a UUID is not skipped.  Take a profile update whose scalar
    fields validate and whose first entry of the billing list (or, with no
    billing list, of the delivery list) carries such an id: the request ends
    in the [ValidationError] of [django.core.exceptions], which no handler
    of the view or of rest_framework turns into an answer; the address
    tables are as they were, and the scalar fields of the customer have
    already been saved. *)
Theorem C9_profile_update_addresses (F : Framework) (user : Customer)
    (patch : ProfilePatch) (attrs : ProfileAttrs) (entry : AddressEntry)
    (rest : list AddressEntry) (raw : string) (w : World) :
  CustomerProfileUpdateSerializer F (patch_data patch) = inr attrs →
  entry_id entry = MalformedId raw →
  patch_billing_addresses patch = Some (entry :: rest)
  ∨ (patch_billing_addresses patch = None
     ∧ patch_delivery_addresses patch = Some (entry :: rest)) →
  ∃ w', ProfileUpdateAPIView_patch F user patch w
        = (Raise (DjangoValidationError "invalid"), w')
    ∧ billing_addresses (db w') = billing_addresses (db w)
    ∧ delivery_addresses (db w') = delivery_addresses (db w)
    ∧ customers (db w')
      = <[customer_id user :=
            set_customer_updated_at (time w) (Customer_setattrs attrs user)]>
          (customers (db w)).
Proof.
  intros Hser Hid Hlist.
  unfold ProfileUpdateAPIView_patch, CustomerProfileUpdateSerializer_update,
    Customer_save.
  rewrite Hser.
  destruct Hlist as [Hb|[Hb Hd]]; rewrite Hb; [|rewrite Hd];
    simpl for_each; unfold update_address_entry; rewrite Hid;
    unfold_monad; simpl; eexists; (split; [reflexivity|]); done.
Qed.

(** ** The invariant of the tables is kept by every request *)

#[local] Instance wf_kept_preorder : PreOrder wf_kept.
Proof.
  split.
  - intros w Hwf. exact Hwf.
  - intros w1 w2 w3 H12 H23 Hwf. by apply H23, H12.
Qed.

Ltac wf_side :=
  let H := fresh "Hwf" in
  intros H; try exact H;
  destruct H as (?&?&?&?&?&?);
  repeat split; simpl; try done;
  apply map_Forall_insert_2; done.

Lemma dispatch_wf_kept (F : Framework) (req : Request) :
  preserves wf_kept (dispatch F req).
Proof.
  destruct req; simpl; frame ltac:(wf_side).
Qed.

(** ** Who sets the verified flag *)

#[local] Instance verified_kept_preorder : PreOrder verified_kept.
Proof.
  split.
  - intros w k c' Hk Hv. eauto.
  - intros w1 w2 w3 H12 H23 k c3 Hk Hv.
    destruct (H23 k c3 Hk Hv) as (c2 & Hk2 & Hv2). eauto.
Qed.

Lemma verified_kept_same (w w' : World) :
  customers (db w') = customers (db w) → verified_kept w w'.
Proof. intros Heq k c' Hk Hv. rewrite Heq in Hk. eauto. Qed.

Lemma verified_kept_rewrite (w : World) (k : uuid) (c c' : Customer)
    (w' : World) :
  customers (db w) !! k = Some c → is_verified c' = is_verified c →
  customers (db w') = <[k := c']> (customers (db w)) →
  verified_kept w w'.
Proof.
  intros Hc Hv Heq k0 c0 Hk0 Hv0. rewrite Heq in Hk0.
  apply lookup_insert_Some in Hk0 as [[<- <-]|[_ Hk0]]; [|eauto].
  exists c. split; [done|congruence].
Qed.

Ltac vk_side :=
  first
    [ apply verified_kept_same; reflexivity
    | let k := fresh "k" in let c := fresh "c" in
      let Hk := fresh "Hk" in let Hv := fresh "Hv" in
      intros k c Hk Hv; simpl in Hk;
      apply lookup_insert_Some in Hk as [[<- <-]|[_ Hk]];
      [simpl in Hv; discriminate Hv|eexists; split; [exact Hk|exact Hv]] ].

Lemma Register_verified_kept (F : Framework) (data : QueryDict) :
  preserves verified_kept (RegisterAPIView_post F data).
Proof. frame ltac:(vk_side). Qed.

Lemma same_customers_verified_kept {A} (c : M A) :
  preserves (same (fun w => customers (db w))) c → preserves verified_kept c.
Proof. intros Hc w out w' Hrun. apply verified_kept_same. by eapply Hc. Qed.

Lemma ChangePassword_verified_kept (F : Framework) (user : Customer)
    (data : QueryDict) (w w' : World) (out : Outcome Response) :
  customers (db w) !! customer_id user = Some user →
  ChangePasswordAPIView_post F user data w = (out, w') →
  verified_kept w w'.
Proof.
  intros Huser. unfold ChangePasswordAPIView_post.
  destruct (ChangePasswordSerializer F user data) as [errors|new_password].
  - intros [= <- <-]. by apply verified_kept_same.
  - unfold Customer_set_password, Customer_save, draw. unfold_monad. simpl.
    intros [= <- <-].
    eapply (verified_kept_rewrite w (customer_id user) user); [done| |done].
    done.
Qed.

Lemma ResetPassword_verified_kept (F : Framework) (data : QueryDict)
    (w w' : World) (out : Outcome Response) :
  keyed customer_id (customers (db w)) →
  ResetPasswordAPIView_post F data w = (out, w') →
  verified_kept w w'.
Proof.
  intros Hkey. unfold ResetPasswordAPIView_post.
  destruct (ResetPasswordSerializer F data) as [errors|[[email code] new_password]].
  { intros [= <- <-]. by apply verified_kept_same. }
  unfold_monad. rewrite OTP_latest_run.
  destruct (OTP_selected (db w) email code) as [o|]; simpl;
    [|intros [= <- <-]; by apply verified_kept_same].
  rewrite OTP_is_valid_run. destruct (otp_is_used o); simpl;
    [intros [= <- <-]; by apply verified_kept_same|].
  case_bool_decide; simpl; [|intros [= <- <-]; by apply verified_kept_same].
  unfold OTP_save. unfold_monad.
  set (w2 := set_db _ (tick w)).
  destruct (Customer_get_cases email w2 Hkey)
    as [(c & -> & [Hc _] & He)|[[-> Hno]|[-> Hmany]]]; simpl;
    [|intros [= <- <-]; by apply verified_kept_same..].
  unfold Customer_set_password, Customer_save, draw. unfold_monad. simpl.
  intros [= <- <-].
  eapply (verified_kept_rewrite w (customer_id c) c); [exact Hc| |reflexivity];
    reflexivity.
Qed.

Lemma update_rest_same_customers (F : Framework) (instance : Customer)
    (patch : ProfilePatch) :
  preserves (same (fun w => customers (db w)))
    (match patch_billing_addresses patch with
     | Some billing_addresses_data =>
         for_each (update_address_entry F BillingAddressModel billing_addresses
                     set_billing_addresses instance) billing_addresses_data
     | None => mret tt
     end;;
     match patch_delivery_addresses patch with
     | Some delivery_addresses_data =>
         for_each (update_address_entry F DeliveryAddressModel delivery_addresses
                     set_delivery_addresses instance) delivery_addresses_data
     | None => mret tt
     end;;
     match patch_trade_information patch with
     | Some (trade_information_data, documents_data) =>
         update_trade_information F instance trade_information_data documents_data
     | None => mret tt
     end;;
     mret instance).
Proof. frame ltac:(done). Qed.

Lemma ProfileUpdate_verified_kept (F : Framework) (user : Customer)
    (patch : ProfilePatch) (w w' : World) (out : Outcome Response) :
  customers (db w) !! customer_id user = Some user →
  ProfileUpdateAPIView_patch F user patch w = (out, w') →
  verified_kept w w'.
Proof.
  intros Huser. unfold ProfileUpdateAPIView_patch.
  destruct (CustomerProfileUpdateSerializer F (patch_data patch)) as [errors|attrs].
  { intros [= <- <-]. by apply verified_kept_same. }
  intros Hrun.
  apply bind_inv in Hrun as [(user' & w1 & Hupdate & Hrun)|(e & Hupdate & ->)].
  - transitivity w1.
    + unfold CustomerProfileUpdateSerializer_update in Hupdate.
      apply bind_inv in Hupdate as [(inst & w0 & Hsave & Hrest)|(e & Hsave & [=])].
      unfold Customer_save in Hsave. unfold_monad. simpl in Hsave.
      injection Hsave as <- <-.
      transitivity (set_db
                      (set_customers
                         (insert (customer_id user)
                            (set_customer_updated_at (time w)
                               (Customer_setattrs attrs user))))
                      (tick w)).
      * eapply (verified_kept_rewrite w (customer_id user) user);
          [exact Huser| |reflexivity]; reflexivity.
      * apply verified_kept_same.
        by apply (update_rest_same_customers F _ patch) in Hrest.
    + revert Hrun. apply same_customers_verified_kept. frame ltac:(done).
  - unfold CustomerProfileUpdateSerializer_update in Hupdate.
    apply bind_inv in Hupdate as [(inst & w0 & Hsave & Hrest)|(e' & Hsave & _)];
      [|unfold Customer_save in Hsave; unfold_monad; discriminate Hsave].
    unfold Customer_save in Hsave. unfold_monad. simpl in Hsave.
    injection Hsave as <- <-.
    transitivity (set_db
                    (set_customers
                       (insert (customer_id user)
                          (set_customer_updated_at (time w)
                             (Customer_setattrs attrs user))))
                    (tick w)).
    * eapply (verified_kept_rewrite w (customer_id user) user);
        [exact Huser| |reflexivity]; reflexivity.
    * apply verified_kept_same.
      by apply (update_rest_same_customers F _ patch) in Hrest.
Qed.

Lemma VerifyEmail_verified (F : Framework) (data : QueryDict)
    (w w' : World) (out : Outcome Response) (k : uuid) (c' : Customer) :
  db_wf (db w) →
  VerifyEmailAPIView_post F data w = (out, w') →
  customers (db w') !! k = Some c' → is_verified c' = true →
  (∃ c, customers (db w) !! k = Some c ∧ is_verified c = true)
  ∨ verifies F w (VerifyEmail data) k.
Proof.
  intros (Hcust & _ & _ & _ & _ & Hotps) Hrun Hk Hv.
  destruct (VerifyEmailSerializer F data) as [errors|[email code]] eqn:Hser.
  { unfold VerifyEmailAPIView_post in Hrun. rewrite Hser in Hrun.
    injection Hrun as <- <-. left. eauto. }
  destruct (OTP_selected (db w) email code) as [o|] eqn:Hsel.
  2: { unfold VerifyEmailAPIView_post in Hrun. rewrite Hser in Hrun.
       unfold_monad. rewrite OTP_latest_run, Hsel in Hrun.
       injection Hrun as <- <-. left. eauto. }
  destruct (decide (otp_is_used o = false ∧ time w < otp_expires_at o))
    as [[Hused Hlive]|Hinv].
  - destruct (VerifyEmail_valid F data email code w o Hcust Hser Hsel Hused Hlive)
      as (out0 & w0 & Hrun0 & Hmark & Hcases).
    rewrite Hrun in Hrun0. injection Hrun0 as <- <-.
    destruct Hcases as [(c & r & [Hc _] & He & -> & Hst & Hok & Hset)
                       |[(r & _ & _ & _ & _ & _ & Hsame)|(_ & _ & Hsame)]].
    + rewrite Hset in Hk.
      apply lookup_insert_Some in Hk as [[<- <-]|[_ Hk]]; [|left; eauto].
      right. exists data, email, code, o, r, c. simpl. rewrite Hrun. simpl.
      repeat split; try done.
      * by apply OTP_is_valid_true.
      * by rewrite Hmark, lookup_insert_eq.
    + rewrite Hsame in Hk. left. eauto.
    + rewrite Hsame in Hk. left. eauto.
  - assert (otp_is_used o = true ∨ otp_expires_at o ≤ time w) as Hinv'.
    { destruct (otp_is_used o); [by left|right].
      destruct (decide (time w < otp_expires_at o)); [|lia].
      destruct Hinv. done. }
    destruct (VerifyEmail_invalid F data email code w o Hser Hsel Hinv')
      as (r & w0 & Hrun0 & _ & _ & _ & Hdb).
    rewrite Hrun in Hrun0. injection Hrun0 as _ <-.
    rewrite Hdb in Hk. left. eauto.
Qed.

Lemma dispatch_verified (F : Framework) (req : Request)
    (w w' : World) (out : Outcome Response) (k : uuid) (c' : Customer) :
  db_wf (db w) →
  dispatch F req w = (out, w') →
  customers (db w') !! k = Some c' → is_verified c' = true →
  (∃ c, customers (db w) !! k = Some c ∧ is_verified c = true)
  ∨ verifies F w req k.
Proof.
  intros Hwf Hrun Hk Hv.
  assert (keyed customer_id (customers (db w))) as Hcust by apply Hwf.
  destruct req; simpl in Hrun;
    [| | | |by eapply VerifyEmail_verified|..];
    left; revert k c' Hk Hv; fold (verified_kept w w').
  - by apply Register_verified_kept in Hrun.
  - revert Hrun. apply same_customers_verified_kept. frame ltac:(done).
  - revert Hrun. apply same_customers_verified_kept. frame ltac:(done).
  - revert Hrun. apply same_customers_verified_kept. frame ltac:(done).
  - revert Hrun. apply same_customers_verified_kept. frame ltac:(done).
  - revert Hrun. apply same_customers_verified_kept. frame ltac:(done).
  - revert Hrun. apply same_customers_verified_kept. frame ltac:(done).
  - revert Hrun. apply same_customers_verified_kept. frame ltac:(done).
  - revert Hrun. apply same_customers_verified_kept. frame ltac:(done).
  - revert Hrun. apply same_customers_verified_kept. frame ltac:(done).
  - by eapply ResetPassword_verified_kept.
  - unfold authenticated in Hrun. unfold_monad.
    destruct (customers (db w) !! user_id) as [user|] eqn:Huser.
    + rewrite <- (Hcust _ _ Huser) in Huser.
      by eapply ChangePassword_verified_kept.
    + injection Hrun as <- <-. by apply verified_kept_same.
  - revert Hrun. apply same_customers_verified_kept. frame ltac:(done).
  - unfold authenticated in Hrun. unfold_monad.
    destruct (customers (db w) !! user_id) as [user|] eqn:Huser.
    + rewrite <- (Hcust _ _ Huser) in Huser.
      by eapply ProfileUpdate_verified_kept.
    + injection Hrun as <- <-. by apply verified_kept_same.
Qed.

Lemma run_wf (F : Framework) (events : list Event) (w : World) :
  db_wf (db w) → db_wf (db (run F w events)).
Proof.
  revert w. induction events as [|e events IH]; intros w Hwf; [done|].
  simpl. apply IH. destruct e as [req|dt]; simpl; [|done].
  destruct (dispatch F req w) as [out w'] eqn:Hrun.
  by apply (dispatch_wf_kept F req w out w' Hrun).
Qed.

(** C6. Take any request of the public routes, in a world whose tables are
    keyed by primary key.  A customer row that is verified after the request
    either was verified, under the same key, before it, or the request is a
    verify-email request that succeeded: its fields validate to this
    customer's email and a code, the OTP row selected for them was valid and
    is now marked used, and the answer is a success.  The same holds along
    every run of requests with time passing in between: a customer verified
    at the end was verified at the start or some request of the run verified
    it in this way. *)
Theorem C6_verified_only_by_verify_email (F : Framework) (w : World) :
  db_wf (db w) →
  (∀ req out w' k c',
     dispatch F req w = (out, w') →
     customers (db w') !! k = Some c' → is_verified c' = true →
     (∃ c, customers (db w) !! k = Some c ∧ is_verified c = true)
     ∨ verifies F w req k)
  ∧ (∀ events k c',
       customers (db (run F w events)) !! k = Some c' → is_verified c' = true →
       (∃ c, customers (db w) !! k = Some c ∧ is_verified c = true)
       ∨ ∃ before req after,
           events = (before ++ Call req :: after)%list
           ∧ verifies F (run F w before) req k).
Proof.
  intros Hwf. split.
  - intros req out w' k c' Hrun Hk Hv. by eapply dispatch_verified.
  - intros events. revert w Hwf.
    induction events as [|e events IH]; intros w Hwf k c' Hk Hv.
    { left. eauto. }
    simpl in Hk.
    assert (db_wf (db (step F w e))) as Hwf1.
    { apply (run_wf F [e] w Hwf). }
    destruct (IH (step F w e) Hwf1 k c' Hk Hv)
      as [(c1 & Hk1 & Hv1)|(before & req & after & -> & Hver)].
    + destruct e as [req|dt]; simpl in Hk1; [|left; eauto].
      destruct (dispatch F req w) as [out w1] eqn:Hrun. simpl in Hk1.
      destruct (dispatch_verified F req w w1 out k c1 Hwf Hrun Hk1 Hv1)
        as [Hbefore|Hver]; [by left|].
      right. exists [], req, events. done.
    + right. exists (e :: before), req, after. done.
Qed.

(** * The statements at concrete worlds *)

Lemma C1_witness :
  ∃ out w',
    VerifyEmailAPIView_post Demo.framework Demo.verify_request
      (Demo.world Demo.db_alice 200) = (out, w')
    ∧ (OTP_selected Demo.db_alice "a@x.com" "12345678" = None →
       ∃ r, out = Return r ∧ statusCode r = HTTP_400_BAD_REQUEST
            ∧ success r = false ∧ db w' = Demo.db_alice).
Proof.
  destruct (C1_verify_email Demo.framework Demo.verify_request
              "a@x.com" "12345678" (Demo.world Demo.db_alice 200))
    as (out & w' & Hrun & _ & _ & Hnone & _).
  - apply (bool_decide_unpack _). vm_compute. exact I.
  - vm_compute. reflexivity.
  - exists out, w'. split; [exact Hrun|exact Hnone].
Defined.

Lemma C2_witness :
  otp_expires_at Demo.created_otp = 0 + timedelta_minutes 10
  ∧ 0 ≤ otp_created_at Demo.created_otp.
Proof.
  destruct (C2_otp_valid_for_ten_minutes Demo.framework "a@x.com" "01234567"
              (Demo.world Demo.empty_db 0)
              (OTP_objects_create "a@x.com" "01234567" None
                 (Demo.world Demo.empty_db 0)).2
              Demo.created_otp)
    as (_ & Hexp & _ & Hcreated & _).
  - vm_compute. reflexivity.
  - split; [exact Hexp|exact Hcreated].
Defined.


Lemma C4_witness :
  ∃ r w',
    TradeInformationRegisterAPIView_post Demo.framework Demo.trade_request None
      (Demo.world Demo.db_bob 200) = (Return r, w')
    ∧ statusCode r = HTTP_400_BAD_REQUEST
    ∧ trade_information (db w') !! 9%N = Some Demo.bob_trade.
Proof.
  destruct (C4_trade_information_guards Demo.framework Demo.trade_request None
              Demo.bob (Demo.world Demo.db_bob 200))
    as (_ & Hexists).
  - apply (bool_decide_unpack _). vm_compute. exact I.
  - split; [vm_compute; reflexivity|]. split; [discriminate|].
    split; [exists 2%N; vm_compute; reflexivity|].
    intros k c' Hk He. simpl in Hk.
    apply lookup_insert_Some in Hk as [[_ <-]|[_ Hk]];
      [vm_compute in He; discriminate He|].
    apply lookup_singleton_Some in Hk as [_ <-]. reflexivity.
  - destruct (Hexists eq_refl Demo.bob_trade) as (r & w' & Hrun & Hst & _ & _ & _ & Hrow).
    + vm_compute. reflexivity.
    + reflexivity.
    + intros k t' Hk _. simpl in Hk.
      apply lookup_singleton_Some in Hk as [_ <-]. reflexivity.
    + exists r, w'. split; [exact Hrun|]. split; [exact Hst|exact Hrow].
Defined.

(** C4 as the spec's table states it fails: the answer to a second
    add-trade-information request is not 409. *)
Lemma C4_counterexample :
  ¬ (∀ (F : Framework) (data : QueryDict)
       (documents : option (list UploadedFile)) (c : Customer) (w : World)
       (r : Response) (w' : World),
       db_wf (db w) → request_customer (db w) data c →
       customer_type c = Trade →
       (∃ k t, trade_information (db w) !! k = Some t
               ∧ trade_user t = customer_id c) →
       TradeInformationRegisterAPIView_post F data documents w = (Return r, w') →
       statusCode r = 409%nat).
Proof.
  intros Hclaim.
  destruct (TradeInformationRegisterAPIView_post Demo.framework
              Demo.trade_request None (Demo.world Demo.db_bob 200))
    as [[r|e] w'] eqn:Hrun; [|vm_compute in Hrun; discriminate Hrun].
  assert (statusCode r = 409%nat) as Hst.
  { apply (Hclaim Demo.framework Demo.trade_request None Demo.bob
             (Demo.world Demo.db_bob 200) r w').
    - apply (bool_decide_unpack _). vm_compute. exact I.
    - split; [vm_compute; reflexivity|]. split; [discriminate|].
      split; [exists 2%N; vm_compute; reflexivity|].
      intros k c' Hk He. simpl in Hk.
      apply lookup_insert_Some in Hk as [[_ <-]|[_ Hk]];
        [vm_compute in He; discriminate He|].
      apply lookup_singleton_Some in Hk as [_ <-]. reflexivity.
    - reflexivity.
    - exists 9%N, Demo.bob_trade. split; vm_compute; reflexivity.
    - exact Hrun. }
  vm_compute in Hrun. injection Hrun as <- _. vm_compute in Hst.
  discriminate Hst.
Qed.

Lemma C5_witness :
  ∃ r w',
    LoginAPIView_post Demo.framework Demo.carol_login
      (Demo.world Demo.db_carol 200) = (Return r, w')
    ∧ statusCode r = HTTP_401_UNAUTHORIZED
    ∧ message r = "Invalid credentials".
Proof.
  destruct (C5_login Demo.framework Demo.carol_login "c@x.com" "tr0ub4dor"
              false (Demo.world Demo.db_carol 200))
    as (Hrefused & _).
  - intros table email raw. reflexivity.
  - apply (bool_decide_unpack _). vm_compute. exact I.
  - vm_compute. reflexivity.
  - destruct Hrefused as (r & w' & Hrun & Hstatus & _ & Hmsg & _).
    + right. exists Demo.carol. split_and!.
      * split; [reflexivity|]. intros k c' Hk _. cbn in Hk.
        apply lookup_singleton_Some in Hk as [_ <-]. reflexivity.
      * reflexivity.
      * right. reflexivity.
    + exists r, w'. split; [exact Hrun|]. split; [exact Hstatus|exact Hmsg].
Defined.

Lemma C6_witness :
  verifies Demo.framework (Demo.world Demo.db_alice 200)
    (VerifyEmail Demo.verify_request) 1%N.
Proof.
  destruct (C6_verified_only_by_verify_email Demo.framework
              (Demo.world Demo.db_alice 200))
    as [Hstep _].
  - apply (bool_decide_unpack _). vm_compute. exact I.
  - destruct (Hstep (VerifyEmail Demo.verify_request)
                (dispatch Demo.framework (VerifyEmail Demo.verify_request)
                   (Demo.world Demo.db_alice 200)).1
                (dispatch Demo.framework (VerifyEmail Demo.verify_request)
                   (Demo.world Demo.db_alice 200)).2
                1%N
                (set_customer_updated_at 201 (set_is_verified true Demo.alice)))
      as [(c & Hc & Hv)|Hver].
    + apply surjective_pairing.
    + vm_compute. reflexivity.
    + reflexivity.
    + vm_compute in Hc. injection Hc as <-. vm_compute in Hv. discriminate Hv.
    + exact Hver.
Defined.

Lemma C7_witness :
  db (VerifyResetOTPAPIView_post Demo.framework Demo.verify_request
        (Demo.world Demo.db_alice 200)).2
  = Demo.db_alice.
Proof.
  destruct (C7_verify_reset_otp_does_not_consume Demo.framework
              Demo.verify_request Demo.reset_request
              "a@x.com" "12345678" "another horse"
              (Demo.world Demo.db_alice 200)
              (VerifyResetOTPAPIView_post Demo.framework Demo.verify_request
                 (Demo.world Demo.db_alice 200)).2
              (VerifyResetOTPAPIView_post Demo.framework Demo.verify_request
                 (Demo.world Demo.db_alice 200)).1)
    as [Hdb _].
  - apply (bool_decide_unpack _). vm_compute. exact I.
  - vm_compute. reflexivity.
  - vm_compute. reflexivity.
  - apply surjective_pairing.
  - exact Hdb.
Defined.

Lemma C8_witness :
  ∃ r w',
    VerifyEmailAPIView_post Demo.framework Demo.verify_request
      (Demo.world Demo.empty_db 200) = (Return r, w')
    ∧ message r = "Invalid OTP".
Proof.
  destruct (C8_otp_failure_messages Demo.framework Demo.verify_request
              Demo.reset_request "a@x.com" "12345678" "another horse"
              (Demo.world Demo.empty_db 200))
    as [Hnone _].
  - vm_compute. reflexivity.
  - vm_compute. reflexivity.
  - destruct Hnone as ((r & w' & Hrun & _ & _ & _ & Hmsg & _) & _).
    + vm_compute. reflexivity.
    + exists r, w'. split; [exact Hrun|exact Hmsg].
Defined.

(** C8 as stated fails: without a matching row the message is not
    "Invalid or expired OTP". *)
Lemma C8_counterexample :
  ¬ (∀ (F : Framework) (request : QueryDict) (email code : string) (w : World)
       (r : Response) (w' : World),
       VerifyEmailSerializer F request = inr (email, code) →
       OTP_selected (db w) email code = None →
       VerifyEmailAPIView_post F request w = (Return r, w') →
       message r = "Invalid or expired OTP").
Proof.
  intros Hclaim.
  destruct (VerifyEmailAPIView_post Demo.framework Demo.verify_request
              (Demo.world Demo.empty_db 200))
    as [[r|e] w'] eqn:Hrun; [|vm_compute in Hrun; discriminate Hrun].
  assert (message r = "Invalid or expired OTP") as Hmsg.
  { apply (Hclaim Demo.framework Demo.verify_request "a@x.com" "12345678"
             (Demo.world Demo.empty_db 200) r w').
    - vm_compute. reflexivity.
    - vm_compute. reflexivity.
    - exact Hrun. }
  vm_compute in Hrun. injection Hrun as <- _. vm_compute in Hmsg.
  discriminate Hmsg.
Qed.

Lemma C9_witness :
  ∃ w', ProfileUpdateAPIView_patch Demo.framework Demo.alice
          Demo.malformed_patch (Demo.world Demo.db_bob 200)
        = (Raise (DjangoValidationError "invalid"), w')
    ∧ billing_addresses (db w') = billing_addresses Demo.db_bob.
Proof.
  destruct (C9_profile_update_addresses Demo.framework Demo.alice
              Demo.malformed_patch
              {| attr_profile_first_name := Some "Al";
                 attr_profile_last_name := None;
                 attr_profile_phone_number := None |}
              {| entry_id := MalformedId "not-a-uuid";
                 entry_data := Demo.request [("city", "Elsewhere")] |}
              [] "not-a-uuid" (Demo.world Demo.db_bob 200))
    as (w' & Hrun & Hbilling & _).
  - vm_compute. reflexivity.
  - reflexivity.
  - left. reflexivity.
  - exists w'. split; [exact Hrun|exact Hbilling].
Defined.

Lemma C10_witness :
  ∃ r w',
    VerifyEmailAPIView_post Demo.framework Demo.verify_request
      (Demo.world Demo.db_no_customer 200) = (Return r, w')
    ∧ statusCode r = HTTP_404_NOT_FOUND
    ∧ otps (db w') !! 7%N
      = Some (set_is_used true (Demo.otp_row 7%N "a@x.com" "12345678" 100 false)).
Proof.
  destruct (C10_otp_consumed_when_user_not_found Demo.framework
              Demo.verify_request Demo.reset_request
              "a@x.com" "12345678" "another horse"
              (Demo.world Demo.db_no_customer 200)
              (Demo.otp_row 7%N "a@x.com" "12345678" 100 false))
    as (_ & _ & (r & w' & Hrun & Hst & _ & _ & Hused & _) & _).
  - apply (bool_decide_unpack _). vm_compute. exact I.
  - vm_compute. reflexivity.
  - vm_compute. reflexivity.
  - vm_compute. reflexivity.
  - vm_compute. reflexivity.
  - intros k c Hk. simpl in Hk. rewrite lookup_empty in Hk. discriminate Hk.
  - exists r, w'. split; [exact Hrun|]. split; [exact Hst|exact Hused].
Defined.

(** * Properties beyond the claims *)

(** ** The clock *)

#[local] Instance time_le_preorder : PreOrder time_le.
Proof.
  split.
  - intros w. unfold time_le. lia.
  - intros w1 w2 w3. unfold time_le. lia.
Qed.

Ltac time_side := unfold time_le; simpl; lia.

Lemma dispatch_time_le (F : Framework) (req : Request) :
  preserves time_le (dispatch F req).
Proof. destruct req; simpl; frame ltac:(time_side). Qed.

Lemma step_time_le (F : Framework) (w : World) (e : Event) :
  time_le w (step F w e).
Proof.
  destruct e as [req|dt]; simpl; [|time_side].
  destruct (dispatch F req w) as [out w'] eqn:Hrun.
  by apply (dispatch_time_le F req w out w').
Qed.

Lemma run_time_le (F : Framework) (events : list Event) (w : World) :
  time_le w (run F w events).
Proof.
  revert w. induction events as [|e events IH]; intros w; [reflexivity|].
  simpl. etransitivity; [apply (step_time_le F w e)|apply IH].
Qed.

(** ** Resend and forgot-password *)

Lemma try_except_inv {A} (c : M A) (h : Exception -> option (M A))
    (w w' : World) (out : Outcome A) :
  try_except c h w = (out, w') →
  (∃ a, c w = (Return a, w') ∧ out = Return a)
  ∨ (∃ e w1, c w = (Raise e, w1)
       ∧ match h e with
         | Some k => k w1 = (out, w')
         | None => out = Raise e ∧ w' = w1
         end).
Proof.
  unfold try_except. destruct (c w) as [[a|e] w1].
  - intros [= <- <-]. left. eauto.
  - intros Hrun. right. exists e, w1. split; [done|].
    destruct (h e); [done|]. by injection Hrun as <- <-.
Qed.

Lemma Customer_get_in (email : string) (w w' : World) (c : Customer) :
  Customer_get email w = (Return c, w') →
  w' = w ∧ customer_email c = email ∧ ∃ k, customers (db w) !! k = Some c.
Proof.
  unfold Customer_get. unfold_monad.
  intros (-> & He & Hk & _)%objects_get_Return. done.
Qed.

Lemma Resend_cases (F : Framework) (data : QueryDict) (w w' : World)
    (out : Outcome Response) :
  ResendOTPAPIView_post F data w = (out, w') →
  (db w' = db w ∧ mail_log w' = mail_log w
   ∧ ∀ r, out = Return r → success r = false)
  ∨ (∃ email c o r,
       ResendOTPSerializer F data = inr email
       ∧ (∃ k, customers (db w) !! k = Some c) ∧ customer_email c = email
       ∧ is_verified c = false
       ∧ minted_and_mailed w w' email o
       ∧ customers (db w') = customers (db w)
       ∧ out = Return r ∧ success r = true ∧ statusCode r = HTTP_200_OK).
Proof.
  unfold ResendOTPAPIView_post.
  destruct (ResendOTPSerializer F data) as [errors|email] eqn:Hser.
  { intros (-> & r & -> & Hfail & _)%CustomResponse_error_run.
    left. split; [done|]. split; [done|]. intros ? [= <-]. done. }
  intros [(r & Hbody & ->)|(e & w1 & Hbody & Hhandler)]%try_except_inv.
  - apply bind_inv in Hbody as [(c & w1 & Hget & Hbody)|(e & _ & [=])].
    apply Customer_get_in in Hget as (-> & He & Hk).
    destruct (is_verified c) eqn:Hv.
    { apply CustomResponse_error_run in Hbody as (-> & r' & [= ->] & Hfail & _).
      left. split; [done|]. split; [done|]. intros ? [= <-]. done. }
    cbv iota in Hbody. unfold Resend_send_verification_email in Hbody.
    apply (mint_inv F _ _ (fun otp => _ +:+ otp +:+ _)) in Hbody
      as [([=] & _)|(o & w4 & ok & Hfresh & Hdb4 & Heo & Hu & Hml4 & Hk4)].
    apply CustomResponse_success_run in Hk4 as (-> & r' & [= <-] & Hok & Hst & _).
    right. exists email, c, o, r. split; [done|]. split; [done|].
    split; [done|]. split; [done|].
    split; [|simpl; rewrite Hdb4; done].
    unfold minted_and_mailed. simpl. rewrite Hdb4, Hml4. simpl.
    split; [done|]. split; [done|]. split; [done|]. split; [done|].
    eexists _, _. split; [done|]. split; [done|]. by eexists.
  - apply bind_inv in Hbody as [(c & w2 & Hget & Hbody)|(e' & Hget & [= <-])].
    + apply Customer_get_in in Hget as (-> & He & Hk).
      destruct (is_verified c) eqn:Hv; [discriminate Hbody|].
      cbv iota in Hbody. unfold Resend_send_verification_email in Hbody.
      apply (mint_inv F _ _ (fun otp => _ +:+ otp +:+ _)) in Hbody
        as [([= ->] & Hdb4 & Hml4)|(o & w4 & ok & _ & _ & _ & _ & _ & Hk4)];
        [|done].
      simpl in Hhandler. destruct Hhandler as [-> ->].
      left. done.
    + apply Customer_get_Raise in Hget as [-> [->| ->]]; simpl in Hhandler.
      * apply CustomResponse_error_run in Hhandler as (-> & r & -> & Hfail & _).
        left. split; [done|]. split; [done|]. intros ? [= <-]. done.
      * destruct Hhandler as [-> ->]. left. done.
Qed.

Lemma Forgot_cases (F : Framework) (data : QueryDict) (w w' : World)
    (out : Outcome Response) :
  ForgotPasswordAPIView_post F data w = (out, w') →
  (db w' = db w ∧ mail_log w' = mail_log w
   ∧ ∀ r, out = Return r → success r = false)
  ∨ (∃ email c o r,
       ForgotPasswordSerializer F data = inr email
       ∧ (∃ k, customers (db w) !! k = Some c) ∧ customer_email c = email
       ∧ reset_code_mailed w w' email o
       ∧ customers (db w') = customers (db w)
       ∧ out = Return r ∧ success r = true ∧ statusCode r = HTTP_200_OK).
Proof.
  unfold ForgotPasswordAPIView_post.
  destruct (ForgotPasswordSerializer F data) as [errors|email] eqn:Hser.
  { intros (-> & r & -> & Hfail & _)%CustomResponse_error_run.
    left. split; [done|]. split; [done|]. intros ? [= <-]. done. }
  intros [(r & Hbody & ->)|(e & w1 & Hbody & Hhandler)]%try_except_inv.
  - apply bind_inv in Hbody as [(c & w1 & Hget & Hbody)|(e & _ & [=])].
    apply Customer_get_in in Hget as (-> & He & Hk).
    unfold send_reset_email in Hbody.
    apply (mint_inv F _ _ (fun otp => _ +:+ otp +:+ _)) in Hbody
      as [([=] & _)|(o & w4 & ok & Hfresh & Hdb4 & Heo & Hu & Hml4 & Hk4)].
    apply CustomResponse_success_run in Hk4 as (-> & r' & [= <-] & Hok & Hst & _).
    right. exists email, c, o, r. split; [done|]. split; [done|].
    split; [done|].
    split; [|simpl; rewrite Hdb4; done].
    unfold reset_code_mailed. simpl. rewrite Hdb4, Hml4. simpl.
    split; [done|]. split; [done|]. split; [done|]. split; [done|].
    eexists _, _. split; [done|]. split; [done|]. by eexists.
  - apply bind_inv in Hbody as [(c & w2 & Hget & Hbody)|(e' & Hget & [= <-])].
    + apply Customer_get_in in Hget as (-> & He & Hk).
      unfold send_reset_email in Hbody.
      apply (mint_inv F _ _ (fun otp => _ +:+ otp +:+ _)) in Hbody
        as [([= ->] & Hdb4 & Hml4)|(o & w4 & ok & _ & _ & _ & _ & _ & Hk4)];
        [|done].
      simpl in Hhandler. destruct Hhandler as [-> ->].
      left. done.
    + apply Customer_get_Raise in Hget as [-> [->| ->]]; simpl in Hhandler.
      * apply CustomResponse_error_run in Hhandler as (-> & r & -> & Hfail & _).
        left. split; [done|]. split; [done|]. intros ? [= <-]. done.
      * destruct Hhandler as [-> ->]. left. done.
Qed.

(** ** How a request changes the OTP table *)

Lemma minted_otps_step (w w' : World) (email : string) (o : OTP) :
  minted_and_mailed w w' email o → otps_step w w'.
Proof. intros (Hfresh & Hins & _ & Hu & _). by eapply otps_minted. Qed.

Lemma VerifyEmail_otps_step (F : Framework) (data : QueryDict)
    (w w' : World) (out : Outcome Response) :
  db_wf (db w) →
  VerifyEmailAPIView_post F data w = (out, w') → otps_step w w'.
Proof.
  intros (Hcust & _ & _ & _ & _ & Hotps) Hrun.
  destruct (VerifyEmailSerializer F data) as [errors|[email code]] eqn:Hser.
  { unfold VerifyEmailAPIView_post in Hrun. rewrite Hser in Hrun.
    injection Hrun as <- <-. by apply otps_same. }
  destruct (OTP_selected (db w) email code) as [o|] eqn:Hsel.
  2: { unfold VerifyEmailAPIView_post in Hrun. rewrite Hser in Hrun.
       revert Hrun. unfold_monad. rewrite OTP_latest_run, Hsel.
       intros [= <- <-]. by apply otps_same. }
  destruct (decide (otp_is_used o = false ∧ time w < otp_expires_at o))
    as [[Hused Hlive]|Hinv].
  - destruct (VerifyEmail_valid F data email code w o Hcust Hser Hsel Hused Hlive)
      as (out0 & w0 & Hrun0 & Hmark & _).
    rewrite Hrun in Hrun0. injection Hrun0 as <- <-.
    destruct (OTP_selected_Some _ _ _ _ Hotps Hsel) as (Ho & _).
    by eapply otps_consumed.
  - assert (otp_is_used o = true ∨ otp_expires_at o ≤ time w) as Hinv'.
    { destruct (otp_is_used o); [by left|right].
      destruct (decide (time w < otp_expires_at o)); [|lia].
      destruct Hinv. done. }
    destruct (VerifyEmail_invalid F data email code w o Hser Hsel Hinv')
      as (r & w0 & Hrun0 & _ & _ & _ & Hdb).
    rewrite Hrun in Hrun0. injection Hrun0 as _ <-.
    apply otps_same. by rewrite Hdb.
Qed.

Lemma ResetPassword_invalid (F : Framework) (data : QueryDict)
    (email code new_password : string) (w : World) (o : OTP) :
  ResetPasswordSerializer F data = inr (email, code, new_password) →
  OTP_selected (db w) email code = Some o →
  (otp_is_used o = true ∨ otp_expires_at o ≤ time w) →
  ∃ r w', ResetPasswordAPIView_post F data w = (Return r, w')
          ∧ statusCode r = HTTP_400_BAD_REQUEST ∧ success r = false
          ∧ message r = "Invalid or expired OTP" ∧ db w' = db w.
Proof.
  intros Hser Hsel Hinv. unfold ResetPasswordAPIView_post. rewrite Hser.
  unfold_monad. rewrite OTP_latest_run, Hsel, OTP_is_valid_run.
  destruct (otp_is_used o) eqn:Hused; simpl.
  - eauto 10.
  - destruct Hinv as [?|Hexp]; [done|].
    rewrite bool_decide_eq_false_2 by lia. simpl. eauto 10.
Qed.

Lemma ResetPassword_otps_step (F : Framework) (data : QueryDict)
    (w w' : World) (out : Outcome Response) :
  db_wf (db w) →
  ResetPasswordAPIView_post F data w = (out, w') → otps_step w w'.
Proof.
  intros (Hcust & _ & _ & _ & _ & Hotps) Hrun.
  destruct (ResetPasswordSerializer F data)
    as [errors|[[email code] new_password]] eqn:Hser.
  { unfold ResetPasswordAPIView_post in Hrun. rewrite Hser in Hrun.
    injection Hrun as <- <-. by apply otps_same. }
  destruct (OTP_selected (db w) email code) as [o|] eqn:Hsel.
  2: { unfold ResetPasswordAPIView_post in Hrun. rewrite Hser in Hrun.
       revert Hrun. unfold_monad. rewrite OTP_latest_run, Hsel.
       intros [= <- <-]. by apply otps_same. }
  destruct (decide (otp_is_used o = false ∧ time w < otp_expires_at o))
    as [[Hused Hlive]|Hinv].
  - destruct (ResetPassword_valid F data email code new_password w o
                Hcust Hser Hsel Hused Hlive)
      as (out0 & w0 & Hrun0 & Hmark & _).
    rewrite Hrun in Hrun0. injection Hrun0 as <- <-.
    destruct (OTP_selected_Some _ _ _ _ Hotps Hsel) as (Ho & _).
    by eapply otps_consumed.
  - assert (otp_is_used o = true ∨ otp_expires_at o ≤ time w) as Hinv'.
    { destruct (otp_is_used o); [by left|right].
      destruct (decide (time w < otp_expires_at o)); [|lia].
      destruct Hinv. done. }
    destruct (ResetPassword_invalid F data email code new_password w o
                Hser Hsel Hinv')
      as (r & w0 & Hrun0 & _ & _ & _ & Hdb).
    rewrite Hrun in Hrun0. injection Hrun0 as _ <-.
    apply otps_same. by rewrite Hdb.
Qed.

Lemma same_otps_step {A} (c : M A) (w w' : World) (out : Outcome A) :
  preserves (same (fun w => otps (db w))) c → c w = (out, w') → otps_step w w'.
Proof. intros Hc Hrun. apply otps_same. by eapply Hc. Qed.

Lemma dispatch_otps_step (F : Framework) (req : Request)
    (w w' : World) (out : Outcome Response) :
  db_wf (db w) → dispatch F req w = (out, w') → otps_step w w'.
Proof.
  intros Hwf Hrun. destruct req; simpl in Hrun.
  - eapply same_otps_step; [|exact Hrun]. apply Register_same_otps.
  - eapply same_otps_step; [|exact Hrun]. apply Billing_same_otps.
  - destruct (Delivery_cases F _ w w' out Hrun)
      as [(Ho & _)|(c & o & r & _ & _ & Hmint & _)];
      [by apply otps_same|by eapply minted_otps_step].
  - destruct (Trade_cases F _ _ w w' out Hrun)
      as [(Ho & _)|(c & o & r & _ & _ & Hmint & _)];
      [by apply otps_same|by eapply minted_otps_step].
  - by eapply VerifyEmail_otps_step.
  - destruct (Resend_cases F _ w w' out Hrun)
      as [(Hdb & _)|(email & c & o & r & _ & _ & _ & _ & Hmint & _)];
      [apply otps_same; by rewrite Hdb|by eapply minted_otps_step].
  - eapply same_otps_step; [|exact Hrun]. frame ltac:(done).
  - eapply same_otps_step; [|exact Hrun]. frame ltac:(done).
  - eapply same_otps_step; [|exact Hrun]. frame ltac:(done).
  - destruct (Forgot_cases F _ w w' out Hrun)
      as [(Hdb & _)|(email & c & o & r & _ & _ & _ & Hmint & _)];
      [apply otps_same; by rewrite Hdb|].
    destruct Hmint as (Hfresh & Hins & _ & Hu & _). by eapply otps_minted.
  - eapply same_otps_step; [|exact Hrun]. frame ltac:(done).
  - by eapply ResetPassword_otps_step.
  - eapply same_otps_step; [|exact Hrun]. frame ltac:(done).
  - eapply same_otps_step; [|exact Hrun]. frame ltac:(done).
  - eapply same_otps_step; [|exact Hrun]. frame ltac:(done).
Qed.

#[local] Instance ledger_kept_preorder : PreOrder ledger_kept.
Proof.
  split.
  - intros w k o Hk. by left.
  - intros w1 w2 w3 H12 H23 k o Hk.
    destruct (H12 k o Hk) as [Hk2|[Hu Hk2]].
    + apply (H23 k o Hk2).
    + destruct (H23 k _ Hk2) as [Hk3|[Hu3 _]]; [by right|done].
Qed.

Lemma otps_step_ledger_kept (w w' : World) : otps_step w w' → ledger_kept w w'.
Proof.
  intros [Hsame|o Hfresh Hu Hins|o Ho Hu Hlive Hins] k o0 Hk.
  - left. by rewrite Hsame.
  - left. rewrite Hins, lookup_insert_ne; [done|]. intros <-. congruence.
  - rewrite Hins. destruct (decide (otp_id o = k)) as [<-|Hne].
    + rewrite Ho in Hk. injection Hk as <-. right.
      by rewrite lookup_insert_eq.
    + left. by rewrite lookup_insert_ne.
Qed.

Lemma run_ledger_kept (F : Framework) (events : list Event) (w : World) :
  db_wf (db w) → ledger_kept w (run F w events).
Proof.
  revert w. induction events as [|e events IH]; intros w Hwf; [reflexivity|].
  simpl. etransitivity; [|apply IH; apply (run_wf F [e] w Hwf)].
  destruct e as [req|dt]; simpl; [|intros k o Hk; by left].
  destruct (dispatch F req w) as [out w'] eqn:Hrun.
  apply otps_step_ledger_kept. by eapply dispatch_otps_step.
Qed.

(** ** How a request changes the customer table *)

Lemma same_identity_refl (c : Customer) : same_identity c c.
Proof. by repeat split. Qed.

Lemma same_customers_step {A} (c : M A) (w w' : World) (out : Outcome A) :
  preserves (same (fun w => customers (db w))) c → c w = (out, w') →
  customers_step w w'.
Proof. intros Hc Hrun. apply customers_same. by eapply Hc. Qed.

Lemma Register_customers_step (F : Framework) (data : QueryDict)
    (w w' : World) (out : Outcome Response) :
  RegisterAPIView_post F data w = (out, w') → customers_step w w'.
Proof.
  unfold RegisterAPIView_post. unfold_monad.
  destruct (CustomerRegistrationSerializer F (customers (db w)) data)
    as [errors|attrs].
  { intros [= <- <-]. by apply customers_same. }
  unfold CustomerRegistrationSerializer_create, uuid4, draw. unfold_monad.
  case_bool_decide as Hblank.
  { intros [= <- <-]. by apply customers_same. }
  simpl. case_decide as Hfree.
  { intros [= <- <-]. by apply customers_same. }
  intros [= <- <-].
  eapply (customers_registered _ _ (entropy w (draws w) mod 2 ^ 128)%N);
    [| | | | | | |reflexivity]; try reflexivity.
  - destruct (customers (db w) !! _) eqn:E; [|done].
    destruct Hfree. left. eauto.
  - intros k0 c0 Hk0 He. simpl in He. destruct Hfree. right.
    intros Hnil.
    apply (proj1 (objects_filter_nil _ _) Hnil k0 c0 Hk0 He).
Qed.

Lemma VerifyEmail_customers_step (F : Framework) (data : QueryDict)
    (w w' : World) (out : Outcome Response) :
  db_wf (db w) →
  VerifyEmailAPIView_post F data w = (out, w') → customers_step w w'.
Proof.
  intros (Hcust & _ & _ & _ & _ & Hotps) Hrun.
  destruct (VerifyEmailSerializer F data) as [errors|[email code]] eqn:Hser.
  { unfold VerifyEmailAPIView_post in Hrun. rewrite Hser in Hrun.
    injection Hrun as <- <-. by apply customers_same. }
  destruct (OTP_selected (db w) email code) as [o|] eqn:Hsel.
  2: { unfold VerifyEmailAPIView_post in Hrun. rewrite Hser in Hrun.
       revert Hrun. unfold_monad. rewrite OTP_latest_run, Hsel.
       intros [= <- <-]. by apply customers_same. }
  destruct (decide (otp_is_used o = false ∧ time w < otp_expires_at o))
    as [[Hused Hlive]|Hinv].
  - destruct (VerifyEmail_valid F data email code w o Hcust Hser Hsel Hused Hlive)
      as (out0 & w0 & Hrun0 & _ & Hcases).
    rewrite Hrun in Hrun0. injection Hrun0 as <- <-.
    destruct Hcases as [(c & r & [Hc _] & _ & _ & _ & _ & Hset)
                       |[(r & _ & _ & _ & _ & _ & Hsame)|(_ & _ & Hsame)]];
      [|by apply customers_same..].
    eapply customers_rewritten; [exact Hc| |exact Hset]. by repeat split.
  - assert (otp_is_used o = true ∨ otp_expires_at o ≤ time w) as Hinv'.
    { destruct (otp_is_used o); [by left|right].
      destruct (decide (time w < otp_expires_at o)); [|lia].
      destruct Hinv. done. }
    destruct (VerifyEmail_invalid F data email code w o Hser Hsel Hinv')
      as (r & w0 & Hrun0 & _ & _ & _ & Hdb).
    rewrite Hrun in Hrun0. injection Hrun0 as _ <-.
    apply customers_same. by rewrite Hdb.
Qed.

Lemma ResetPassword_customers_step (F : Framework) (data : QueryDict)
    (w w' : World) (out : Outcome Response) :
  db_wf (db w) →
  ResetPasswordAPIView_post F data w = (out, w') → customers_step w w'.
Proof.
  intros (Hcust & _ & _ & _ & _ & Hotps) Hrun.
  destruct (ResetPasswordSerializer F data)
    as [errors|[[email code] new_password]] eqn:Hser.
  { unfold ResetPasswordAPIView_post in Hrun. rewrite Hser in Hrun.
    injection Hrun as <- <-. by apply customers_same. }
  destruct (OTP_selected (db w) email code) as [o|] eqn:Hsel.
  2: { unfold ResetPasswordAPIView_post in Hrun. rewrite Hser in Hrun.
       revert Hrun. unfold_monad. rewrite OTP_latest_run, Hsel.
       intros [= <- <-]. by apply customers_same. }
  destruct (decide (otp_is_used o = false ∧ time w < otp_expires_at o))
    as [[Hused Hlive]|Hinv].
  - destruct (ResetPassword_valid F data email code new_password w o
                Hcust Hser Hsel Hused Hlive)
      as (out0 & w0 & Hrun0 & _ & Hcases).
    rewrite Hrun in Hrun0. injection Hrun0 as <- <-.
    destruct Hcases as [(c & r & [Hc _] & _ & _ & _ & _ & Hset)
                       |[(r & _ & _ & _ & _ & _ & Hsame)|(_ & _ & Hsame)]];
      [|by apply customers_same..].
    eapply customers_rewritten; [exact Hc| |exact Hset]. by repeat split.
  - assert (otp_is_used o = true ∨ otp_expires_at o ≤ time w) as Hinv'.
    { destruct (otp_is_used o); [by left|right].
      destruct (decide (time w < otp_expires_at o)); [|lia].
      destruct Hinv. done. }
    destruct (ResetPassword_invalid F data email code new_password w o
                Hser Hsel Hinv')
      as (r & w0 & Hrun0 & _ & _ & _ & Hdb).
    rewrite Hrun in Hrun0. injection Hrun0 as _ <-.
    apply customers_same. by rewrite Hdb.
Qed.

Lemma ChangePassword_customers_step (F : Framework) (user : Customer)
    (data : QueryDict) (w w' : World) (out : Outcome Response) :
  customers (db w) !! customer_id user = Some user →
  ChangePasswordAPIView_post F user data w = (out, w') →
  customers_step w w'.
Proof.
  intros Huser. unfold ChangePasswordAPIView_post.
  destruct (ChangePasswordSerializer F user data) as [errors|new_password].
  - intros [= <- <-]. by apply customers_same.
  - unfold Customer_set_password, Customer_save, draw. unfold_monad. simpl.
    intros [= <- <-].
    eapply customers_rewritten; [exact Huser| |reflexivity]. by repeat split.
Qed.

Lemma ProfileUpdate_customers_step (F : Framework) (user : Customer)
    (patch : ProfilePatch) (w w' : World) (out : Outcome Response) :
  customers (db w) !! customer_id user = Some user →
  ProfileUpdateAPIView_patch F user patch w = (out, w') →
  ∃ attrs,
    customers_step w w'
    ∧ (customers (db w') = customers (db w)
       ∨ customers (db w')
         = <[customer_id user :=
               set_customer_updated_at (time w) (Customer_setattrs attrs user)]>
             (customers (db w))).
Proof.
  intros Huser. unfold ProfileUpdateAPIView_patch.
  destruct (CustomerProfileUpdateSerializer F (patch_data patch)) as [errors|attrs].
  { intros [= <- <-].
    exists {| attr_profile_first_name := None; attr_profile_last_name := None;
              attr_profile_phone_number := None |}.
    split; [by apply customers_same|by left]. }
  intros Hrun. exists attrs.
  assert (∀ w1 out1,
            CustomerProfileUpdateSerializer_update F user attrs patch w
            = (out1, w1) →
            customers (db w1)
            = <[customer_id user :=
                  set_customer_updated_at (time w) (Customer_setattrs attrs user)]>
                (customers (db w))) as Hupd.
  { intros w1 out1 Hupdate.
    unfold CustomerProfileUpdateSerializer_update in Hupdate.
    apply bind_inv in Hupdate as [(inst & w0 & Hsave & Hrest)|(e' & Hsave & _)];
      [|unfold Customer_save in Hsave; unfold_monad; discriminate Hsave].
    assert (inst = set_customer_updated_at (time w) (Customer_setattrs attrs user)
            ∧ customers (db w0)
              = <[customer_id user :=
                    set_customer_updated_at (time w) (Customer_setattrs attrs user)]>
                  (customers (db w))) as [-> Hw0].
    { revert Hsave. unfold Customer_save. unfold_monad. simpl.
      by intros [= <- <-]. }
    apply (update_rest_same_customers F _ patch) in Hrest.
    unfold same in Hrest. by rewrite Hrest. }
  assert (customers (db w')
          = <[customer_id user :=
                set_customer_updated_at (time w) (Customer_setattrs attrs user)]>
              (customers (db w))) as Hfinal.
  { apply bind_inv in Hrun as [(user' & w1 & Hupdate & Hrun)|(e & Hupdate & ->)].
    - rewrite <- (Hupd w1 _ Hupdate).
      revert Hrun.
      assert (preserves (same (fun w => customers (db w)))
                (profile ← CustomerProfileSerializer_data user';
                 CustomResponse_success (Some profile)
                   "Profile updated successfully" HTTP_200_OK)) as Htail
        by (frame ltac:(done)).
      intros Hrun. by apply Htail in Hrun.
    - by apply (Hupd w' _ Hupdate). }
  split; [|by right].
  eapply customers_rewritten; [exact Huser| |exact Hfinal]. by repeat split.
Qed.

Lemma dispatch_customers_step (F : Framework) (req : Request)
    (w w' : World) (out : Outcome Response) :
  db_wf (db w) → dispatch F req w = (out, w') → customers_step w w'.
Proof.
  intros Hwf Hrun.
  assert (keyed customer_id (customers (db w))) as Hcust by apply Hwf.
  destruct req; simpl in Hrun.
  - by eapply Register_customers_step.
  - eapply same_customers_step; [|exact Hrun]. frame ltac:(done).
  - eapply same_customers_step; [|exact Hrun]. frame ltac:(done).
  - eapply same_customers_step; [|exact Hrun]. frame ltac:(done).
  - by eapply VerifyEmail_customers_step.
  - eapply same_customers_step; [|exact Hrun]. frame ltac:(done).
  - eapply same_customers_step; [|exact Hrun]. frame ltac:(done).
  - eapply same_customers_step; [|exact Hrun]. frame ltac:(done).
  - eapply same_customers_step; [|exact Hrun]. frame ltac:(done).
  - eapply same_customers_step; [|exact Hrun]. frame ltac:(done).
  - eapply same_customers_step; [|exact Hrun]. frame ltac:(done).
  - by eapply ResetPassword_customers_step.
  - unfold authenticated in Hrun. revert Hrun. unfold_monad.
    destruct (customers (db w) !! user_id) as [user|] eqn:Huser.
    + rewrite <- (Hcust _ _ Huser) in Huser.
      intros Hrun. by eapply ChangePassword_customers_step.
    + intros [= <- <-]. by apply customers_same.
  - eapply same_customers_step; [|exact Hrun]. frame ltac:(done).
  - unfold authenticated in Hrun. revert Hrun. unfold_monad.
    destruct (customers (db w) !! user_id) as [user|] eqn:Huser.
    + rewrite <- (Hcust _ _ Huser) in Huser.
      intros Hrun.
      by destruct (ProfileUpdate_customers_step F user patch w w' out Huser Hrun)
        as (attrs & Hstep & _).
    + intros [= <- <-]. by apply customers_same.
Qed.

Lemma customers_step_unique_emails (w w' : World) :
  customers_step w w' → unique_emails (db w) → unique_emails (db w').
Proof.
  intros [Hsame|k c c' Hk Hid Hins|k c' Hfree Hnew _ _ _ _ _ Hins] Huniq.
  - unfold unique_emails. by rewrite Hsame.
  - destruct Hid as (_ & He & _).
    assert (∀ k1 c1, customers (db w') !! k1 = Some c1 →
              ∃ c0, customers (db w) !! k1 = Some c0
                    ∧ customer_email c0 = customer_email c1) as Hback.
    { intros k1 c1 Hk1. rewrite Hins in Hk1.
      apply lookup_insert_Some in Hk1 as [[<- <-]|[_ Hk1]]; eauto. }
    intros k1 k2 c1 c2 Hk1 Hk2 Heq.
    destruct (Hback k1 c1 Hk1) as (d1 & Hd1 & He1).
    destruct (Hback k2 c2 Hk2) as (d2 & Hd2 & He2).
    apply (Huniq k1 k2 d1 d2 Hd1 Hd2). congruence.
  - intros k1 k2 c1 c2 Hk1 Hk2 Heq. rewrite Hins in Hk1, Hk2.
    apply lookup_insert_Some in Hk1 as [[<- <-]|[Hne1 Hk1]];
      apply lookup_insert_Some in Hk2 as [[<- <-]|[Hne2 Hk2]].
    + done.
    + by destruct (Hnew k2 c2 Hk2).
    + by destruct (Hnew k1 c1 Hk1).
    + by apply (Huniq k1 k2 c1 c2).
Qed.

#[local] Instance identity_kept_preorder : PreOrder identity_kept.
Proof.
  split.
  - intros w k c Hk. exists c. split; [done|apply same_identity_refl].
  - intros w1 w2 w3 H12 H23 k c Hk.
    destruct (H12 k c Hk) as (c2 & Hk2 & Hid2).
    destruct (H23 k c2 Hk2) as (c3 & Hk3 & Hid3).
    exists c3. split; [done|].
    destruct Hid2 as (?&?&?&?&?&?&?), Hid3 as (?&?&?&?&?&?&?).
    repeat split; congruence.
Qed.

Lemma customers_step_identity_kept (w w' : World) :
  customers_step w w' → identity_kept w w'.
Proof.
  intros [Hsame|k c c' Hk Hid Hins|k c' Hfree _ _ _ _ _ _ Hins] k0 c0 Hk0.
  - exists c0. rewrite Hsame. split; [done|apply same_identity_refl].
  - rewrite Hins. destruct (decide (k = k0)) as [<-|Hne].
    + rewrite Hk in Hk0. injection Hk0 as <-.
      exists c'. by rewrite lookup_insert_eq.
    + exists c0. rewrite lookup_insert_ne by done.
      split; [done|apply same_identity_refl].
  - exists c0. rewrite Hins, lookup_insert_ne; [|intros <-; congruence].
    split; [done|apply same_identity_refl].
Qed.

(** X1. The OTP table changes by at most one row per request: a request of
    the public routes leaves the table as it was, or inserts one unused row
    under a key that was free, or marks used one row that was unused and
    not expired when the request began. *)
Theorem X1_request_touches_one_otp (F : Framework) (req : Request)
    (w w' : World) (out : Outcome Response) :
  db_wf (db w) → dispatch F req w = (out, w') → otps_step w w'.
Proof. apply dispatch_otps_step. Qed.

(** X2. The OTP table is an append-only ledger along every run: a row stays
    under its key, as it was or with [is_used] gone from false to true and
    nothing else changed; in particular a used row is never altered and no
    expiry is ever moved. *)
Theorem X2_otp_ledger_append_only (F : Framework) (events : list Event)
    (w : World) (k : uuid) (o : OTP) :
  db_wf (db w) → otps (db w) !! k = Some o →
  (otps (db (run F w events)) !! k = Some o
   ∨ (otp_is_used o = false
      ∧ otps (db (run F w events)) !! k = Some (set_is_used true o)))
  ∧ (otp_is_used o = true → otps (db (run F w events)) !! k = Some o)
  ∧ ∃ o', otps (db (run F w events)) !! k = Some o'
          ∧ otp_expires_at o' = otp_expires_at o
          ∧ otp_email o' = otp_email o ∧ otp_otp o' = otp_otp o.
Proof.
  intros Hwf Hk.
  pose proof (run_ledger_kept F events w Hwf k o Hk) as Hkept.
  split; [exact Hkept|]. split.
  - intros Hu. destruct Hkept as [?|[Hu' _]]; [done|congruence].
  - destruct Hkept as [?|[_ ?]]; eexists; (split; [eassumption|done]).
Qed.

(** X3. An OTP row that [is_valid()] rejects is rejected for ever: after
    any run of requests and waiting, the row under the same key is still
    one that [is_valid()] rejects. *)
Theorem X3_invalid_otp_stays_invalid (F : Framework) (events : list Event)
    (w : World) (k : uuid) (o : OTP) :
  db_wf (db w) → otps (db w) !! k = Some o →
  (OTP_is_valid o w).1 = Return false →
  ∃ o', otps (db (run F w events)) !! k = Some o'
        ∧ (OTP_is_valid o' (run F w events)).1 = Return false.
Proof.
  intros Hwf Hk Hinv%OTP_is_valid_false.
  pose proof (run_time_le F events w) as Htime. unfold time_le in Htime.
  destruct (run_ledger_kept F events w Hwf k o Hk) as [Hk'|[_ Hk']].
  - exists o. split; [done|]. apply OTP_is_valid_false.
    destruct Hinv; [by left|right; lia].
  - eexists. split; [done|]. apply OTP_is_valid_false. by left.
Qed.

Lemma selected_invalid (w : World) (email code : string) (o : OTP) :
  no_valid_match w email code →
  OTP_selected (db w) email code = Some o →
  otp_is_used o = true ∨ otp_expires_at o ≤ time w.
Proof.
  intros Hno [Hin _]%latest_row_Some.
  apply elem_of_objects_filter in Hin as [Hm [k Hk]]. by apply (Hno k o).
Qed.

(** X4. Without a valid matching row there is no success: when every OTP
    row that matches the validated email and code is used or expired (or
    none matches), verify-email, verify-reset-otp and reset-password all
    answer 400 and leave the database as it was: no row is consumed, no
    customer verified, no password changed. *)
Theorem X4_no_valid_code_no_effect (F : Framework)
    (data_verify data_reset : QueryDict) (email code new_password : string)
    (w : World) :
  VerifyEmailSerializer F data_verify = inr (email, code) →
  ResetPasswordSerializer F data_reset = inr (email, code, new_password) →
  no_valid_match w email code →
  refused (VerifyEmailAPIView_post F data_verify) w
  ∧ refused (VerifyResetOTPAPIView_post F data_verify) w
  ∧ refused (ResetPasswordAPIView_post F data_reset) w.
Proof.
  intros Hv Hr Hno. unfold refused.
  unfold VerifyEmailAPIView_post, VerifyResetOTPAPIView_post,
    VerifyResetOTPSerializer, ResetPasswordAPIView_post.
  rewrite Hv, Hr. unfold_monad. rewrite !OTP_latest_run.
  destruct (OTP_selected (db w) email code) as [o|] eqn:Hsel; simpl.
  - pose proof (selected_invalid w email code o Hno Hsel) as Hinv.
    rewrite !OTP_is_valid_run. destruct (otp_is_used o); simpl.
    + repeat split; eexists _, _; repeat split; reflexivity.
    + destruct Hinv as [?|Hexp]; [done|].
      rewrite bool_decide_eq_false_2 by lia. simpl.
      repeat split; eexists _, _; repeat split; reflexivity.
  - repeat split; eexists _, _; repeat split; reflexivity.
Qed.

(** X5. The customer table changes by at most one row per request: a
    request leaves it as it was, or rewrites one row keeping its primary
    key, email, customer type, active, staff and superuser flags and creation
    time, or inserts one row under a free key, for an email no row has, that
    is not verified, active and neither staff nor superuser. *)
Theorem X5_request_touches_one_customer (F : Framework) (req : Request)
    (w w' : World) (out : Outcome Response) :
  db_wf (db w) → dispatch F req w = (out, w') → customers_step w w'.
Proof. apply dispatch_customers_step. Qed.

(** X6. Along every run, no customer is deleted and no request changes a
    customer's primary key, email, customer type, active flag, staff or
    superuser flag, or creation time. *)
Theorem X6_customer_identity_is_kept (F : Framework) (events : list Event)
    (w : World) (k : uuid) (c : Customer) :
  db_wf (db w) → customers (db w) !! k = Some c →
  ∃ c', customers (db (run F w events)) !! k = Some c' ∧ same_identity c c'.
Proof.
  revert w c. induction events as [|e events IH]; intros w c Hwf Hk.
  { exists c. split; [done|apply same_identity_refl]. }
  simpl.
  assert (identity_kept w (step F w e)) as Hstep.
  { destruct e as [req|dt]; simpl.
    - destruct (dispatch F req w) as [out w'] eqn:Hrun.
      apply customers_step_identity_kept. by eapply dispatch_customers_step.
    - intros k0 c0 Hk0. exists c0. split; [done|apply same_identity_refl]. }
  destruct (Hstep k c Hk) as (c1 & Hk1 & Hid1).
  destruct (IH (step F w e) c1 (run_wf F [e] w Hwf) Hk1) as (c2 & Hk2 & Hid2).
  exists c2. split; [done|].
  destruct Hid1 as (?&?&?&?&?&?&?), Hid2 as (?&?&?&?&?&?&?).
  repeat split; congruence.
Qed.

(** X7. Emails stay unique: when no two customer rows have the same email,
    this is still so after any run of requests. *)
Theorem X7_emails_stay_unique (F : Framework) (events : list Event) (w : World) :
  db_wf (db w) → unique_emails (db w) →
  unique_emails (db (run F w events)).
Proof.
  revert w. induction events as [|e events IH]; intros w Hwf Huniq; [done|].
  simpl. apply IH; [apply (run_wf F [e] w Hwf)|].
  destruct e as [req|dt]; simpl; [|done].
  destruct (dispatch F req w) as [out w'] eqn:Hrun.
  eapply customers_step_unique_emails; [|done].
  by eapply dispatch_customers_step.
Qed.

(** ** Codes *)

Lemma random_choices_spec (population : list ascii) (k : nat) (w : World) :
  population ≠ [] →
  ∃ cs w1, random_choices population k w = (Return cs, w1)
    ∧ length cs = k ∧ Forall (fun c => c ∈ population) cs
    ∧ db w1 = db w ∧ time w1 = time w ∧ clock_reads w1 = clock_reads w
    ∧ mail_log w1 = mail_log w ∧ blacklist w1 = blacklist w
    ∧ draws w1 = (draws w + k)%nat.
Proof.
  intros Hne. revert w. induction k as [|k IH]; intros w.
  - exists [], w. simpl. repeat split; [constructor|lia].
  - simpl. unfold mbind, M_bind, bind, draw.
    match goal with
    | |- context [random_choices population k ?w0] =>
        destruct (IH w0)
          as (cs & w1 & -> & Hlen & Hall & Hdb & Ht & Hc & Hm & Hb & Hd)
    end.
    eexists _, _. split; [reflexivity|]. simpl in *.
    split; [by rewrite Hlen|].
    split; [|repeat split; try done; lia].
    constructor; [|done].
    apply list_elem_of_In, nth_In.
    assert (0 < length population)%nat as Hpos
      by (destruct population; [done|simpl; lia]).
    assert (entropy w (draws w) mod N.of_nat (length population)
            < N.of_nat (length population))%N as Hlt
      by (apply N.mod_lt; lia).
    lia.
Qed.

(** X8. [OTP.generate_otp()] never fails and returns exactly eight
    characters, each a decimal digit; it takes eight draws of randomness and
    touches neither the database, the clock nor the mail. *)
Theorem X8_generate_otp_eight_digits (w : World) :
  ∃ code w', OTP_generate_otp w = (Return code, w')
    ∧ String.length code = 8%nat
    ∧ Forall (fun c => is_digit c = true) (String.list_ascii_of_string code)
    ∧ db w' = db w ∧ time w' = time w ∧ mail_log w' = mail_log w
    ∧ draws w' = (draws w + 8)%nat.
Proof.
  destruct (random_choices_spec string_digits 8 w)
    as (cs & w1 & Hrun & Hlen & Hall & Hdb & Ht & _ & Hm & _ & Hd); [done|].
  exists (String.string_of_list_ascii cs), w1.
  unfold OTP_generate_otp, mbind, M_bind, bind. rewrite Hrun.
  split; [reflexivity|].
  rewrite String.list_ascii_of_string_of_list_ascii.
  split.
  { rewrite <- Hlen. clear. induction cs as [|c cs IH]; simpl; congruence. }
  clear Hrun Hlen.
  split; [|repeat split; assumption].
  clear Hdb Ht Hm Hd.
  eapply Forall_impl; [exact Hall|]. clear Hall. intros c Hc.
  unfold string_digits in Hc. simpl in Hc.
  repeat (apply elem_of_cons in Hc as [->|Hc]; [reflexivity|]).
  apply elem_of_nil in Hc. destruct Hc.
Qed.

(** ** Registration, step by step *)

Lemma Register_run (F : Framework) (data_register : QueryDict)
    (w w' : World) (out : Outcome Response) :
  RegisterAPIView_post F data_register w = (out, w') →
  otps (db w') = otps (db w)
  ∧ billing_addresses (db w') = billing_addresses (db w)
  ∧ delivery_addresses (db w') = delivery_addresses (db w)
  ∧ trade_information (db w') = trade_information (db w)
  ∧ trade_documents (db w') = trade_documents (db w)
  ∧ mail_log w' = mail_log w
  ∧ match out with
    | Return r =>
        if success r then
          ∃ attrs c salt,
            CustomerRegistrationSerializer F (customers (db w)) data_register
            = inr attrs
            ∧ statusCode r = HTTP_201_CREATED
            ∧ data r = DRegistered (customer_id c) (customer_email c)
                         (CustomerType_value (customer_type c))
            ∧ customers (db w) !! customer_id c = None
            ∧ customers (db w') = <[customer_id c := c]> (customers (db w))
            ∧ customer_email c = normalize_email F (attr_email attrs)
            ∧ password c = make_password F (attr_password attrs) salt
            ∧ is_verified c = false ∧ is_active c = true
            ∧ is_staff c = false ∧ is_superuser c = false
        else
          statusCode r = HTTP_400_BAD_REQUEST
          ∧ message r = "Registration failed" ∧ db w' = db w
          ∧ ∃ errors,
              CustomerRegistrationSerializer F (customers (db w)) data_register
              = inl errors
    | Raise e =>
        (e = IntegrityError CustomerModel
         ∨ ∃ attrs,
             CustomerRegistrationSerializer F (customers (db w)) data_register
             = inr attrs
             ∧ attr_email attrs = ""
             ∧ e = ValueError "The Email field must be set")
        ∧ db w' = db w
    end.
Proof.
  unfold RegisterAPIView_post. unfold_monad.
  destruct (CustomerRegistrationSerializer F (customers (db w)) data_register)
    as [errors|attrs] eqn:Hser.
  { intros [= <- <-]. simpl. split_and!; eauto. }
  unfold CustomerRegistrationSerializer_create, uuid4, draw. unfold_monad.
  case_bool_decide as Hblank.
  { intros [= <- <-]. simpl. split_and!; try reflexivity. right. eauto. }
  simpl.
  destruct (decide _) as [Hdup|Hfree]; simpl.
  { intros [= <- <-]. simpl. split_and!; try reflexivity. by left. }
  intros [= <- <-]. simpl. split_and!; try reflexivity.
  lazymatch goal with
  | |- context [<[_ := ?c]> _] => exists attrs, c, (entropy w (S (draws w)))
  end.
  simpl. split_and!; try reflexivity.
  destruct (customers (db w) !! (entropy w (draws w) mod 2 ^ 128)%N) eqn:Hk;
    [|done].
  destruct Hfree. left. eauto.
Qed.

Lemma registration_email_field (F : Framework) (table : gmap uuid Customer)
    (data_register : QueryDict) (attrs : RegistrationAttrs) :
  CustomerRegistrationSerializer F table data_register = inr attrs →
  ∃ s, EmailField F s = inr (attr_email attrs).
Proof.
  unfold CustomerRegistrationSerializer.
  destruct (required_field (unique_email_field F table)
              (data_register !! "email")) as [msgs|email] eqn:Hemail;
    [done|].
  intros Hattrs.
  assert (attr_email attrs = email) as ->.
  { repeat case_match; try discriminate Hattrs.
    by injection Hattrs as <-. }
  clear Hattrs. revert Hemail.
  unfold required_field, run_validation, unique_email_field.
  destruct (data_register !! "email") as [[s|]|]; [|done..].
  destruct (EmailField F s) as [|v] eqn:Hfield; [done|].
  case_bool_decide; [done|]. destruct (decide _); [done|].
  intros [= <-]. eauto.
Qed.

(** X9. What [RegisterAPIView.post] can do, for a framework whose
    [EmailField] accepts no blank value (as that of rest_framework does, so
    that the check of an empty email in [create_user] never fires): it
    never touches the addresses,
    the trade information, the OTP table or the mail.  When it answers a
    success, the data validated, the answer is a 201 carrying the new
    customer's id, email and type, and the customer table has grown by exactly
    this row, under a key that was free: email normalised, password hashed,
    not verified, active, neither staff nor superuser.  When it answers an
    error, it is the 400 "Registration failed" and the database is as it
    was; when it raises, it is the unique constraint of the customer table
    and nothing was written. *)
Theorem X9_register_outcome (F : Framework) (data_register : QueryDict)
    (w w' : World) (out : Outcome Response) :
  (∀ s v, EmailField F s = inr v → v ≠ "") →
  RegisterAPIView_post F data_register w = (out, w') →
  otps (db w') = otps (db w)
  ∧ billing_addresses (db w') = billing_addresses (db w)
  ∧ delivery_addresses (db w') = delivery_addresses (db w)
  ∧ trade_information (db w') = trade_information (db w)
  ∧ trade_documents (db w') = trade_documents (db w)
  ∧ mail_log w' = mail_log w
  ∧ match out with
    | Return r =>
        if success r then
          ∃ attrs c salt,
            CustomerRegistrationSerializer F (customers (db w)) data_register
            = inr attrs
            ∧ statusCode r = HTTP_201_CREATED
            ∧ data r = DRegistered (customer_id c) (customer_email c)
                         (CustomerType_value (customer_type c))
            ∧ customers (db w) !! customer_id c = None
            ∧ customers (db w') = <[customer_id c := c]> (customers (db w))
            ∧ customer_email c = normalize_email F (attr_email attrs)
            ∧ password c = make_password F (attr_password attrs) salt
            ∧ is_verified c = false ∧ is_active c = true
            ∧ is_staff c = false ∧ is_superuser c = false
        else
          statusCode r = HTTP_400_BAD_REQUEST
          ∧ message r = "Registration failed" ∧ db w' = db w
          ∧ ∃ errors,
              CustomerRegistrationSerializer F (customers (db w)) data_register
              = inl errors
    | Raise e => e = IntegrityError CustomerModel ∧ db w' = db w
    end.
Proof.
  intros Hblank Hrun.
  destruct (Register_run F data_register w w' out Hrun)
    as (Ho & Hb & Hd & Ht & Hdoc & Hm & Hout).
  split_and!; try done.
  destruct out as [r|e]; [exact Hout|].
  destruct Hout as [[->|(attrs & Hser & Hempty & _)] Hdb]; [done|].
  destruct (registration_email_field F _ _ attrs Hser) as [s Hs].
  by destruct (Hblank s _ Hs).
Qed.

Lemma Register_inl_rejects (F : Framework) (data_register : QueryDict)
    (w : World) (errors : Errors) :
  CustomerRegistrationSerializer F (customers (db w)) data_register = inl errors →
  rejects (RegisterAPIView_post F data_register) w HTTP_400_BAD_REQUEST
    "Registration failed".
Proof.
  intros Hser. unfold rejects, RegisterAPIView_post. unfold_monad.
  rewrite Hser. eexists _, _. split; [reflexivity|]. repeat split.
Qed.

(** X10. Registering an email that a customer already has is refused: when
    the [email] key validates to the email of a stored customer,
    [RegisterAPIView.post] answers 400 "Registration failed" and writes
    nothing, whatever the other fields are. *)
Theorem X10_register_refuses_taken_email (F : Framework)
    (data_register : QueryDict) (s : string) (k : uuid) (c : Customer)
    (w : World) :
  data_register !! "email" = Some (Some s) →
  EmailField F s = inr (customer_email c) →
  customers (db w) !! k = Some c →
  rejects (RegisterAPIView_post F data_register) w HTTP_400_BAD_REQUEST
    "Registration failed".
Proof.
  intros Hdata Hfield Hk.
  assert (∃ msgs, required_field (unique_email_field F (customers (db w)))
                    (data_register !! "email") = inl msgs) as [msgs Hemail].
  { rewrite Hdata. unfold required_field, run_validation, unique_email_field.
    rewrite Hfield. case_bool_decide; [eauto|].
    destruct (decide _) as [_|Hnil]; [eauto|].
    exfalso. apply Hnil. intros Hempty.
    by apply (proj1 (objects_filter_nil _ _) Hempty k c Hk). }
  assert (∃ errors,
            CustomerRegistrationSerializer F (customers (db w)) data_register
            = inl errors) as [errors Hser].
  { unfold CustomerRegistrationSerializer. rewrite Hemail. eauto. }
  by eapply Register_inl_rejects.
Qed.

(** X11. Registration needs both passwords to agree and to pass the
    password validators: when the [password] and [confirm_password] keys
    validate to different strings, or to a password that
    [validate_password] objects to, [RegisterAPIView.post] answers 400
    "Registration failed" and writes nothing. *)
Theorem X11_register_checks_password (F : Framework)
    (data_register : QueryDict) (p q p' q' : string) (w : World) :
  data_register !! "password" = Some (Some p) →
  data_register !! "confirm_password" = Some (Some q) →
  CharField F None false p = inr p' →
  CharField F None false q = inr q' →
  p' ≠ q' ∨ validate_password F p' ≠ [] →
  rejects (RegisterAPIView_post F data_register) w HTTP_400_BAD_REQUEST
    "Registration failed".
Proof.
  intros Hp Hq Hp' Hq' Hbad.
  assert (∃ errors,
            CustomerRegistrationSerializer F (customers (db w)) data_register
            = inl errors) as [errors Hser]; [|by eapply Register_inl_rejects].
  assert (required_field (CharField F None false) (Some (Some p)) = inr p')
    as Hrp by (unfold required_field, run_validation; by rewrite Hp').
  assert (required_field (CharField F None false) (Some (Some q)) = inr q')
    as Hrq by (unfold required_field, run_validation; by rewrite Hq').
  unfold CustomerRegistrationSerializer. rewrite Hp, Hq, Hrp, Hrq.
  clear Hrp Hrq.
  destruct (required_field (unique_email_field F (customers (db w))) _)
    as [?|email]; [eauto|].
  destruct (_ ++ _)%list; [|eauto].
  unfold CustomerRegistrationSerializer_validate.
  destruct (decide (p' ≠ q')) as [|Heq]; [eauto|].
  destruct Hbad as [?|Hval]; [done|].
  destruct (validate_password F p'); [done|eauto].
Qed.

Lemma customer_of_request_missing (data : QueryDict) (w : World) :
  falsy (data !! "email") = true →
  ∃ r, customer_of_request data w = (Return (inl r), tick w)
       ∧ success r = false ∧ statusCode r = HTTP_400_BAD_REQUEST
       ∧ message r = "Email is required".
Proof.
  intros Hfalsy. unfold customer_of_request.
  destruct (data !! "email") as [[s|]|]; simpl in Hfalsy;
    [rewrite Hfalsy|..]; eexists; (split; [reflexivity|done]).
Qed.

Lemma customer_of_request_unknown (data : QueryDict) (email : string)
    (w : World) :
  data !! "email" = Some (Some email) → email ≠ "" →
  no_customer (db w) email →
  ∃ r, customer_of_request data w = (Return (inl r), tick w)
       ∧ success r = false ∧ statusCode r = HTTP_404_NOT_FOUND
       ∧ message r = "Customer not found. Please register first.".
Proof.
  intros Hdata Hne Hno. unfold customer_of_request. rewrite Hdata.
  rewrite bool_decide_eq_false_2 by done.
  unfold Customer_get. unfold_monad.
  rewrite (objects_get_none CustomerModel
             (fun c => customer_email c = email) (customers (db w)) w Hno).
  eexists. split; [reflexivity|done].
Qed.

Lemma steps_reject_intro (F : Framework) (data : QueryDict)
    (documents : option (list UploadedFile)) (w : World) (status : nat)
    (msg : string) :
  (∃ r, customer_of_request data w = (Return (inl r), tick w)
        ∧ success r = false ∧ statusCode r = status ∧ message r = msg) →
  steps_reject F data documents w status msg.
Proof.
  intros (r & Hrun & Hok & Hstatus & Hmsg).
  unfold steps_reject, rejects, BillingAddressRegisterAPIView_post,
    DeliveryAddressRegisterAPIView_post, TradeInformationRegisterAPIView_post.
  unfold mbind, M_bind, bind. rewrite Hrun.
  split_and!; exists r, (tick w); split_and!; done.
Qed.

(** X12. The three later steps of the registration need the [email] key:
    when it is absent, null or the empty string, the billing-address, the
    delivery-address and the trade-information step each answer 400
    "Email is required" and change nothing. *)
Theorem X12_steps_require_email (F : Framework) (data_step : QueryDict)
    (documents : option (list UploadedFile)) (w : World) :
  falsy (data_step !! "email") = true →
  steps_reject F data_step documents w HTTP_400_BAD_REQUEST "Email is required".
Proof.
  intros Hfalsy. by apply steps_reject_intro, customer_of_request_missing.
Qed.

(** X13. The three later steps of the registration need a registered
    customer: when no customer has the email of the request, each of them
    answers 404 "Customer not found. Please register first." and changes
    nothing: no address, no trade information, no OTP, no mail. *)
Theorem X13_steps_require_customer (F : Framework) (data_step : QueryDict)
    (documents : option (list UploadedFile)) (email : string) (w : World) :
  data_step !! "email" = Some (Some email) → email ≠ "" →
  no_customer (db w) email →
  steps_reject F data_step documents w HTTP_404_NOT_FOUND
    "Customer not found. Please register first.".
Proof.
  intros Hdata Hne Hno.
  by eapply steps_reject_intro, customer_of_request_unknown.
Qed.

(** X14. A successful billing-address step adds exactly one row: the
    request names a registered customer, its fields validate, the answer is
    a 201 carrying the new address, and the billing table has grown by this
    one row, owned by that customer, under a key that was free.  Nothing
    else changes: no customer, no delivery address, no trade information,
    no OTP, no mail.  The step asks neither whether the customer is
    verified nor whether a billing address is already on file. *)
Theorem X14_billing_adds_one_address (F : Framework) (data_billing : QueryDict)
    (w w' : World) (r : Response) :
  BillingAddressRegisterAPIView_post F data_billing w = (Return r, w') →
  success r = true →
  ∃ c attrs a,
    request_customer (db w) data_billing c
    ∧ AddressSerializer F false data_billing = inr attrs
    ∧ statusCode r = HTTP_201_CREATED ∧ data r = DAddress a
    ∧ address_user a = customer_id c
    ∧ a = Address_new (address_id a) c attrs (address_created_at a)
            (address_updated_at a)
    ∧ billing_addresses (db w) !! address_id a = None
    ∧ billing_addresses (db w') = <[address_id a := a]> (billing_addresses (db w))
    ∧ customers (db w') = customers (db w)
    ∧ delivery_addresses (db w') = delivery_addresses (db w)
    ∧ trade_information (db w') = trade_information (db w)
    ∧ trade_documents (db w') = trade_documents (db w)
    ∧ otps (db w') = otps (db w)
    ∧ mail_log w' = mail_log w.
Proof.
  intros Hrun Hok. unfold BillingAddressRegisterAPIView_post in Hrun.
  apply bind_inv in Hrun as [(found & w1 & Hfound & Hrun)|(e & _ & [=])].
  apply customer_of_request_inv in Hfound as (_ & _ & Hfound).
  destruct found as [r0|c].
  { injection Hrun as <- <-. congruence. }
  destruct Hfound as [-> Hc].
  destruct (AddressSerializer F false data_billing) as [errors|attrs] eqn:Hser.
  { injection Hrun as <- <-. discriminate Hok. }
  exists c, attrs.
  unfold Address_create, uuid4, draw in Hrun. unfold_monad. simpl in Hrun.
  destruct (decide _) as [|Hfree]; simpl in Hrun; [discriminate Hrun|].
  injection Hrun as <- <-. simpl.
  eexists. split_and!; try reflexivity; try done.
  simpl.
  destruct (billing_addresses (db w) !! (entropy w (draws w) mod 2 ^ 128)%N)
    eqn:Hk; [|done].
  destruct Hfree. eauto.
Qed.

(** ** New codes on request *)

Lemma Customer_get_the_customer (email : string) (c : Customer) (w : World) :
  keyed customer_id (customers (db w)) →
  the_customer (db w) c → customer_email c = email →
  Customer_get email w = (Return c, w).
Proof.
  intros Hkey [Hc Huniq] Hemail.
  destruct (Customer_get_cases email w Hkey)
    as [(c0 & Hget & [Hc0 _] & Hemail0)|[[_ Hno]|[_ Hmany]]].
  - rewrite Hget. by rewrite (Huniq _ c0 Hc0) by congruence.
  - by destruct (Hno _ c Hc).
  - by destruct (Hmany c (conj Hc Huniq)).
Qed.

Lemma Customer_get_no_customer (email : string) (w : World) :
  no_customer (db w) email →
  Customer_get email w = (Raise (DoesNotExist CustomerModel), w).
Proof.
  intros Hno. unfold Customer_get. unfold_monad.
  apply (objects_get_none CustomerModel
           (fun c => customer_email c = email) (customers (db w)) w Hno).
Qed.

(** X15. [ResendOTPAPIView.post], for data that validates to [email]: when
    no customer has this email it answers 404 "User not found", and when the
    customer with this email is verified it answers 400 "Email is already
    verified"; both change nothing and send nothing.  It answers a success
    only for a customer who is not verified, and then exactly one new OTP
    row for this email was made and one mail with its code sent to it, the
    customer table being as it was. *)
Theorem X15_resend_otp (F : Framework) (data_resend : QueryDict)
    (email : string) (w : World) :
  keyed customer_id (customers (db w)) →
  ResendOTPSerializer F data_resend = inr email →
  (no_customer (db w) email →
   rejects (ResendOTPAPIView_post F data_resend) w HTTP_404_NOT_FOUND
     "User not found")
  ∧ (∀ c, the_customer (db w) c → customer_email c = email →
          is_verified c = true →
          rejects (ResendOTPAPIView_post F data_resend) w HTTP_400_BAD_REQUEST
            "Email is already verified")
  ∧ (∀ r w', ResendOTPAPIView_post F data_resend w = (Return r, w') →
             success r = true →
             ∃ k c o, customers (db w) !! k = Some c
               ∧ customer_email c = email ∧ is_verified c = false
               ∧ minted_and_mailed w w' email o
               ∧ customers (db w') = customers (db w)
               ∧ statusCode r = HTTP_200_OK).
Proof.
  intros Hkey Hser. split_and!.
  - intros Hno. unfold rejects, ResendOTPAPIView_post. rewrite Hser.
    unfold try_except, mbind, M_bind, bind.
    rewrite (Customer_get_no_customer email w Hno).
    eexists _, _. split; [reflexivity|]. split_and!; reflexivity.
  - intros c Hc Hemail Hv. unfold rejects, ResendOTPAPIView_post. rewrite Hser.
    unfold try_except, mbind, M_bind, bind.
    rewrite (Customer_get_the_customer email c w Hkey Hc Hemail), Hv.
    eexists _, _. split; [reflexivity|]. split_and!; reflexivity.
  - intros r w' Hrun Hok.
    destruct (Resend_cases F data_resend w w' (Return r) Hrun)
      as [(_ & _ & Hfail)
         |(email0 & c & o & r0 & Hser0 & [k Hk] & He & Hv & Hmint & Hsame
           & [= <-] & _ & Hstatus)].
    + rewrite (Hfail r eq_refl) in Hok. discriminate Hok.
    + rewrite Hser in Hser0. injection Hser0 as <-.
      exists k, c, o. done.
Qed.

(** X16. [ForgotPasswordAPIView.post], for data that validates to [email]:
    when no customer has this email it answers 404 "User with this email
    does not exist" and changes nothing, so the answer tells whether an
    email is registered.  It answers a success only for a registered
    customer, verified or not, and then exactly one new OTP row for this
    email was made and one mail with its code sent to it, the customer table
    being as it was. *)
Theorem X16_forgot_password (F : Framework) (data_forgot : QueryDict)
    (email : string) (w : World) :
  ForgotPasswordSerializer F data_forgot = inr email →
  (no_customer (db w) email →
   rejects (ForgotPasswordAPIView_post F data_forgot) w HTTP_404_NOT_FOUND
     "User with this email does not exist")
  ∧ (∀ r w', ForgotPasswordAPIView_post F data_forgot w = (Return r, w') →
             success r = true →
             ∃ k c o, customers (db w) !! k = Some c
               ∧ customer_email c = email
               ∧ reset_code_mailed w w' email o
               ∧ customers (db w') = customers (db w)
               ∧ statusCode r = HTTP_200_OK).
Proof.
  intros Hser. split.
  - intros Hno. unfold rejects, ForgotPasswordAPIView_post. rewrite Hser.
    unfold try_except, mbind, M_bind, bind.
    rewrite (Customer_get_no_customer email w Hno).
    eexists _, _. split; [reflexivity|]. split_and!; reflexivity.
  - intros r w' Hrun Hok.
    destruct (Forgot_cases F data_forgot w w' (Return r) Hrun)
      as [(_ & _ & Hfail)
         |(email0 & c & o & r0 & Hser0 & [k Hk] & He & Hmint & Hsame
           & [= <-] & _ & Hstatus)].
    + rewrite (Hfail r eq_refl) in Hok. discriminate Hok.
    + rewrite Hser in Hser0. injection Hser0 as <-.
      exists k, c, o. done.
Qed.

(** ** Who stores a password *)










(** X18. What the two password serializers let through.  When
    [ChangePasswordSerializer] accepts, the [old_password] key validated to a
    string that [check_password] accepts against the hash of the user; when
    it or [ResetPasswordSerializer] accepts, the [new_password] and
    [confirm_password] keys validated to the same string, the one returned,
    and [validate_password] has no objection to it. *)
Theorem X18_password_serializers (F : Framework) (user : Customer)
    (data_change data_reset : QueryDict) :
  (∀ p, ChangePasswordSerializer F user data_change = inr p →
        (∃ old, required_field (CharField F None false)
                  (data_change !! "old_password") = inr old
                ∧ check_password F old (password user) = true)
        ∧ required_field (CharField F None false)
            (data_change !! "new_password") = inr p
        ∧ required_field (CharField F None false)
            (data_change !! "confirm_password") = inr p
        ∧ validate_password F p = [])
  ∧ (∀ email code p,
       ResetPasswordSerializer F data_reset = inr (email, code, p) →
       required_field (CharField F None false)
         (data_reset !! "new_password") = inr p
       ∧ required_field (CharField F None false)
           (data_reset !! "confirm_password") = inr p
       ∧ validate_password F p = []).
Proof.
  assert (∀ p q, validate_new_password F p q = inr tt →
                 p = q ∧ validate_password F p = []) as Hnew.
  { intros p q. unfold validate_new_password.
    destruct (decide (p ≠ q)) as [|Heq]; [done|].
    destruct (validate_password F p); [|done].
    intros _. split; [|done]. by destruct (decide (p = q)). }
  split.
  - intros p. unfold ChangePasswordSerializer.
    destruct (required_field (CharField F None false)
                (data_change !! "old_password")) as [?|old]; [done|].
    destruct (check_password F old (password user)) eqn:Hcheck; [|done].
    destruct (required_field (CharField F None false)
                (data_change !! "new_password")) as [?|p0]; [done|].
    destruct (required_field (CharField F None false)
                (data_change !! "confirm_password")) as [?|q0]; [done|].
    destruct (validate_new_password F p0 q0) as [?|[]] eqn:Hv; [done|].
    intros [= <-]. destruct (Hnew p0 q0 Hv) as [<- Hval].
    split_and!; eauto.
  - intros email code p. unfold ResetPasswordSerializer.
    destruct (required_field (EmailField F) _) as [?|email0]; [done|].
    destruct (required_field (CharField F (Some 8%nat) false) _)
      as [?|code0]; [done|].
    destruct (required_field (CharField F None false)
                (data_reset !! "new_password")) as [?|p0]; [done|].
    destruct (required_field (CharField F None false)
                (data_reset !! "confirm_password")) as [?|q0]; [done|].
    destruct (validate_new_password F p0 q0) as [?|[]] eqn:Hv; [done|].
    intros [= <- <- <-]. destruct (Hnew p0 q0 Hv) as [<- Hval].
    split_and!; eauto.
Qed.

(** ** Tokens *)

Lemma RefreshToken_init_run (F : Framework) (s : string) (w : World) :
  RefreshToken_init F s w =
  match decode_refresh F s with
  | None => (Raise TokenError, w)
  | Some t =>
      if bool_decide (token_exp t ≤ time w) then (Raise TokenError, tick w)
      else if bool_decide (token_jti t ∈ blacklist w) then
        (Raise TokenError, tick w)
      else (Return (stamped (time w) t), tick w)
  end.
Proof.
  unfold RefreshToken_init. destruct (decode_refresh F s) as [t|]; [|done].
  unfold is_blacklisted. unfold_monad. simpl.
  destruct (bool_decide (token_exp t ≤ time w)); [done|].
  change (blacklist (tick w)) with (blacklist w).
  by destruct (bool_decide (token_jti t ∈ blacklist w)).
Qed.

Lemma RefreshToken_init_usable (F : Framework) (s : string) (t : RefreshToken)
    (w : World) :
  usable_refresh F w s t →
  RefreshToken_init F s w = (Return (stamped (time w) t), tick w).
Proof.
  intros (Hdec & Hexp & Hbl). rewrite RefreshToken_init_run, Hdec.
  rewrite bool_decide_eq_false_2 by lia.
  by rewrite bool_decide_eq_false_2.
Qed.

Lemma RefreshToken_init_revoked (F : Framework) (s : string) (t : RefreshToken)
    (w : World) :
  decode_refresh F s = Some t → token_jti t ∈ blacklist w →
  ∃ w1, RefreshToken_init F s w = (Raise TokenError, w1)
        ∧ db w1 = db w ∧ mail_log w1 = mail_log w ∧ blacklist w1 = blacklist w.
Proof.
  intros Hdec Hbl. rewrite RefreshToken_init_run, Hdec.
  case_bool_decide; [by eexists|].
  rewrite bool_decide_eq_true_2 by done. by eexists.
Qed.

#[local] Instance blacklist_grows_preorder : PreOrder blacklist_grows.
Proof.
  split.
  - intros w. unfold blacklist_grows. set_solver.
  - intros w1 w2 w3. unfold blacklist_grows. set_solver.
Qed.

Ltac bl_side := unfold blacklist_grows; simpl; set_solver.

Lemma dispatch_blacklist_grows (F : Framework) (req : Request) :
  preserves blacklist_grows (dispatch F req).
Proof. destruct req; simpl; frame ltac:(bl_side). Qed.

Lemma run_blacklist_grows (F : Framework) (events : list Event) (w : World) :
  blacklist_grows w (run F w events).
Proof.
  revert w. induction events as [|e events IH]; intros w; [reflexivity|].
  simpl. transitivity (step F w e); [|apply IH].
  destruct e as [req|dt]; simpl.
  - destruct (dispatch F req w) as [out w'] eqn:Hrun.
    by apply (dispatch_blacklist_grows F req w out w').
  - unfold blacklist_grows. simpl. set_solver.
Qed.

(** X19. Token refresh reads and never writes: for data that validates,
    [RefreshTokenAPIView.post] always answers, changing neither the
    database, the blacklist nor the mail log.  The answer is a success
    exactly when the string decodes to a token that has not expired and is
    not blacklisted, and then it carries the access token of that token; in
    every other case it is 401 "Invalid or expired refresh token".  The
    refresh token itself is not replaced or revoked, so it can be used
    again. *)
Theorem X19_token_refresh (F : Framework) (data_refresh : QueryDict)
    (s : string) (w : World) :
  RefreshTokenSerializer F data_refresh = inr s →
  ∃ r w', RefreshTokenAPIView_post F data_refresh w = (Return r, w')
    ∧ db w' = db w ∧ blacklist w' = blacklist w ∧ mail_log w' = mail_log w
    ∧ (success r = true ↔ ∃ t, usable_refresh F w s t)
    ∧ (∀ t, usable_refresh F w s t →
            statusCode r = HTTP_200_OK
            ∧ data r = DAccess (str_access_token F (stamped (time w) t)))
    ∧ (success r = false →
       statusCode r = HTTP_401_UNAUTHORIZED
       ∧ message r = "Invalid or expired refresh token").
Proof.
  intros Hser. unfold RefreshTokenAPIView_post. rewrite Hser.
  unfold try_except, mbind, M_bind, bind. rewrite RefreshToken_init_run.
  unfold usable_refresh.
  destruct (decode_refresh F s) as [t|] eqn:Hdec.
  2: { eexists _, _. split; [reflexivity|]. simpl. split_and!; try done.
       - split; [done|]. by intros (t & ? & _).
       - by intros t (? & _). }
  case_bool_decide as Hexp.
  { eexists _, _. split; [reflexivity|]. simpl. split_and!; try done.
    - split; [done|]. intros (t' & [= <-] & ? & _). lia.
    - intros t' ([= <-] & ? & _). lia. }
  case_bool_decide as Hbl.
  { eexists _, _. split; [reflexivity|]. simpl. split_and!; try done.
    - split; [done|]. by intros (t' & [= <-] & _ & ?).
    - by intros t' ([= <-] & _ & ?). }
  eexists _, _. split; [reflexivity|]. simpl. split_and!; try done.
  - split; [|done]. intros _. exists t. split_and!; [done|lia|done].
  - by intros t' ([= <-] & _).
Qed.

(** X20. Logout revokes the refresh token for good.  When the [refresh] key
    holds a token that decodes, has not expired and is not blacklisted,
    [LogoutAPIView.post] answers 200 "Logout successful", leaves the database
    as it was and puts the token's identifier on the blacklist, whoever the
    authenticated user is.  From then on, after any run of requests and
    waiting, a token-refresh with this string answers 401 "Invalid or
    expired refresh token" and a second logout with it answers 400 "Invalid
    or expired token". *)
Theorem X20_logout_revokes (F : Framework) (user : Customer)
    (data_logout : QueryDict) (s : string) (t : RefreshToken) (w : World) :
  data_logout !! "refresh" = Some (Some s) → s ≠ "" →
  usable_refresh F w s t →
  ∃ r w', LogoutAPIView_post F user data_logout w = (Return r, w')
    ∧ success r = true ∧ statusCode r = HTTP_200_OK
    ∧ message r = "Logout successful"
    ∧ db w' = db w ∧ blacklist w' = {[token_jti t]} ∪ blacklist w
    ∧ ∀ events data_refresh user',
        RefreshTokenSerializer F data_refresh = inr s →
        rejects (RefreshTokenAPIView_post F data_refresh) (run F w' events)
          HTTP_401_UNAUTHORIZED "Invalid or expired refresh token"
        ∧ rejects (LogoutAPIView_post F user' data_logout) (run F w' events)
            HTTP_400_BAD_REQUEST "Invalid or expired token".
Proof.
  intros Hdata Hne Husable.
  pose proof Husable as (Hdec & _ & _).
  unfold LogoutAPIView_post at 1. rewrite Hdata.
  rewrite bool_decide_eq_false_2 by done.
  unfold try_except, mbind, M_bind, bind.
  rewrite (RefreshToken_init_usable F s t w Husable).
  eexists _, _. split; [reflexivity|]. simpl. split_and!; try done.
  intros events data_refresh user' Hser.
  match goal with |- context [run F ?w1 events] => set (w' := w1) end.
  assert (token_jti t ∈ blacklist (run F w' events)) as Hbl.
  { apply (run_blacklist_grows F events w'). simpl. set_solver. }
  destruct (RefreshToken_init_revoked F s t _ Hdec Hbl)
    as (w1 & Hinit & Hdb & Hmail & Hblack).
  split.
  - unfold rejects, RefreshTokenAPIView_post. rewrite Hser.
    unfold try_except, mbind, M_bind, bind. rewrite Hinit.
    eexists _, _. split; [reflexivity|]. simpl. split_and!; done.
  - unfold rejects, LogoutAPIView_post. rewrite Hdata.
    rewrite bool_decide_eq_false_2 by done.
    unfold try_except, mbind, M_bind, bind. rewrite Hinit.
    eexists _, _. split; [reflexivity|]. simpl. split_and!; done.
Qed.

(** X21. The lifetime of a login.  When [LoginAPIView.post] answers a
    success, the tokens in the answer are the access and refresh strings of
    one token, issued to the authenticated customer at the time of the
    request; it expires thirty days later when [remember_me] validated to
    true and after the configured refresh lifetime otherwise.  The
    identifier of the token was not outstanding and is recorded as
    outstanding by the request, in the table of the blacklist application;
    nothing is put on the blacklist and no mail is sent. *)
Theorem X21_login_lifetime (F : Framework) (data_login : QueryDict)
    (w w' : World) (r : Response) :
  LoginAPIView_post F data_login w = (Return r, w') → success r = true →
  ∃ email raw_password remember_me user token,
    LoginSerializer F data_login = inr (email, raw_password, remember_me)
    ∧ authenticate F (customers (db w)) email raw_password = Some user
    ∧ data r = DLogin (str_access_token F token) (str_refresh F token) user
    ∧ token_user_id token = customer_id user
    ∧ token_current_time token = time w
    ∧ token_exp token
      = time w + (if remember_me then timedelta_days 30
                  else REFRESH_TOKEN_LIFETIME F)
    ∧ (token_jti token ∉ outstanding w)
    ∧ outstanding w' = {[token_jti token]} ∪ outstanding w
    ∧ blacklist w' = blacklist w ∧ mail_log w' = mail_log w.
Proof.
  unfold LoginAPIView_post.
  destruct (LoginSerializer F data_login)
    as [errors|[[email raw_password] remember_me]] eqn:Hser.
  { intros [= <- <-] [=]. }
  unfold_monad.
  destruct (authenticate F (customers (db w)) email raw_password)
    as [user|] eqn:Hauth; [|intros [= <- <-] [=]].
  destruct (is_verified user); simpl; [|intros [= <- <-] [=]].
  destruct (is_active user); simpl; [|intros [= <- <-] [=]].
  unfold RefreshToken_for_user, OutstandingToken_create, draw. unfold_monad.
  simpl. destruct (decide _) as [|Hfresh]; [intros [=]|].
  intros [= <- <-] _. simpl.
  exists email, raw_password, remember_me, user.
  destruct remember_me; eexists; split_and!;
    first [eassumption|reflexivity].
Qed.

(** ** Documents and the profile *)

Lemma validate_document_acceptable (file : UploadedFile) :
  validate_document file = inr file ↔ acceptable_document file.
Proof.
  unfold validate_document, acceptable_document.
  destruct (decide (splitext_lower (file_name file) ∉ valid_extensions))
    as [Hext|Hext].
  { split; [done|]. by intros [? _]. }
  case_bool_decide as Hsize.
  { split; [done|]. intros [_ ?]. lia. }
  split; [|done]. intros _. split; [|lia].
  by destruct (decide (splitext_lower (file_name file) ∈ valid_extensions)).
Qed.

(** X22. The documents of a trade-information request are accepted all or
    none: [validate_documents] returns the list of files, unchanged, exactly
    when every file has one of the extensions .pdf, .jpg, .jpeg, .png (in
    any case) and is at most 10 MiB, which is when [validate_document]
    accepts every one of them; otherwise it returns the one message of the
    first file that fails. *)
Theorem X22_documents_all_or_none (files : list UploadedFile) :
  (validate_documents files = inr files ↔ Forall acceptable_document files)
  ∧ (Forall acceptable_document files
     ↔ Forall (fun file => validate_document file = inr file) files)
  ∧ (∀ accepted, validate_documents files = inr accepted → accepted = files)
  ∧ (∀ msgs, validate_documents files = inl msgs →
       ∃ before file after msg,
         files = (before ++ file :: after)%list
         ∧ Forall acceptable_document before ∧ ¬ acceptable_document file
         ∧ msgs = [msg]).
Proof.
  assert (∀ accepted, validate_documents files = inr accepted →
                      accepted = files ∧ Forall acceptable_document files)
    as Hinr.
  { induction files as [|file files IH]; intros accepted; simpl.
    { intros [= <-]. by split. }
    destruct (decide _) as [|Hext]; [done|].
    case_bool_decide as Hsize; [done|].
    destruct (validate_documents files) as [|rest]; [done|].
    intros [= <-]. destruct (IH rest eq_refl) as [-> Hall].
    split; [done|]. constructor; [|done]. split; [|lia].
    by destruct (decide (splitext_lower (file_name file) ∈ valid_extensions)). }
  assert (∀ msgs, validate_documents files = inl msgs →
            ∃ before file after msg,
              files = (before ++ file :: after)%list
              ∧ Forall acceptable_document before ∧ ¬ acceptable_document file
              ∧ msgs = [msg]) as Hinl.
  { clear Hinr. induction files as [|file files IH]; intros msgs; simpl; [done|].
    destruct (decide _) as [Hext|Hext].
    { intros [= <-]. exists [], file, files. eexists. split_and!; try done.
      by intros [? _]. }
    case_bool_decide as Hsize.
    { intros [= <-]. exists [], file, files. eexists. split_and!; try done.
      intros [_ ?]. lia. }
    destruct (validate_documents files) as [msgs0|rest]; [|done].
    intros [= <-].
    destruct (IH msgs0 eq_refl) as (before & bad & after & msg & -> & ? & ? & ->).
    exists (file :: before), bad, after, msg. split_and!; try done.
    constructor; [|done]. split; [|lia].
    by destruct (decide (splitext_lower (file_name file) ∈ valid_extensions)). }
  split_and!.
  - split; [by intros [_ ?]%Hinr|].
    intros Hall. destruct (validate_documents files) as [msgs|accepted] eqn:Hv.
    + destruct (Hinl msgs eq_refl) as (before & bad & after & msg & -> & _ & Hbad & _).
      apply Forall_app in Hall as [_ Hall]. by inversion Hall.
    + by destruct (Hinr accepted eq_refl) as [-> _].
  - split; intros Hall; (eapply Forall_impl; [exact Hall|]); intros file;
      apply validate_document_acceptable.
  - by intros accepted [? _]%Hinr.
  - exact Hinl.
Qed.

(** X23. Reading the profile writes nothing: [ProfileAPIView.get] leaves
    the database, the mail log and the blacklist as they were.  When it
    answers, the answer is a 200 carrying the user's row and exactly the
    billing and delivery addresses this user owns: an address is in the
    list if and only if it is a row of the table whose owner is the user. *)
Theorem X23_profile_is_read_only (user : Customer)
    (w w' : World) (out : Outcome Response) :
  ProfileAPIView_get user w = (out, w') →
  db w' = db w ∧ mail_log w' = mail_log w ∧ blacklist w' = blacklist w
  ∧ ∀ r, out = Return r →
      success r = true ∧ statusCode r = HTTP_200_OK
      ∧ ∃ billing delivery trade,
          data r = DProfile user billing delivery trade
          ∧ (∀ a, a ∈ billing ↔
                  address_user a = customer_id user
                  ∧ ∃ k, billing_addresses (db w) !! k = Some a)
          ∧ (∀ a, a ∈ delivery ↔
                  address_user a = customer_id user
                  ∧ ∃ k, delivery_addresses (db w) !! k = Some a).
Proof.
  intros Hrun.
  assert (db w' = db w ∧ mail_log w' = mail_log w ∧ blacklist w' = blacklist w)
    as (Hdb & Hmail & Hbl).
  { assert (preserves (same (fun w => (db w, mail_log w, blacklist w)))
              (ProfileAPIView_get user)) as Hframe
      by (frame ltac:(done)).
    pose proof (Hframe w out w' Hrun) as Heq. unfold same in Heq.
    by injection Heq as -> -> ->. }
  split_and!; try done.
  intros r ->. unfold ProfileAPIView_get in Hrun.
  apply bind_inv in Hrun as [(profile & w1 & Hprofile & Hrun)|(e & _ & [=])].
  apply CustomResponse_success_run in Hrun
    as (_ & r0 & [= <-] & Hok & Hstatus & _ & Hdata).
  split_and!; try done.
  unfold CustomerProfileSerializer_data in Hprofile.
  apply bind_inv in Hprofile as [(d & w0 & [= <- <-] & Hprofile)|(e & [=] & _)].
  apply bind_inv in Hprofile as [(trade & w2 & _ & [= <- _])|(e & _ & [=])].
  eexists _, _, trade. split; [exact Hdata|].
  split; intros a;
    apply (elem_of_objects_filter
             (fun a => address_user a = customer_id user)).
Qed.

(** ** Profile update: what the address lists do *)

Section AddressEntries.

Context (F : Framework) (m : Model) (table : DB -> gmap uuid Address)
  (set_table : (gmap uuid Address -> gmap uuid Address) -> DB -> DB)
  (Hlens : ∀ f d, table (set_table f d) = f (table d)).

Lemma entry_run_inv (user : Customer) (entry : AddressEntry) (w w' : World) :
  keyed address_id (table (db w)) →
  update_address_entry F m table set_table user entry w = (Return tt, w') →
  entry_effect F (customer_id user) entry (table (db w)) (table (db w'))
  ∧ keyed address_id (table (db w')).
Proof.
  intros Hkey Hrun.
  split; [|by destruct (entry_frame F m table set_table Hlens user entry
                          w (Return tt) w' Hrun Hkey)].
  unfold update_address_entry in Hrun. unfold entry_effect.
  destruct (entry_id entry) as [|raw|id].
  - destruct (AddressSerializer F false (entry_data entry))
      as [errors|attrs] eqn:Hser; [discriminate Hrun|].
    unfold Address_create, uuid4, draw in Hrun. unfold_monad. simpl in Hrun.
    case_decide as Hfree; [discriminate Hrun|].
    injection Hrun as <-. simpl. rewrite Hlens.
    eexists attrs, (Address_new _ user attrs _ _). simpl.
    split_and!; try reflexivity.
    + destruct (table (db w) !! (entropy w (draws w) mod 2 ^ 128)%N) eqn:Hk;
        [|done].
      destruct Hfree. eauto.
    + intros user0 Hid. eexists _, _. unfold Address_new. by rewrite Hid.
  - discriminate Hrun.
  - unfold try_except in Hrun. unfold_monad.
    destruct (objects_get_cases m address_id
                (fun a => address_id a = id ∧ address_user a = customer_id user)
                (table (db w)) w Hkey)
      as [(a & Hget & Ha & [Hid Hu] & _)|[[Hget Hnone]|Hget]];
      rewrite Hget in Hrun.
    + destruct (AddressSerializer F true (entry_data entry))
        as [errors|attrs] eqn:Hser; [discriminate Hrun|].
      unfold Address_update in Hrun. unfold_monad. simpl in Hrun.
      injection Hrun as <-. simpl. rewrite Hlens.
      rewrite <- Hid, Ha. rewrite decide_True by done. eauto.
    + destruct (decide (m = m)); [|done]. injection Hrun as <-.
      destruct (table (db w) !! id) as [a|] eqn:Ha; [|done].
      destruct (decide (address_user a = customer_id user)) as [Hu|]; [|done].
      destruct (Hnone id a Ha). split; [|done]. by apply Hkey in Ha.
    + discriminate Hrun.
Qed.

Lemma entries_run_inv (user : Customer) (entries : list AddressEntry)
    (w w' : World) :
  keyed address_id (table (db w)) →
  for_each (update_address_entry F m table set_table user) entries w
  = (Return tt, w') →
  entries_effect F (customer_id user) entries (table (db w)) (table (db w')).
Proof.
  revert w. induction entries as [|entry rest IH]; intros w Hkey Hrun.
  { injection Hrun as <-. reflexivity. }
  simpl in Hrun.
  apply bind_inv in Hrun as [([] & w1 & Hentry & Hrest)|(e & _ & [=])].
  destruct (entry_run_inv user entry w w1 Hkey Hentry) as [Heffect Hkey1].
  simpl. exists (table (db w1)). split; [exact Heffect|]. by apply IH.
Qed.

End AddressEntries.

Lemma ProfileUpdate_entries (F : Framework) (user : Customer)
    (patch : ProfilePatch) (w w' : World) (r : Response) :
  db_wf (db w) →
  ProfileUpdateAPIView_patch F user patch w = (Return r, w') →
  success r = true →
  entries_effect F (customer_id user)
    (default [] (patch_billing_addresses patch))
    (billing_addresses (db w)) (billing_addresses (db w'))
  ∧ entries_effect F (customer_id user)
      (default [] (patch_delivery_addresses patch))
      (delivery_addresses (db w)) (delivery_addresses (db w')).
Proof.
  intros (_ & Hbilling & Hdelivery & _) Hrun Hok.
  unfold ProfileUpdateAPIView_patch in Hrun.
  destruct (CustomerProfileUpdateSerializer F (patch_data patch))
    as [errors|attrs].
  { injection Hrun as <- <-. discriminate Hok. }
  apply bind_inv in Hrun as [(user' & w4 & Hupdate & Hrun)|(e & _ & [=])].
  assert (db w' = db w4) as ->.
  { assert (preserves (same db)
              (profile ← CustomerProfileSerializer_data user';
               CustomResponse_success (Some profile)
                 "Profile updated successfully" HTTP_200_OK)) as Hframe
      by (frame ltac:(done)).
    exact (Hframe w4 _ w' Hrun). }
  clear Hrun Hok r.
  unfold CustomerProfileUpdateSerializer_update in Hupdate.
  apply bind_inv in Hupdate as [(inst & w0 & Hsave & Hrun)|(e & _ & [=])].
  unfold Customer_save, mbind, M_bind, bind, mret, M_ret, ret, modify_db,
    timezone_now in Hsave.
  simpl in Hsave. injection Hsave as <- <-.
  match type of Hrun with
  | _ ?w0 = _ =>
      assert (billing_addresses (db w0) = billing_addresses (db w)) as Hb0
        by reflexivity;
      assert (delivery_addresses (db w0) = delivery_addresses (db w)) as Hd0
        by reflexivity;
      revert Hrun Hb0 Hd0; generalize w0
  end.
  intros w0 Hrun Hb0 Hd0. rewrite <- Hb0, <- Hd0.
  rewrite <- Hb0 in Hbilling. rewrite <- Hd0 in Hdelivery. clear Hb0 Hd0.
  apply bind_inv in Hrun as [([] & w1 & Hloop1 & Hrun)|(e & _ & [=])].
  apply bind_inv in Hrun as [([] & w2 & Hloop2 & Hrun)|(e & _ & [=])].
  apply bind_inv in Hrun as [([] & w3 & Htrade & [= _ <-])|(e & _ & [=])].
  set (inst := set_customer_updated_at (time w)
                 (Customer_setattrs attrs user)) in *.
  change (customer_id user) with (customer_id inst).
  assert (same (fun w => (billing_addresses (db w), delivery_addresses (db w)))
            w2 w3) as Hsame3.
  { assert (preserves
              (same (fun w => (billing_addresses (db w),
                               delivery_addresses (db w))))
              (match patch_trade_information patch with
               | Some (trade_information_data, documents_data) =>
                   update_trade_information F inst trade_information_data
                     documents_data
               | None => mret tt
               end)) as Hframe by (frame ltac:(done)).
    exact (Hframe w2 _ w3 Htrade). }
  unfold same in Hsame3. injection Hsame3 as -> ->.
  assert (entries_effect F (customer_id inst)
            (default [] (patch_billing_addresses patch))
            (billing_addresses (db w0)) (billing_addresses (db w1))
          ∧ delivery_addresses (db w1) = delivery_addresses (db w0))
    as [Heffect1 Hd1].
  { destruct (patch_billing_addresses patch) as [entries|]; simpl.
    - split.
      + by apply (entries_run_inv F BillingAddressModel billing_addresses
                    set_billing_addresses) in Hloop1.
      + assert (preserves (same (fun w => delivery_addresses (db w)))
                  (for_each (update_address_entry F BillingAddressModel
                               billing_addresses set_billing_addresses inst)
                     entries)) as Hframe by (frame ltac:(done)).
        exact (Hframe w0 _ w1 Hloop1).
    - by injection Hloop1 as <-. }
  assert (entries_effect F (customer_id inst)
            (default [] (patch_delivery_addresses patch))
            (delivery_addresses (db w1)) (delivery_addresses (db w2))
          ∧ billing_addresses (db w2) = billing_addresses (db w1))
    as [Heffect2 Hb2].
  { destruct (patch_delivery_addresses patch) as [entries|]; simpl.
    - split.
      + apply (entries_run_inv F DeliveryAddressModel delivery_addresses
                 set_delivery_addresses) in Hloop2; [done|done|].
        by rewrite Hd1.
      + assert (preserves (same (fun w => billing_addresses (db w)))
                  (for_each (update_address_entry F DeliveryAddressModel
                               delivery_addresses set_delivery_addresses inst)
                     entries)) as Hframe by (frame ltac:(done)).
        exact (Hframe w1 _ w2 Hloop2).
    - by injection Hloop2 as <-. }
  rewrite Hb2. rewrite Hd1 in Heffect2. done.
Qed.

(** X24. What a successful profile update has done to the address tables.
    When [ProfileUpdateAPIView.patch] answers a success, the billing table
    is the result of the entries of [billing_addresses], in order, and the
    delivery table that of [delivery_addresses]: an entry with the id of a
    row the requesting customer owns has put its validated attributes on
    that row, in place; an entry with an id under which the customer owns no
    row (none, or the row of another customer) has changed nothing; an
    entry without an id has inserted one row, made of its validated
    attributes and owned by the customer, under a free key; and no entry
    had an id that is not a UUID.  An absent list changes nothing. *)
Theorem X24_profile_update_applies_entries (F : Framework) (user : Customer)
    (patch : ProfilePatch) (w w' : World) (r : Response) :
  db_wf (db w) →
  ProfileUpdateAPIView_patch F user patch w = (Return r, w') →
  success r = true →
  entries_effect F (customer_id user)
    (default [] (patch_billing_addresses patch))
    (billing_addresses (db w)) (billing_addresses (db w'))
  ∧ entries_effect F (customer_id user)
      (default [] (patch_delivery_addresses patch))
      (delivery_addresses (db w)) (delivery_addresses (db w')).
Proof. apply ProfileUpdate_entries. Qed.

(** X25. A profile update never touches the addresses of another
    customer: whatever the request of customer [user_id] contains and
    however it ends, every billing and delivery address owned by another
    customer is afterwards the row it was, under the same key. *)
Theorem X25_profile_update_spares_others (F : Framework) (user_id : uuid)
    (patch : ProfilePatch) (w w' : World) (out : Outcome Response) :
  db_wf (db w) →
  dispatch F (ProfileUpdate user_id patch) w = (out, w') →
  (∀ k a, billing_addresses (db w) !! k = Some a → address_user a ≠ user_id →
          billing_addresses (db w') !! k = Some a)
  ∧ (∀ k a, delivery_addresses (db w) !! k = Some a →
            address_user a ≠ user_id →
            delivery_addresses (db w') !! k = Some a).
Proof.
  intros Hwf Hrun.
  destruct (dispatch_ProfileUpdate_frame F user_id patch w w' out Hwf Hrun)
    as [Hb Hd].
  destruct Hwf as (_ & Hkb & Hkd & _).
  split; [by apply (Hb Hkb)|by apply (Hd Hkd)].
Qed.

(** ** The properties beyond the claims, at the worlds of [Demo] *)

Lemma X1_witness :
  otps_step (Demo.world Demo.db_alice 200)
    (dispatch Demo.framework (VerifyEmail Demo.verify_request)
       (Demo.world Demo.db_alice 200)).2.
Proof.
  apply (X1_request_touches_one_otp Demo.framework
           (VerifyEmail Demo.verify_request) (Demo.world Demo.db_alice 200) _
           (dispatch Demo.framework (VerifyEmail Demo.verify_request)
              (Demo.world Demo.db_alice 200)).1).
  - apply (bool_decide_unpack _). vm_compute. exact I.
  - apply surjective_pairing.
Defined.

Lemma X2_witness :
  ∃ o', otps (db (run Demo.framework (Demo.world Demo.db_alice 200)
                    [Call (VerifyEmail Demo.verify_request); Wait 5;
                     Call (ResendOTP Demo.verify_request)])) !! 7%N = Some o'
        ∧ otp_expires_at o' = 100 + timedelta_minutes 10.
Proof.
  destruct (X2_otp_ledger_append_only Demo.framework
              [Call (VerifyEmail Demo.verify_request); Wait 5;
               Call (ResendOTP Demo.verify_request)]
              (Demo.world Demo.db_alice 200) 7%N
              (Demo.otp_row 7%N "a@x.com" "12345678" 100 false))
    as (_ & _ & o' & Hk & Hexp & _).
  - apply (bool_decide_unpack _). vm_compute. exact I.
  - vm_compute. reflexivity.
  - exists o'. split; [exact Hk|exact Hexp].
Defined.

Lemma X3_witness :
  ∃ o', otps (db (run Demo.framework (Demo.world Demo.db_alice 700000000)
                    [Call (VerifyEmail Demo.verify_request); Wait 5]))
          !! 7%N = Some o'
        ∧ (OTP_is_valid o'
             (run Demo.framework (Demo.world Demo.db_alice 700000000)
                [Call (VerifyEmail Demo.verify_request); Wait 5])).1
          = Return false.
Proof.
  apply (X3_invalid_otp_stays_invalid Demo.framework
           [Call (VerifyEmail Demo.verify_request); Wait 5]
           (Demo.world Demo.db_alice 700000000) 7%N
           (Demo.otp_row 7%N "a@x.com" "12345678" 100 false)).
  - apply (bool_decide_unpack _). vm_compute. exact I.
  - vm_compute. reflexivity.
  - vm_compute. reflexivity.
Defined.

Lemma X4_witness :
  refused (VerifyEmailAPIView_post Demo.framework Demo.verify_request)
    (Demo.world Demo.db_alice 700000000)
  ∧ refused (VerifyResetOTPAPIView_post Demo.framework Demo.verify_request)
      (Demo.world Demo.db_alice 700000000)
  ∧ refused (ResetPasswordAPIView_post Demo.framework Demo.reset_request)
      (Demo.world Demo.db_alice 700000000).
Proof.
  apply (X4_no_valid_code_no_effect Demo.framework Demo.verify_request
           Demo.reset_request "a@x.com" "12345678" "another horse"
           (Demo.world Demo.db_alice 700000000)).
  - vm_compute. reflexivity.
  - vm_compute. reflexivity.
  - intros k o Hk _. cbn in Hk. apply lookup_singleton_Some in Hk as [_ <-].
    right. vm_compute. discriminate.
Defined.

Lemma X5_witness :
  customers_step (Demo.world Demo.db_alice 200)
    (dispatch Demo.framework (VerifyEmail Demo.verify_request)
       (Demo.world Demo.db_alice 200)).2.
Proof.
  apply (X5_request_touches_one_customer Demo.framework
           (VerifyEmail Demo.verify_request) (Demo.world Demo.db_alice 200) _
           (dispatch Demo.framework (VerifyEmail Demo.verify_request)
              (Demo.world Demo.db_alice 200)).1).
  - apply (bool_decide_unpack _). vm_compute. exact I.
  - apply surjective_pairing.
Defined.

Lemma X6_witness :
  ∃ c', customers (db (run Demo.framework (Demo.world Demo.db_alice 200)
                         [Call (VerifyEmail Demo.verify_request); Wait 5;
                          Call (ResetPassword Demo.reset_request)]))
          !! 1%N = Some c'
        ∧ same_identity Demo.alice c'.
Proof.
  apply (X6_customer_identity_is_kept Demo.framework
           [Call (VerifyEmail Demo.verify_request); Wait 5;
            Call (ResetPassword Demo.reset_request)]
           (Demo.world Demo.db_alice 200) 1%N Demo.alice).
  - apply (bool_decide_unpack _). vm_compute. exact I.
  - vm_compute. reflexivity.
Defined.

Lemma X7_witness :
  unique_emails
    (db (run Demo.framework (Demo.world Demo.db_alice 200)
           [Call (Register (Demo.request
                    [("email", "c@x.com"); ("password", "long enough");
                     ("confirm_password", "long enough")]));
            Call (VerifyEmail Demo.verify_request)])).
Proof.
  apply (X7_emails_stay_unique Demo.framework
           [Call (Register (Demo.request
                    [("email", "c@x.com"); ("password", "long enough");
                     ("confirm_password", "long enough")]));
            Call (VerifyEmail Demo.verify_request)]
           (Demo.world Demo.db_alice 200)).
  - apply (bool_decide_unpack _). vm_compute. exact I.
  - intros k1 k2 c1 c2 H1 H2 _. cbn in H1, H2.
    apply lookup_singleton_Some in H1 as [<- _].
    apply lookup_singleton_Some in H2 as [<- _]. reflexivity.
Defined.

Lemma X9_witness :
  otps (db (RegisterAPIView_post Demo.framework
              (Demo.request [("email", "c@x.com"); ("password", "long enough");
                             ("confirm_password", "long enough")])
              (Demo.world Demo.db_alice 200)).2)
  = otps Demo.db_alice.
Proof.
  edestruct (X9_register_outcome Demo.framework
               (Demo.request [("email", "c@x.com"); ("password", "long enough");
                              ("confirm_password", "long enough")])
               (Demo.world Demo.db_alice 200))
    as [Hotps _].
  - intros s v. unfold Demo.framework, EmailField.
    destruct (Demo.has_at s) eqn:Hat; [|discriminate].
    intros [= <-] ->. vm_compute in Hat. discriminate Hat.
  - apply surjective_pairing.
  - exact Hotps.
Defined.

Lemma X10_witness :
  rejects (RegisterAPIView_post Demo.framework
             (Demo.request [("email", "a@x.com"); ("password", "long enough");
                            ("confirm_password", "long enough")]))
    (Demo.world Demo.db_alice 200) HTTP_400_BAD_REQUEST "Registration failed".
Proof.
  apply (X10_register_refuses_taken_email Demo.framework _ "a@x.com" 1%N
           Demo.alice).
  - vm_compute. reflexivity.
  - vm_compute. reflexivity.
  - vm_compute. reflexivity.
Defined.

Lemma X11_witness :
  rejects (RegisterAPIView_post Demo.framework
             (Demo.request [("email", "c@x.com"); ("password", "long enough");
                            ("confirm_password", "something else")]))
    (Demo.world Demo.db_alice 200) HTTP_400_BAD_REQUEST "Registration failed".
Proof.
  apply (X11_register_checks_password Demo.framework _
           "long enough" "something else" "long enough" "something else").
  - vm_compute. reflexivity.
  - vm_compute. reflexivity.
  - vm_compute. reflexivity.
  - vm_compute. reflexivity.
  - left. discriminate.
Defined.

Lemma X12_witness :
  steps_reject Demo.framework (Demo.request [("city", "Durban")]) None
    (Demo.world Demo.db_alice 200) HTTP_400_BAD_REQUEST "Email is required".
Proof.
  apply (X12_steps_require_email Demo.framework). vm_compute. reflexivity.
Defined.

Lemma X13_witness :
  steps_reject Demo.framework (Demo.address_request "z@x.com") None
    (Demo.world Demo.db_alice 200) HTTP_404_NOT_FOUND
    "Customer not found. Please register first.".
Proof.
  apply (X13_steps_require_customer Demo.framework _ None "z@x.com").
  - vm_compute. reflexivity.
  - discriminate.
  - intros k c Hk. cbn in Hk. apply lookup_singleton_Some in Hk as [_ <-].
    discriminate.
Defined.

Lemma X14_witness :
  ∃ r w' a,
    BillingAddressRegisterAPIView_post Demo.framework
      (Demo.address_request "a@x.com") (Demo.world Demo.db_bob 200)
    = (Return r, w')
    ∧ billing_addresses (db w')
      = <[address_id a := a]> (billing_addresses Demo.db_bob)
    ∧ address_user a = 1%N.
Proof.
  destruct (BillingAddressRegisterAPIView_post Demo.framework
              (Demo.address_request "a@x.com") (Demo.world Demo.db_bob 200))
    as [[r|e] w'] eqn:Hrun; [|vm_compute in Hrun; discriminate Hrun].
  assert (success r = true) as Hok.
  { vm_compute in Hrun. injection Hrun as <- _. reflexivity. }
  destruct (X14_billing_adds_one_address Demo.framework
              (Demo.address_request "a@x.com") (Demo.world Demo.db_bob 200)
              w' r Hrun Hok)
    as (c & attrs & a & Hc & _ & _ & _ & Huser & _ & _ & Hins & _).
  exists r, w', a. split; [reflexivity|]. split; [exact Hins|].
  rewrite Huser. destruct Hc as (Hemail & _ & [k Hk] & _).
  cbn in Hk. apply lookup_insert_Some in Hk as [[_ <-]|[_ Hk]]; [reflexivity|].
  apply lookup_singleton_Some in Hk as [_ <-].
  vm_compute in Hemail. discriminate Hemail.
Defined.

Lemma X15_witness :
  rejects (ResendOTPAPIView_post Demo.framework
             (Demo.request [("email", "z@x.com")]))
    (Demo.world Demo.db_alice 200) HTTP_404_NOT_FOUND "User not found".
Proof.
  destruct (X15_resend_otp Demo.framework (Demo.request [("email", "z@x.com")])
              "z@x.com" (Demo.world Demo.db_alice 200))
    as (Hunknown & _).
  - apply (bool_decide_unpack _). vm_compute. exact I.
  - vm_compute. reflexivity.
  - apply Hunknown. intros k c Hk. cbn in Hk.
    apply lookup_singleton_Some in Hk as [_ <-]. discriminate.
Defined.

Lemma X16_witness :
  rejects (ForgotPasswordAPIView_post Demo.framework
             (Demo.request [("email", "z@x.com")]))
    (Demo.world Demo.db_alice 200) HTTP_404_NOT_FOUND
    "User with this email does not exist".
Proof.
  destruct (X16_forgot_password Demo.framework
              (Demo.request [("email", "z@x.com")])
              "z@x.com" (Demo.world Demo.db_alice 200))
    as (Hunknown & _).
  - vm_compute. reflexivity.
  - apply Hunknown. intros k c Hk. cbn in Hk.
    apply lookup_singleton_Some in Hk as [_ <-]. discriminate.
Defined.


Lemma X19_witness :
  ∃ r w',
    RefreshTokenAPIView_post Sessions.framework Sessions.refresh_request
      (Demo.world Demo.db_alice 200)
    = (Return r, w')
    ∧ db w' = Demo.db_alice.
Proof.
  destruct (X19_token_refresh Sessions.framework Sessions.refresh_request
              "r77" (Demo.world Demo.db_alice 200))
    as (r & w' & Hrun & Hdb & _).
  - vm_compute. reflexivity.
  - exists r, w'. split; [exact Hrun|exact Hdb].
Defined.

Lemma X20_witness :
  ∃ r w',
    LogoutAPIView_post Sessions.framework Demo.alice Sessions.refresh_request
      (Demo.world Demo.db_alice 200)
    = (Return r, w')
    ∧ success r = true
    ∧ rejects (RefreshTokenAPIView_post Sessions.framework
                 Sessions.refresh_request)
        (run Sessions.framework w' [Wait 5]) HTTP_401_UNAUTHORIZED
        "Invalid or expired refresh token".
Proof.
  destruct (X20_logout_revokes Sessions.framework Demo.alice
              Sessions.refresh_request "r77" Sessions.token
              (Demo.world Demo.db_alice 200))
    as (r & w' & Hrun & Hok & _ & _ & _ & _ & Hlater).
  - vm_compute. reflexivity.
  - discriminate.
  - split_and!.
    + vm_compute. reflexivity.
    + vm_compute. reflexivity.
    + simpl. apply not_elem_of_empty.
  - exists r, w'. split; [exact Hrun|]. split; [exact Hok|].
    apply (Hlater [Wait 5] Sessions.refresh_request Demo.alice).
    vm_compute. reflexivity.
Defined.

Lemma X21_witness :
  ∃ r w',
    LoginAPIView_post Demo.framework Demo.login_request
      (run Demo.framework (Demo.world Demo.db_alice 200)
         [Call (VerifyEmail Demo.verify_request)])
    = (Return r, w')
    ∧ ∃ user token, data r = DLogin (str_access_token Demo.framework token)
                               (str_refresh Demo.framework token) user
        ∧ token_user_id token = customer_id user.
Proof.
  destruct (LoginAPIView_post Demo.framework Demo.login_request
              (run Demo.framework (Demo.world Demo.db_alice 200)
                 [Call (VerifyEmail Demo.verify_request)]))
    as [[r|e] w'] eqn:Hrun; [|vm_compute in Hrun; discriminate Hrun].
  assert (success r = true) as Hok.
  { vm_compute in Hrun. injection Hrun as <- _. reflexivity. }
  destruct (X21_login_lifetime Demo.framework Demo.login_request _ w' r
              Hrun Hok)
    as (email & raw & remember & user & token & _ & _ & Hdata & Hid & _).
  exists r, w'. split; [reflexivity|]. exists user, token.
  split; [exact Hdata|exact Hid].
Defined.

Lemma X23_witness :
  db (ProfileAPIView_get Demo.alice (Demo.world Demo.db_bob 200)).2
  = Demo.db_bob.
Proof.
  destruct (X23_profile_is_read_only Demo.alice (Demo.world Demo.db_bob 200)
              _ _ (surjective_pairing _))
    as [Hdb _].
  exact Hdb.
Defined.

Lemma X24_witness :
  ∃ r w',
    ProfileUpdateAPIView_patch Demo.framework Demo.alice Patches.alice_patch
      (Demo.world Demo.db_bob 200)
    = (Return r, w')
    ∧ entries_effect Demo.framework (customer_id Demo.alice)
        (default [] (patch_billing_addresses Patches.alice_patch))
        (billing_addresses (db (Demo.world Demo.db_bob 200)))
        (billing_addresses (db w')).
Proof.
  destruct (ProfileUpdateAPIView_patch Demo.framework Demo.alice
              Patches.alice_patch (Demo.world Demo.db_bob 200))
    as [[r|e] w'] eqn:Hrun; [|vm_compute in Hrun; discriminate Hrun].
  assert (success r = true) as Hok.
  { vm_compute in Hrun. injection Hrun as <- _. reflexivity. }
  destruct (X24_profile_update_applies_entries Demo.framework Demo.alice
              Patches.alice_patch (Demo.world Demo.db_bob 200) w' r)
    as [Hbilling _].
  - apply (bool_decide_unpack _). vm_compute. exact I.
  - exact Hrun.
  - exact Hok.
  - exists r, w'. split; [reflexivity|exact Hbilling].
Defined.

Lemma X25_witness :
  billing_addresses
    (db (dispatch Demo.framework (ProfileUpdate 2%N Patches.alice_patch)
           (Demo.world Demo.db_bob 200)).2) !! 20%N
  = Some Demo.alice_address.
Proof.
  edestruct (X25_profile_update_spares_others Demo.framework 2%N
               Patches.alice_patch (Demo.world Demo.db_bob 200))
    as [Hbilling _].
  - apply (bool_decide_unpack _). vm_compute. exact I.
  - apply surjective_pairing.
  - apply Hbilling; [vm_compute; reflexivity|vm_compute; discriminate].
Defined.
